(** * tiktok-live-recorder: daily log runner and systemd installer

    A shallow embedding of [src/daily_log_runner.py] and of the argument
    handling of [src/systemd_installer.py], with the properties of the
    rotating writer and of the process supervisor proved over it.

    A Python [str] is modelled by the [string] of its UTF-8 bytes (the
    separators and dots the code looks for are ASCII, so that they are
    found at the same places), [list[str]] as [list string],
    [pathlib.Path] by its parsed form (root and components),
    and the effectful code ([run_with_daily_logs], [main]) by explicit state
    passing over a small file-system and process model. *)

From Stdlib Require Import String Ascii List Bool Arith ZArith Lia Eqdep_dec.
From Stdlib Require Import DecimalString.
Import ListNotations.

Local Open Scope string_scope.

(** ** Python string helpers *)

Module PyStr.

(** [s.startswith(p)] *)
Definition startswith (s p : string) : bool := String.prefix p s.

(** [c in s] for a one-character [c] *)
Fixpoint contains_char (c : ascii) (s : string) : bool :=
  match s with
  | EmptyString => false
  | String a s' => if Ascii.eqb a c then true else contains_char c s'
  end.

(** [s.split(c)] for a one-character separator: never the empty list *)
Fixpoint split (c : ascii) (s : string) : list string :=
  match s with
  | EmptyString => [EmptyString]
  | String a s' =>
      if Ascii.eqb a c then EmptyString :: split c s'
      else match split c s' with
           | [] => [String a EmptyString]
           | h :: t => String a h :: t
           end
  end.

(** [sep.join(l)] *)
Fixpoint join (sep : string) (l : list string) : string :=
  match l with
  | [] => EmptyString
  | [x] => x
  | x :: rest => x ++ sep ++ join sep rest
  end.

(** [s.endswith(p)] *)
Definition endswith (s p : string) : bool :=
  let n := String.length s in
  let m := String.length p in
  if Nat.leb m n then String.eqb (String.substring (n - m) m s) p else false.

(** [x in l] for a list of strings *)
Fixpoint mem (x : string) (l : list string) : bool :=
  match l with
  | [] => false
  | y :: l' => if String.eqb y x then true else mem x l'
  end.

End PyStr.

(** ** [datetime.date] *)

Module PyDate.

Definition is_leap (y : nat) : bool :=
  (Nat.eqb (y mod 4) 0 && negb (Nat.eqb (y mod 100) 0)) || Nat.eqb (y mod 400) 0.

Definition days_in_month (y m : nat) : nat :=
  match m with
  | 2 => if is_leap y then 29 else 28
  | 4 | 6 | 9 | 11 => 30
  | _ => 31
  end.

Definition MINYEAR : nat := 1.
#[warning="-abstract-large-number"]
Definition MAXYEAR : nat := 9999.

(** The range check of the [date] constructor. *)
Definition valid_ymd (y m d : nat) : bool :=
  Nat.leb MINYEAR y && Nat.leb y MAXYEAR && Nat.leb 1 m && Nat.leb m 12 &&
  Nat.leb 1 d && Nat.leb d (days_in_month y m).

(** A [datetime.date] value; the constructor refuses fields out of range,
    so every value carries the range invariant. *)
Record date : Type := mkDate {
  year : nat;
  month : nat;
  day : nat;
  date_ok : valid_ymd year month day = true
}.

Definition digit (n : nat) : ascii := ascii_of_nat (48 + n mod 10).

(** ["%02d" % n] for [n < 100] *)
Definition fmt02 (n : nat) : string :=
  String (digit (n / 10)) (String (digit n) EmptyString).

(** ["%04d" % n] for [n < 10000] *)
Definition fmt04 (n : nat) : string :=
  String (digit (n / 1000)) (String (digit (n / 100))
    (String (digit (n / 10)) (String (digit n) EmptyString))).

(** [date.isoformat()]: ["%04d-%02d-%02d" % (year, month, day)] *)
Definition isoformat (d : date) : string :=
  fmt04 (year d) ++ "-" ++ fmt02 (month d) ++ "-" ++ fmt02 (day d).

Definition is_digit (c : ascii) : bool :=
  let n := nat_of_ascii c in Nat.leb 48 n && Nat.leb n 57.

Definition digit_val (c : ascii) : nat := nat_of_ascii c - 48.

End PyDate.

(** ** [pathlib.PurePosixPath] *)

Module Pathlib.

(** The root of a POSIX path: none, ["/"], or ["//"] (exactly two leading
    slashes are kept apart by [splitroot]). *)
Inductive Root : Type := NoRoot | Root1 | Root2.

Record Path : Type := mkPath { root : Root; parts : list string }.

Definition slash : ascii := "/"%char.

(** [posixpath.splitroot], without the drive (always empty on POSIX) *)
Definition splitroot (s : string) : Root * string :=
  match s with
  | String a s1 =>
      if Ascii.eqb a slash then
        match s1 with
        | String b s2 =>
            if Ascii.eqb b slash then
              match s2 with
              | String c _ => if Ascii.eqb c slash then (Root1, s1) else (Root2, s2)
              | EmptyString => (Root2, s2)
              end
            else (Root1, s1)
        | EmptyString => (Root1, s1)
        end
      else (NoRoot, s)
  | EmptyString => (NoRoot, s)
  end.

(** a component is kept when it is neither empty nor ["."] *)
Definition keep_part (x : string) : bool :=
  negb (String.eqb x EmptyString) && negb (String.eqb x ".").

(** [Path(s)]: [rel.split("/")] filtered by [x and x != "."] *)
Definition parse (s : string) : Path :=
  let '(r, rel) := splitroot s in
  mkPath r (filter keep_part (PyStr.split slash rel)).

(** [p / key] for a string [key]: an anchored [key] replaces [p] *)
Definition truediv (p : Path) (key : string) : Path :=
  let q := parse key in
  match root q with
  | NoRoot => mkPath (root p) (parts p ++ parts q)
  | _ => q
  end.

(** [p / q] for a path [q] *)
Definition truediv_path (p q : Path) : Path :=
  match root q with
  | NoRoot => mkPath (root p) (parts p ++ parts q)
  | _ => q
  end.

(** [p.parent]; a path without components is its own parent *)
Definition parent (p : Path) : Path := mkPath (root p) (removelast (parts p)).

(** [p.name] *)
Definition name (p : Path) : string := last (parts p) EmptyString.

Definition root_str (r : Root) : string :=
  match r with NoRoot => EmptyString | Root1 => "/" | Root2 => "//" end.

(** [str(p)] *)
Definition str (p : Path) : string :=
  match root p, parts p with
  | NoRoot, [] => "."
  | r, l => root_str r ++ PyStr.join "/" l
  end.

(** [s.rfind(".")] as the pieces before and from the last dot *)
Fixpoint rsplit_dot (s : string) : option (string * string) :=
  match s with
  | EmptyString => None
  | String a s' =>
      match rsplit_dot s' with
      | Some (pre, suf) => Some (String a pre, suf)
      | None => if Ascii.eqb a "."%char then Some (EmptyString, s) else None
      end
  end.

(** [p.suffix]: from the last dot of the name, unless that dot is the
    first or the last character *)
Definition suffix (p : Path) : string :=
  match rsplit_dot (name p) with
  | Some (String _ _, (String _ (String _ _)) as suf) => suf
  | _ => EmptyString
  end.

(** [p.stem]: the name without its suffix *)
Definition stem (p : Path) : string :=
  match rsplit_dot (name p) with
  | Some ((String _ _) as pre, String _ (String _ _)) => pre
  | _ => name p
  end.

Definition Root_eq_dec (a b : Root) : {a = b} + {a <> b}.
Proof. decide equality. Defined.

Definition Path_eq_dec (p q : Path) : {p = q} + {p <> q}.
Proof.
  decide equality.
  - apply (list_eq_dec String.string_dec).
  - apply Root_eq_dec.
Defined.

Definition Path_eqb (p q : Path) : bool :=
  if Path_eq_dec p q then true else false.

End Pathlib.

(** ** [daily_log_runner.py] *)

Module DailyLogRunner.

Import Pathlib PyDate.

(** *** The pure helpers *)

Definition normalize_extension (extension : string) : string :=
  if String.eqb extension EmptyString then ".log"
  else if PyStr.startswith extension "." then extension
       else "." ++ extension.

Definition normalize_command (command : list string) : list string :=
  match command with
  | first :: rest => if String.eqb first "--" then rest else command
  | [] => command
  end.

(** [today] is the value [datetime.date.today()] returns at the call. *)
Definition daily_log_path (today : date) (log_dir : Path)
    (log_prefix log_extension : string) : Path :=
  let day := isoformat today in
  truediv log_dir (log_prefix ++ "-" ++ day ++ log_extension).

(** *** Exceptions *)

(** The subclasses of [Exception] that the runner can meet. *)
Inductive error : Type :=
| FileNotFoundError | FileExistsError | NotADirectoryError
| IsADirectoryError | PermissionError | OSError
| RuntimeError | ValueError | UnicodeDecodeError | AttributeError.

(** [KeyboardInterrupt] and [SystemExit] derive from [BaseException]
    only: [except Exception] does not catch them. *)
Inductive exn : Type :=
| Exception (e : error)
| KeyboardInterrupt
| SystemExit (code : Z).

Inductive result (A : Type) : Type :=
| Ok (a : A)
| Raise (e : exn).
Arguments Ok {A} a.
Arguments Raise {A} e.

(** *** The file system, the open files and the child *)

Inductive Node : Type := Absent | Dir | File (content : string).

Definition FileSystem : Type := Path -> Node.

Definition fs_set (fs : FileSystem) (p : Path) (n : Node) : FileSystem :=
  fun q => if Path_eq_dec q p then n else fs q.

(** what a regular file holds; nothing for a path that is no file *)
Definition content_of (fs : FileSystem) (p : Path) : string :=
  match fs p with File c => c | _ => EmptyString end.

(** What the runner did, in the order it did it: the calls that
    returned (a call that raises leaves no entry) and, for a [close()]
    whose flush raised, the release of the file, which happens all the
    same ([AClose]). *)
Inductive Action : Type :=
| AMkdir (p : Path)
| APopen (command : list string)
| AOpen (p : Path)
| AWrite (p : Path) (line : string)
| AFlush (p : Path)
| AClose (p : Path)
| AEcho (line : string)
| AWait
| APoll
| ATerminate
| ACloseStream
| APrint (msg : string).

(** A text file object: its path, what [write] buffered and [flush] has
    not yet handed to the file system, and whether it is closed. *)
Record TextIO : Type := mkTextIO {
  f_path : Path;
  f_buffer : string;
  f_closed : bool
}.

(** The machine state: the file system, the log files held open, the
    child's output pipe, this process's own standard output, the calls
    made so far, and the two local variables of [run_with_daily_logs]
    that its [finally] clause reads. *)
Record State : Type := mkState {
  st_fs : FileSystem;
  st_open : list Path;
  st_stream_open : bool;
  st_stdout : string;
  st_trace : list Action;
  current_log_path : option Path;
  current_log_file : option TextIO
}.

Definition set_fs (fs : FileSystem) (st : State) : State :=
  mkState fs (st_open st) (st_stream_open st) (st_stdout st) (st_trace st)
          (current_log_path st) (current_log_file st).

Definition set_open (o : list Path) (st : State) : State :=
  mkState (st_fs st) o (st_stream_open st) (st_stdout st) (st_trace st)
          (current_log_path st) (current_log_file st).

Definition set_stream_open (b : bool) (st : State) : State :=
  mkState (st_fs st) (st_open st) b (st_stdout st) (st_trace st)
          (current_log_path st) (current_log_file st).

Definition set_stdout (s : string) (st : State) : State :=
  mkState (st_fs st) (st_open st) (st_stream_open st) s (st_trace st)
          (current_log_path st) (current_log_file st).

Definition log_action (a : Action) (st : State) : State :=
  mkState (st_fs st) (st_open st) (st_stream_open st) (st_stdout st)
          (st_trace st ++ [a]) (current_log_path st) (current_log_file st).

Definition set_current_log_path (p : option Path) (st : State) : State :=
  mkState (st_fs st) (st_open st) (st_stream_open st) (st_stdout st)
          (st_trace st) p (current_log_file st).

Definition set_current_log_file (f : option TextIO) (st : State) : State :=
  mkState (st_fs st) (st_open st) (st_stream_open st) (st_stdout st)
          (st_trace st) (current_log_path st) f.

(** One line read from [process.stdout], with what the environment does
    while it is handled: the date [datetime.date.today()] returns,
    whether the device refuses the text when the log file is flushed, and
    whether standard output refuses the echo (both [OSError]). *)
Record LineEvent : Type := mkLine {
  le_line : string;
  le_today : date;
  le_flush_fails : bool;
  le_echo_fails : bool
}.

(** How the iteration over [process.stdout] ends: with the end of the
    stream, with a [KeyboardInterrupt] taken while the loop waits for the
    next line, or with an error of the read. *)
Inductive stream_end : Type :=
| EndOfStream
| InterruptedRead
| ReadFails (e : error).

(** How [process.wait()] ends when called after the stream has ended. *)
Inductive wait_outcome : Type :=
| Exited (status : Z)
| InterruptedWait.

(** What [subprocess.Popen] does: the child starts, with or without a
    [stdout] pipe object, or the launch fails. *)
Inductive launch_outcome : Type :=
| Launched (has_stdout : bool)
| LaunchFails (e : error).

(** The environment of one run; [env_close_fails] says whether the
    device still refuses buffered text when [finally] closes the log
    file. *)
Record Env : Type := mkEnv {
  env_launch : list string -> launch_outcome;
  env_lines : list LineEvent;
  env_end : stream_end;
  env_wait : wait_outcome;
  env_poll : option Z;
  env_close_fails : bool
}.

(** *** A state and exception monad *)

Definition M (A : Type) : Type := State -> State * result A.

Definition ret {A : Type} (a : A) : M A := fun st => (st, Ok a).

Definition raise {A : Type} (e : exn) : M A := fun st => (st, Raise e).

Definition bind {A B : Type} (m : M A) (k : A -> M B) : M B :=
  fun st =>
    match m st with
    | (st', Ok a) => k a st'
    | (st', Raise e) => (st', Raise e)
    end.

Definition modify (f : State -> State) : M unit := fun st => (f st, Ok tt).

Definition get {A : Type} (f : State -> A) : M A := fun st => (st, Ok (f st)).

Declare Scope py_scope.
Delimit Scope py_scope with py.
Notation "x <- m ;; k" := (bind m (fun x => k))
  (at level 61, m at next level, right associativity) : py_scope.
Notation "m ;;; k" := (bind m (fun _ => k))
  (at level 61, right associativity) : py_scope.
Local Open Scope py_scope.

(** *** The library calls *)

(** [Path.mkdir(parents=True, exist_ok=True)] on the path with root [r]
    and components [rev rparts]. *)
Fixpoint mkdir_parents (fs : FileSystem) (r : Root) (rparts : list string)
  : FileSystem + error :=
  let p := mkPath r (rev rparts) in
  match fs p with
  | Dir => inl fs
  | File _ => inr FileExistsError
  | Absent =>
      match rparts with
      | [] => inr FileNotFoundError
      | _ :: up =>
          match fs (mkPath r (rev up)) with
          | Dir => inl (fs_set fs p Dir)
          | File _ => inr NotADirectoryError
          | Absent =>
              match mkdir_parents fs r up with
              | inl fs' => inl (fs_set fs' p Dir)
              | inr e => inr e
              end
          end
      end
  end.

Definition Path_mkdir (p : Path) : M unit :=
  fs <- get st_fs ;;
  match mkdir_parents fs (root p) (rev (parts p)) with
  | inl fs' => modify (set_fs fs') ;;; modify (log_action (AMkdir p))
  | inr e => raise (Exception e)
  end.

(** The error for a path under the absent directory with root [r] and
    components [rev rparts]: [NotADirectoryError] when the nearest
    ancestor that exists is a regular file, [FileNotFoundError]
    otherwise. *)
Fixpoint absent_error (fs : FileSystem) (r : Root) (rparts : list string)
  : error :=
  match rparts with
  | [] => FileNotFoundError
  | _ :: up =>
      match fs (mkPath r (rev up)) with
      | Dir => FileNotFoundError
      | File _ => NotADirectoryError
      | Absent => absent_error fs r up
      end
  end.

(** [open(p, "a")], as the tree of directories decides it: creates the
    file when its directory exists, never a directory. *)
Definition open_append (fs : FileSystem) (p : Path) : FileSystem + error :=
  match fs p with
  | File _ => inl fs
  | Dir => inr IsADirectoryError
  | Absent =>
      match fs (parent p) with
      | Dir => inl (fs_set fs p (File EmptyString))
      | File _ => inr NotADirectoryError
      | Absent =>
          inr (absent_error fs (root p) (rev (parts (parent p))))
      end
  end.

Definition Path_open (p : Path) : M TextIO :=
  fs <- get st_fs ;;
  match open_append fs p with
  | inl fs' =>
      modify (set_fs fs') ;;;
      o <- get st_open ;;
      modify (set_open (o ++ [p])) ;;;
      modify (log_action (AOpen p)) ;;;
      ret (mkTextIO p EmptyString false)
  | inr e => raise (Exception e)
  end.

(** [f.write(line)]: the text goes to the buffer; the updated file
    object is returned. *)
Definition TextIO_write (f : TextIO) (line : string) : M TextIO :=
  if f_closed f then raise (Exception ValueError)
  else
    modify (log_action (AWrite (f_path f) line)) ;;;
    ret (mkTextIO (f_path f) (f_buffer f ++ line) false).

(** the buffer reaches the file *)
Definition commit (f : TextIO) (fs : FileSystem) : FileSystem :=
  fs_set fs (f_path f) (File (content_of fs (f_path f) ++ f_buffer f)).

(** [f.flush()]: the buffered text is handed to the device, which takes
    it whole or refuses it; when it is refused ([fails]) the text stays in
    the buffer and [OSError] is raised. With nothing buffered nothing is
    handed over and nothing can be refused. *)
Definition TextIO_flush (f : TextIO) (fails : bool) : M TextIO :=
  if f_closed f then raise (Exception ValueError)
  else if negb (String.eqb (f_buffer f) EmptyString) && fails
  then raise (Exception OSError)
  else
    modify (log_action (AFlush (f_path f))) ;;;
    fs <- get st_fs ;;
    modify (set_fs (commit f fs)) ;;;
    ret (mkTextIO (f_path f) EmptyString false).

(** remove one occurrence *)
Fixpoint remove_one (p : Path) (l : list Path) : list Path :=
  match l with
  | [] => []
  | q :: l' => if Path_eq_dec q p then l' else q :: remove_one p l'
  end.

(** the file is given back to the system *)
Definition release (p : Path) : M unit :=
  modify (log_action (AClose p)) ;;;
  o <- get st_open ;;
  modify (set_open (remove_one p o)).

(** [f.close()]: flushes, then releases the file; nothing on a closed
    object. When the flush raises, the file is released all the same and
    the error goes on. *)
Definition TextIO_close (f : TextIO) (fails : bool) : M TextIO :=
  if f_closed f then ret f
  else
    fun st =>
      match TextIO_flush f fails st with
      | (st1, Ok f') =>
          (release (f_path f) ;;;
           ret (mkTextIO (f_path f') (f_buffer f') true)) st1
      | (st1, Raise e) => (release (f_path f) ;;; raise e) st1
      end.

(** [sys.stdout.write(line); sys.stdout.flush()]; [fails] says whether
    standard output refuses the text ([OSError]) *)
Definition stdout_write (line : string) (fails : bool) : M unit :=
  if fails then raise (Exception OSError)
  else
    modify (log_action (AEcho line)) ;;;
    out <- get st_stdout ;;
    modify (set_stdout (out ++ line)).

(** [subprocess.Popen(command, stdout=PIPE, stderr=STDOUT, text=True,
    bufsize=1)]; the result says whether [process.stdout] is an object. *)
Definition Popen (env : Env) (command : list string) : M bool :=
  match env_launch env command with
  | Launched has_stdout =>
      modify (set_stream_open has_stdout) ;;;
      modify (log_action (APopen command)) ;;;
      ret has_stdout
  | LaunchFails e => raise (Exception e)
  end.

(** [process.wait()] at line 98 *)
Definition process_wait (env : Env) : M Z :=
  match env_wait env with
  | Exited status => modify (log_action AWait) ;;; ret status
  | InterruptedWait => raise KeyboardInterrupt
  end.

(** [process.poll()] in the handler *)
Definition process_poll (env : Env) : M (option Z) :=
  modify (log_action APoll) ;;; ret (env_poll env).

Definition process_terminate : M unit := modify (log_action ATerminate).

(** [process.wait()] after [terminate()]; its value is not used *)
Definition process_wait_terminated : M unit := modify (log_action AWait).

(** [process.stdout.close()] *)
Definition stream_close : M unit :=
  modify (log_action ACloseStream) ;;; modify (set_stream_open false).

(** *** [run_with_daily_logs] *)

Definition path_differs (target : Path) (current : option Path) : bool :=
  match current with
  | Some p => negb (Path_eqb target p)
  | None => true
  end.

(** [current_log_file.close()] for the file object [f] that
    [current_log_file] names (lines 87 and 108): the variable names the
    closed object afterwards, also when the flush inside [close]
    raised. *)
Definition close_current (f : TextIO) (flush_fails : bool) : M unit :=
  fun st =>
    match TextIO_close f flush_fails st with
    | (st', Ok f') => (set_current_log_file (Some f') st', Ok tt)
    | (st', Raise e) =>
        (set_current_log_file (Some (mkTextIO (f_path f) (f_buffer f) true)) st',
         Raise e)
    end.

(** lines 85 to 89: the file the line goes to is made the current one *)
Definition select_log_file (target_path : Path) (flush_fails : bool) : M unit :=
  cur_path <- get current_log_path ;;
  if path_differs target_path cur_path then
    cur_file <- get current_log_file ;;
    match cur_file with
    | Some f => close_current f flush_fails
    | None => ret tt
    end ;;;
    f <- Path_open target_path ;;
    modify (set_current_log_file (Some f)) ;;;
    modify (set_current_log_path (Some target_path))
  else ret tt.

(** lines 91 to 96: the line is written and flushed, then echoed *)
Definition write_line (line : string) (flush_fails echo_fails echo : bool)
  : M unit :=
  cur_file <- get current_log_file ;;
  match cur_file with
  | Some f =>
      f1 <- TextIO_write f line ;;
      modify (set_current_log_file (Some f1)) ;;;
      f2 <- TextIO_flush f1 flush_fails ;;
      modify (set_current_log_file (Some f2)) ;;;
      if echo then stdout_write line echo_fails else ret tt
  | None => raise (Exception AttributeError)
  end.

(** lines 84 to 96: the body of the loop for one line *)
Definition process_line (log_dir : Path) (log_prefix log_extension : string)
    (echo : bool) (ev : LineEvent) : M unit :=
  let line := le_line ev in
  let target_path := daily_log_path (le_today ev) log_dir log_prefix log_extension in
  select_log_file target_path (le_flush_fails ev) ;;;
  write_line line (le_flush_fails ev) (le_echo_fails ev) echo.

(** lines 83 to 96: [for line in process.stdout] *)
Fixpoint read_loop (log_dir : Path) (log_prefix log_extension : string)
    (echo : bool) (lines : list LineEvent) (fin : stream_end) : M unit :=
  match lines with
  | ev :: rest =>
      process_line log_dir log_prefix log_extension echo ev ;;;
      read_loop log_dir log_prefix log_extension echo rest fin
  | [] =>
      match fin with
      | EndOfStream => ret tt
      | InterruptedRead => raise KeyboardInterrupt
      | ReadFails e => raise (Exception e)
      end
  end.

(** lines 80 to 98: the body of [try] *)
Definition try_body (env : Env) (has_stdout : bool) (log_dir : Path)
    (log_prefix log_extension : string) (echo : bool) : M Z :=
  if has_stdout then
    read_loop log_dir log_prefix log_extension echo (env_lines env) (env_end env) ;;;
    process_wait env
  else raise (Exception RuntimeError).

(** lines 99 to 103: [except KeyboardInterrupt] *)
Definition on_keyboard_interrupt (env : Env) : M Z :=
  status <- process_poll env ;;
  match status with
  | None => process_terminate ;;; process_wait_terminated
  | Some _ => ret tt
  end ;;;
  ret 130%Z.

(** lines 104 to 108: [finally] *)
Definition finally_clause (env : Env) (has_stdout : bool) : M unit :=
  (if has_stdout then stream_close else ret tt) ;;;
  cur_file <- get current_log_file ;;
  match cur_file with
  | Some f => close_current f (env_close_fails env)
  | None => ret tt
  end.

(** [try: body except KeyboardInterrupt: handler finally: fin] *)
Definition try_except_finally {A : Type} (body handler : M A) (fin : M unit) : M A :=
  fun st =>
    let '(st1, r1) :=
      match body st with
      | (st', Raise KeyboardInterrupt) => handler st'
      | other => other
      end in
    match fin st1 with
    | (st2, Ok _) => (st2, r1)
    | (st2, Raise e) => (st2, Raise e)
    end.

Definition run_with_daily_logs (env : Env) (command : list string)
    (log_dir : Path) (log_prefix log_extension : string) (echo : bool) : M Z :=
  Path_mkdir log_dir ;;;
  has_stdout <- Popen env command ;;
  modify (set_current_log_path None) ;;;
  modify (set_current_log_file None) ;;;
  try_except_finally
    (try_body env has_stdout log_dir log_prefix log_extension echo)
    (on_keyboard_interrupt env)
    (finally_clause env has_stdout).

(** *** [main] *)

(** the parsed command line *)
Record Namespace : Type := mkArgs {
  args_log_dir : Path;
  args_log_prefix : string;
  args_log_extension : string;
  args_echo : bool;
  args_command : list string
}.

Definition print (msg : string) : M unit := modify (log_action (APrint msg)).

(** [parser.error(msg)]: prints the usage and exits with status 2 *)
Definition parser_error {A : Type} (msg : string) : M A :=
  print msg ;;; raise (SystemExit 2).

(** [resolve] stands for [p.expanduser().resolve()]. *)
Definition main (resolve : Path -> Path) (env : Env) (args : Namespace) : M Z :=
  let command := normalize_command (args_command args) in
  match command with
  | [] => parser_error "Missing command. Add command arguments after --"
  | _ :: _ =>
      let extension := normalize_extension (args_log_extension args) in
      fun st =>
        match run_with_daily_logs env command (resolve (args_log_dir args))
                (args_log_prefix args) extension (args_echo args) st with
        | (st', Ok code) => (st', Ok code)
        | (st', Raise (Exception FileNotFoundError)) =>
            (print "Command not found" ;;; ret 1%Z) st'
        | (st', Raise (Exception _)) =>
            (print "Error" ;;; ret 1%Z) st'
        | (st', Raise e) => (st', Raise e)
        end
  end.

(** A fresh process: nothing open, nothing printed, no call made. *)
Definition initial_state (fs : FileSystem) : State :=
  mkState fs [] false EmptyString [] None None.

(** the log files a trace leaves open *)
Fixpoint open_after (tr : list Action) (acc : list Path) : list Path :=
  match tr with
  | [] => acc
  | AOpen p :: tr' => open_after tr' (acc ++ [p])
  | AClose p :: tr' => open_after tr' (remove_one p acc)
  | _ :: tr' => open_after tr' acc
  end.

End DailyLogRunner.

(** ** [systemd_installer.py] *)

Module SystemdInstaller.

Import Pathlib.

Inductive error : Type := ValueError.

Record SystemdInstallConfig : Type := mkConfig {
  service_name : string;
  description : string;
  python_bin : string;
  main_script : Path;
  working_directory : Path;
  recorder_args : list string;
  user_service : bool;
  run_as_user : option string;
  run_as_group : option string;
  log_runner_script : Path;
  log_file : Path;
  restart_sec : Z;
  enable_now : bool;
  dry_run : bool
}.

Definition normalize_service_name (service_name : string) : string :=
  if PyStr.endswith service_name ".service" then service_name
  else service_name ++ ".service".

Definition normalize_recorder_args (recorder_args : list string) : list string :=
  let args := filter (fun arg => negb (String.eqb arg "--")) recorder_args in
  if negb (PyStr.mem "-no-update-check" args)
  then args ++ ["-no-update-check"]
  else args.

(** [s.replace(old, new)] for a non-empty [old]: [skip] counts the
    characters of a match still to be passed over. *)
Fixpoint replace_from (old new s : string) (skip : nat) : string :=
  match s with
  | EmptyString => EmptyString
  | String a s' =>
      match skip with
      | S k => replace_from old new s' k
      | O =>
          if String.prefix old s
          then new ++ replace_from old new s' (String.length old - 1)
          else String a (replace_from old new s' 0)
      end
  end.

Definition replace (s old new : string) : string := replace_from old new s 0.

Definition default_log_file (working_directory : Path) (service_name : string) : Path :=
  let normalized := normalize_service_name service_name in
  let log_name := replace normalized ".service" ".log" in
  truediv (truediv working_directory "logs") log_name.

(** *** [shlex.join] *)

(** the characters [shlex.quote] leaves alone: [[\w@%+=:,./-]] (ASCII) *)
Definition is_safe_char (c : ascii) : bool :=
  let n := nat_of_ascii c in
  (Nat.leb 48 n && Nat.leb n 57) || (Nat.leb 65 n && Nat.leb n 90) ||
  (Nat.leb 97 n && Nat.leb n 122) ||
  existsb (Nat.eqb n) [95; 64; 37; 43; 61; 58; 44; 46; 47; 45].

Fixpoint all_safe (s : string) : bool :=
  match s with
  | EmptyString => true
  | String a s' => is_safe_char a && all_safe s'
  end.

Definition squote : string := "'".
Definition dquote : string := String (ascii_of_nat 34) EmptyString.

(** [s.replace("'", "'" + '"' + "'" + '"' + "'")] *)
Fixpoint escape_squotes (s : string) : string :=
  match s with
  | EmptyString => EmptyString
  | String a s' =>
      if Ascii.eqb a "'"%char
      then squote ++ dquote ++ squote ++ dquote ++ squote ++ escape_squotes s'
      else String a (escape_squotes s')
  end.

Definition shlex_quote (s : string) : string :=
  if String.eqb s EmptyString then squote ++ squote
  else if all_safe s then s
  else squote ++ escape_squotes s ++ squote.

Definition shlex_join (command : list string) : string :=
  PyStr.join " " (map shlex_quote command).

(** [config.log_file.suffix or ".log"] *)
Definition suffix_or_log (p : Path) : string :=
  if String.eqb (suffix p) EmptyString then ".log" else suffix p.

(** the [command] list of [build_exec_start] *)
Definition exec_start_command (config : SystemdInstallConfig) : list string :=
  let log_extension := suffix_or_log (log_file config) in
  [ python_bin config;
    str (log_runner_script config);
    "--log-dir";
    str (parent (log_file config));
    "--log-prefix";
    stem (log_file config);
    "--log-extension";
    log_extension;
    "--";
    python_bin config;
    str (main_script config) ]
  ++ recorder_args config.

Definition build_exec_start (config : SystemdInstallConfig) : string :=
  shlex_join (exec_start_command config).

(** *** [build_config] *)

(** *** [str.strip]

    The characters [str.isspace] accepts, as the UTF-8 bytes that spell
    them: U+0009 to U+000D, U+001C to U+0020; U+0085 and U+00A0; U+1680,
    U+2000 to U+200A, U+2028, U+2029, U+202F, U+205F and U+3000. *)
Definition is_space1 (a : ascii) : bool :=
  let n := nat_of_ascii a in
  (Nat.leb 9 n && Nat.leb n 13) || (Nat.leb 28 n && Nat.leb n 32).

Definition is_space2 (a b : ascii) : bool :=
  Nat.eqb (nat_of_ascii a) 194
  && (Nat.eqb (nat_of_ascii b) 133 || Nat.eqb (nat_of_ascii b) 160).

Definition is_space3 (a b c : ascii) : bool :=
  let n := nat_of_ascii a in
  let m := nat_of_ascii b in
  let k := nat_of_ascii c in
  (Nat.eqb n 225 && Nat.eqb m 154 && Nat.eqb k 128)
  || (Nat.eqb n 226 && Nat.eqb m 128
      && ((Nat.leb 128 k && Nat.leb k 138) || Nat.eqb k 168 || Nat.eqb k 169
          || Nat.eqb k 175))
  || (Nat.eqb n 226 && Nat.eqb m 129 && Nat.eqb k 159)
  || (Nat.eqb n 227 && Nat.eqb m 128 && Nat.eqb k 128).

(** the text is one blank character and nothing else *)
Definition is_space (s : string) : bool :=
  match s with
  | String a EmptyString => is_space1 a
  | String a (String b EmptyString) => is_space2 a b
  | String a (String b (String c EmptyString)) => is_space3 a b c
  | _ => false
  end.

Fixpoint lstrip (s : string) : string :=
  match s with
  | EmptyString => EmptyString
  | String a s1 =>
      if is_space1 a then lstrip s1
      else
        match s1 with
        | String b s2 =>
            if is_space2 a b then lstrip s2
            else
              match s2 with
              | String c s3 => if is_space3 a b c then lstrip s3 else s
              | EmptyString => s
              end
        | EmptyString => s
        end
  end.

(** the blanks at the end go one character at a time: what is left of
    the tail, with the byte before it, is dropped when it is one blank *)
Fixpoint rstrip (s : string) : string :=
  match s with
  | EmptyString => EmptyString
  | String a s' =>
      let r := String a (rstrip s') in
      if is_space r then EmptyString else r
  end.

(** [s.strip()] *)
Definition strip (s : string) : string := rstrip (lstrip s).

(** the parsed command line of the installer *)
Record Namespace : Type := mkArgs {
  args_service_name : string;
  args_description : string;
  args_python_bin : string;
  args_main_script : Path;
  args_working_directory : Path;
  args_user_service : bool;
  args_run_as_user : option string;
  args_run_as_group : option string;
  args_log_file : option Path;
  args_restart_sec : Z;
  args_enable_now : bool;
  args_dry_run : bool
}.

(** What the installer asks of the host: [expanduser], [resolve], the
    file tests, and the directory of the installer script. *)
Record Host : Type := mkHost {
  expanduser : Path -> Path;
  resolve : Path -> Path;
  is_file : Path -> bool;
  is_dir : Path -> bool;
  exists_ : Path -> bool;
  script_dir : Path
}.

Definition is_absolute (p : Path) : bool :=
  match root p with NoRoot => false | _ => true end.

Definition build_config (host : Host) (args : Namespace)
    (recorder_args : list string) : SystemdInstallConfig + error :=
  let service_name := strip (args_service_name args) in
  if String.eqb service_name EmptyString then inr ValueError
  else if Z.ltb (args_restart_sec args) 0 then inr ValueError
  else
    let run_as_user :=
      if args_user_service args then None else args_run_as_user args in
    let run_as_group :=
      if args_user_service args then None else args_run_as_group args in
    let main_script := resolve host (expanduser host (args_main_script args)) in
    let working_directory :=
      resolve host (expanduser host (args_working_directory args)) in
    let log_runner_script := truediv (script_dir host) "daily_log_runner.py" in
    let log_file :=
      match args_log_file args with
      | Some lf =>
          let candidate := expanduser host lf in
          let candidate :=
            if is_absolute candidate then candidate
            else truediv_path working_directory candidate in
          resolve host candidate
      | None => default_log_file working_directory service_name
      end in
    if negb (is_file host main_script) then inr ValueError
    else if negb (is_file host log_runner_script) then inr ValueError
    else if negb (is_dir host working_directory) then inr ValueError
    else if exists_ host log_file && is_dir host log_file then inr ValueError
    else
      inl (mkConfig
             service_name
             (let d := strip (args_description args) in
              if String.eqb d EmptyString then "TikTok Live Recorder" else d)
             (str (expanduser host (parse (args_python_bin args))))
             main_script
             working_directory
             (normalize_recorder_args recorder_args)
             (args_user_service args)
             run_as_user
             run_as_group
             log_runner_script
             log_file
             (args_restart_sec args)
             (args_enable_now args)
             (args_dry_run args)).

End SystemdInstaller.

(** ** What the properties are stated with *)

Module RunnerSpec.

Import Pathlib PyDate DailyLogRunner.

(** The reading of a [YYYY-MM-DD] string: four digits, a dash, two
    digits, a dash, two digits, and the three numbers they spell. *)
Definition iso_fields (s : string) : option (nat * nat * nat) :=
  match s with
  | String y1 (String y2 (String y3 (String y4 (String h1
      (String m1 (String m2 (String h2 (String d1 (String d2 EmptyString))))))))) =>
      if forallb is_digit [y1; y2; y3; y4; m1; m2; d1; d2]
         && Ascii.eqb h1 "-"%char && Ascii.eqb h2 "-"%char
      then Some (1000 * digit_val y1 + 100 * digit_val y2
                   + 10 * digit_val y3 + digit_val y4,
                 10 * digit_val m1 + digit_val m2,
                 10 * digit_val d1 + digit_val d2)
      else None
  | _ => None
  end.

(** the file name the naming convention asks for *)
Definition log_name (log_prefix : string) (today : date) (log_extension : string)
  : string :=
  log_prefix ++ "-" ++ isoformat today ++ log_extension.

(** the destination of one line *)
Definition target_of (log_dir : Path) (log_prefix log_extension : string)
    (ev : LineEvent) : Path :=
  daily_log_path (le_today ev) log_dir log_prefix log_extension.

(** The sub-sequence of the child's output that belongs to the file [p]:
    the lines whose destination is [p], in the order received. *)
Fixpoint routed (log_dir : Path) (log_prefix log_extension : string)
    (lines : list LineEvent) (p : Path) : string :=
  match lines with
  | [] => EmptyString
  | ev :: rest =>
      (if Path_eq_dec p (target_of log_dir log_prefix log_extension ev)
       then le_line ev else EmptyString)
      ++ routed log_dir log_prefix log_extension rest p
  end.

(** all the lines, one after the other *)
Fixpoint concat_lines (lines : list LineEvent) : string :=
  match lines with
  | [] => EmptyString
  | ev :: rest => le_line ev ++ concat_lines rest
  end.

(** the writes of a trace: which file, which text *)
Fixpoint writes_of (tr : list Action) : list (Path * string) :=
  match tr with
  | [] => []
  | AWrite p line :: tr' => (p, line) :: writes_of tr'
  | _ :: tr' => writes_of tr'
  end.

(** every write of the trace is followed at once by a flush of the same
    file *)
Fixpoint flushed_after_each_write (tr : list Action) : bool :=
  match tr with
  | [] => true
  | AWrite p _ :: tr' =>
      match tr' with
      | AFlush q :: _ => Path_eqb p q && flushed_after_each_write tr'
      | _ => false
      end
  | _ :: tr' => flushed_after_each_write tr'
  end.

(** The run up to the moment the first [k] lines have been appended:
    lines 66 to 77, then [k] turns of the loop. *)
Definition run_upto (k : nat) (env : Env) (command : list string)
    (log_dir : Path) (log_prefix log_extension : string) (echo : bool) : M unit :=
  (Path_mkdir log_dir ;;;
   has_stdout <- Popen env command ;;
   modify (set_current_log_path None) ;;;
   modify (set_current_log_file None) ;;;
   if has_stdout
   then read_loop log_dir log_prefix log_extension echo
          (firstn k (env_lines env)) EndOfStream
   else raise (Exception RuntimeError))%py.

(** what a list of writes adds to the file [p] *)
Fixpoint appended (ws : list (Path * string)) (p : Path) : string :=
  match ws with
  | [] => EmptyString
  | (q, text) :: ws' =>
      (if Path_eq_dec p q then text else EmptyString) ++ appended ws' p
  end.

(** the write each line asks for *)
Definition write_of (log_dir : Path) (log_prefix log_extension : string)
    (ev : LineEvent) : Path * string :=
  (target_of log_dir log_prefix log_extension ev, le_line ev).

(** At no moment of the trace are two log files open: [acc] holds the
    files open before the trace. *)
Fixpoint never_two_open (tr : list Action) (acc : list Path) : bool :=
  Nat.leb (List.length acc) 1 &&
  match tr with
  | [] => true
  | a :: tr' => never_two_open tr' (open_after [a] acc)
  end.

(** the two file systems have the same directories *)
Definition same_dirs (fs fs' : FileSystem) : Prop :=
  forall q, fs' q = Dir <-> fs q = Dir.

(** The writer between two lines: no file yet, or one open file with an
    empty buffer that the two local variables agree on. *)
Definition writer_ready (st : State) : Prop :=
  match current_log_file st with
  | None => current_log_path st = None /\ st_open st = []
  | Some f =>
      f_closed f = false /\ f_buffer f = EmptyString
      /\ current_log_path st = Some (f_path f) /\ st_open st = [f_path f]
      /\ exists c, st_fs st (f_path f) = File c
  end.

(** The writer wherever the loop may be left with nothing buffered: the
    file object is open exactly when the system holds its file open, and
    then the file is there. *)
Definition writer_settled (st : State) : Prop :=
  match current_log_file st with
  | None => st_open st = []
  | Some f =>
      f_buffer f = EmptyString
      /\ st_open st = (if f_closed f then [] else [f_path f])
      /\ (f_closed f = false -> exists c, st_fs st (f_path f) = File c)
  end.

(** What a stretch of the run did, as its trace [t] tells it: the calls
    are those of [t], the open files follow its opens and closes with never
    two at once, every write is flushed at once, and each file has gained
    the text of its writes. *)
Definition Step (st st' : State) (t : list Action) : Prop :=
  st_trace st' = (st_trace st ++ t)%list /\
  open_after t (st_open st) = st_open st' /\
  never_two_open t (st_open st) = true /\
  flushed_after_each_write t = true /\
  (forall p, content_of (st_fs st') p
             = content_of (st_fs st) p ++ appended (writes_of t) p).

(** The part of it that holds of every stretch, also of one in which a
    flush was refused: the calls, and the open files with never two at
    once. *)
Definition Trail (st st' : State) (t : list Action) : Prop :=
  st_trace st' = (st_trace st ++ t)%list /\
  open_after t (st_open st) = st_open st' /\
  never_two_open t (st_open st) = true.

(** the device refuses the text of the line when its file is flushed *)
Definition refused (ev : LineEvent) : bool :=
  negb (String.eqb (le_line ev) EmptyString) && le_flush_fails ev.

(** The state a refused flush leaves behind: the write of [line] to the
    file [p] was made, and the text is still in the buffer. *)
Definition with_pending (p : Path) (line : string) (st : State) : State :=
  set_current_log_file (Some (mkTextIO p line false))
    (log_action (AWrite p line) st).

(** the file system once the current file, if any, has been closed *)
Definition fs_closed (st : State) : FileSystem :=
  match current_log_file st with
  | Some f => commit f (st_fs st)
  | None => st_fs st
  end.

(** the calls that close the current file, if any *)
Definition close_calls (cur : option TextIO) : list Action :=
  match cur with
  | Some f => [AFlush (f_path f); AClose (f_path f)]
  | None => []
  end.

(** the calls of [finally] on the current file: none on a closed object *)
Definition final_close_calls (cur : option TextIO) : list Action :=
  match cur with
  | Some f => if f_closed f then [] else [AFlush (f_path f); AClose (f_path f)]
  | None => []
  end.

(** the calls of the [except KeyboardInterrupt] clause *)
Definition handler_calls (env : Env) : list Action :=
  APoll :: match env_poll env with
           | None => [ATerminate; AWait]
           | Some _ => []
           end.

(** the state in which the [try] statement is entered: the directory made,
    the child started, the two local variables set to [None] *)
Definition started (fs : FileSystem) (has_stdout : bool) (log_dir : Path)
    (command : list string) : State :=
  mkState fs [] has_stdout EmptyString [AMkdir log_dir; APopen command] None None.

(** a file system with its root directories and nothing else *)
Definition empty_fs : FileSystem :=
  fun p => match parts p with [] => Dir | _ => Absent end.

Definition newline : string := String (ascii_of_nat 10) EmptyString.


(** the directories a trace makes, in order *)
Fixpoint mkdirs_of (tr : list Action) : list Path :=
  match tr with
  | [] => []
  | AMkdir p :: tr' => p :: mkdirs_of tr'
  | _ :: tr' => mkdirs_of tr'
  end.

(** the calls on the child after its launch: poll, terminate, wait *)
Definition is_child_call (a : Action) : bool :=
  match a with
  | APoll | ATerminate | AWait => true
  | _ => false
  end.

(** a stretch of the run without a call on the child *)
Definition childless (t : list Action) : bool :=
  forallb (fun a => negb (is_child_call a)) t.

(** the calls on log files and on this process's standard output *)
Definition is_writer_call (a : Action) : bool :=
  match a with
  | AOpen _ | AWrite _ _ | AFlush _ | AClose _ | AEcho _ => true
  | _ => false
  end.

End RunnerSpec.

(** ** Concrete inputs *)

Module Examples.

Import Pathlib PyDate DailyLogRunner RunnerSpec.

Definition jan1 : date := mkDate 2024 1 1 eq_refl.
Definition jan2 : date := mkDate 2024 1 2 eq_refl.

(** [/tmp/logs] *)
Definition tmp_logs : Path := mkPath Root1 ["tmp"; "logs"].

Definition hello : string := "hello" ++ newline.

(** [echo hello] on 2024-01-01: one line, then the end of the stream and
    exit status 0 *)
Definition echo_hello : Env :=
  mkEnv (fun _ => Launched true) [mkLine hello jan1 false false]
        EndOfStream (Exited 0) None false.

(** three lines, the day changing between the second and the third *)
Definition over_midnight : Env :=
  mkEnv (fun _ => Launched true)
        [mkLine ("a" ++ newline) jan1 false false;
         mkLine ("b" ++ newline) jan1 false false;
         mkLine ("c" ++ newline) jan2 false false]
        EndOfStream (Exited 0) None false.

(** a child that prints one line and is interrupted while it still runs *)
Definition interrupted : Env :=
  mkEnv (fun _ => Launched true) [mkLine ("a" ++ newline) jan1 false false]
        InterruptedRead (Exited 0) None false.

(** a command that does not exist *)
Definition no_such_command : Env :=
  mkEnv (fun _ => LaunchFails FileNotFoundError) [] EndOfStream (Exited 0) None
        false.

(** two lines on one day, standard output refusing the second *)
Definition echo_refused : Env :=
  mkEnv (fun _ => Launched true)
        [mkLine ("a" ++ newline) jan1 false false;
         mkLine ("b" ++ newline) jan1 false true]
        EndOfStream (Exited 0) None false.

(** two lines on one day, the device refusing the second for good *)
Definition disk_full : Env :=
  mkEnv (fun _ => Launched true)
        [mkLine ("a" ++ newline) jan1 false false;
         mkLine ("b" ++ newline) jan1 true false]
        EndOfStream (Exited 0) None true.

(** a child that waits for an interruption before it exits *)
Definition interrupted_wait : Env :=
  mkEnv (fun _ => Launched true) [mkLine hello jan1 false false]
        EndOfStream InterruptedWait None false.

(** the command line [--log-dir /tmp/logs --log-prefix job -- echo hello] *)
Definition echo_hello_args : Namespace :=
  mkArgs tmp_logs "job" ".log" false ["--"; "echo"; "hello"].

(** U+2003, the em space, in UTF-8 *)
Definition em_space : string :=
  String (ascii_of_nat 226) (String (ascii_of_nat 128)
    (String (ascii_of_nat 131) EmptyString)).

(** a host on which every check of the installer passes *)
Definition plain_host : SystemdInstaller.Host :=
  SystemdInstaller.mkHost (fun p => p) (fun p => p)
    (fun _ => true) (fun _ => true) (fun _ => false)
    (mkPath Root1 ["opt"; "recorder"]).

Definition installer_args : SystemdInstaller.Namespace :=
  SystemdInstaller.mkArgs "tiktok-auto" "TikTok Live Recorder"
    "/usr/bin/python3" (mkPath Root1 ["opt"; "recorder"; "main.py"])
    (mkPath Root1 ["opt"; "recorder"]) true None None None 5 false false.

End Examples.

(** ** The calls of a run, spelled out *)

Module RunnerCalls.

Import Pathlib PyDate DailyLogRunner RunnerSpec.

(** The calls of the loop over [lines] when every append succeeds, [cur]
    being the path of the file open before the first of them. *)
Fixpoint loop_calls (log_dir : Path) (log_prefix log_extension : string)
    (echo : bool) (cur : option Path) (lines : list LineEvent) : list Action :=
  match lines with
  | [] => []
  | ev :: rest =>
      let target := target_of log_dir log_prefix log_extension ev in
      ((if path_differs target cur
        then match cur with
             | Some p => [AFlush p; AClose p]
             | None => []
             end ++ [AOpen target]
        else [])
       ++ [AWrite target (le_line ev); AFlush target]
       ++ (if echo then [AEcho (le_line ev)] else [])
       ++ loop_calls log_dir log_prefix log_extension echo (Some target) rest)%list
  end.

(** the files a trace opens, in order *)
Fixpoint opens_of (tr : list Action) : list Path :=
  match tr with
  | [] => []
  | AOpen p :: tr' => p :: opens_of tr'
  | _ :: tr' => opens_of tr'
  end.

Definition date_eqb (d1 d2 : date) : bool :=
  Nat.eqb (year d1) (year d2) && Nat.eqb (month d1) (month d2)
  && Nat.eqb (day d1) (day d2).

(** the dates at which a new day starts in a sequence of dates: each date
    that differs from the one before it, [prev] being the date before the
    first *)
Fixpoint day_starts (prev : option date) (dates : list date) : list date :=
  match dates with
  | [] => []
  | d :: rest =>
      match prev with
      | Some d0 => if date_eqb d d0 then day_starts (Some d) rest
                   else d :: day_starts (Some d) rest
      | None => d :: day_starts (Some d) rest
      end
  end.

(** the last element, if any *)
Definition last_opt {A : Type} (l : list A) : option A :=
  match rev l with
  | [] => None
  | x :: _ => Some x
  end.

End RunnerCalls.

(** ** [systemd_installer.py]: rendering and installing the unit *)

Module InstallerRun.

Import Pathlib.
Import SystemdInstaller.

(** [str(n)] for an [int] *)
Definition str_int (n : Z) : string := NilZero.string_of_int (Z.to_int n).

(** the truth value of an [Optional[str]]: [None] and [""] are false *)
Definition truthy (s : option string) : bool :=
  match s with
  | Some x => negb (String.eqb x EmptyString)
  | None => false
  end.

Definition newline : string := String (ascii_of_nat 10) EmptyString.

(** the [lines] list of [build_service_content] *)
Definition service_lines (config : SystemdInstallConfig) (service_name : string)
  : list string :=
  let wanted_by :=
    if user_service config then "default.target" else "multi-user.target" in
  let description_line := "Description=" ++ description config in
  let directory_line := "WorkingDirectory=" ++ str (working_directory config) in
  let exec_line := "ExecStart=" ++ build_exec_start config in
  let restart_line := "RestartSec=" ++ str_int (restart_sec config) in
  let user_lines :=
    match run_as_user config with
    | Some u => if truthy (run_as_user config) then ["User=" ++ u] else []
    | None => []
    end in
  let group_lines :=
    match run_as_group config with
    | Some g => if truthy (run_as_group config) then ["Group=" ++ g] else []
    | None => []
    end in
  let wanted_line := "WantedBy=" ++ wanted_by in
  let name_line := "# Unit file: " ++ service_name in
  ([ "[Unit]";
     description_line;
     "After=network-online.target";
     "Wants=network-online.target";
     EmptyString;
     "[Service]";
     "Type=simple";
     directory_line;
     exec_line;
     "Restart=on-failure";
     restart_line;
     "Environment=PYTHONUNBUFFERED=1" ]
   ++ user_lines
   ++ group_lines
   ++ [ EmptyString; "[Install]"; wanted_line; EmptyString; name_line ])%list.

Definition build_service_content (config : SystemdInstallConfig)
    (service_name : string) : string :=
  PyStr.join newline (service_lines config service_name) ++ newline.

(** [home] is [Path.home()]. *)
Definition get_service_path (home : Path) (service_name : string)
    (user_service : bool) : Path :=
  if user_service
  then truediv (truediv (truediv (truediv home ".config") "systemd") "user")
         service_name
  else truediv (parse "/etc/systemd/system") service_name.

Definition daily_log_pattern (log_file : Path) : string :=
  let extension := suffix_or_log log_file in
  str (truediv (parent log_file)
         (stem log_file ++ "-YYYY-MM-DD" ++ extension)).

(** *** The host and the effects *)

(** the exceptions the installer can meet, all subclasses of [Exception] *)
Inductive exc : Type :=
| ValueError
| FileNotFoundError
| PermissionError
| CalledProcessError (returncode : Z)
| OSError.

(** What the installer finds on the machine: the home directory, whether
    [shutil.which("systemctl")] finds the program, the exit status of each
    command [subprocess.run] starts, the paths the user may not write, and
    the user name. *)
Record System : Type := mkSystem {
  sys_home : Path;
  sys_has_systemctl : bool;
  sys_status : list string -> Z;
  sys_denied : Path -> bool;
  sys_user : string
}.

(** the file system, what was printed, and the commands that were run *)
Record World : Type := mkWorld {
  w_fs : DailyLogRunner.FileSystem;
  w_printed : list string;
  w_commands : list (list string)
}.

Inductive result (A : Type) : Type :=
| Ok (a : A)
| Raise (e : exc).
Arguments Ok {A} a.
Arguments Raise {A} e.

Definition I (A : Type) : Type := World -> World * result A.

Definition ret {A : Type} (a : A) : I A := fun w => (w, Ok a).

Definition raise {A : Type} (e : exc) : I A := fun w => (w, Raise e).

Definition bind {A B : Type} (m : I A) (k : A -> I B) : I B :=
  fun w =>
    match m w with
    | (w', Ok a) => k a w'
    | (w', Raise e) => (w', Raise e)
    end.

Declare Scope inst_scope.
Delimit Scope inst_scope with inst.
Notation "m ;;; k" := (bind m (fun _ => k))
  (at level 61, right associativity) : inst_scope.
Local Open Scope inst_scope.

(** [print(s)] *)
Definition print (s : string) : I unit :=
  fun w => (mkWorld (w_fs w) (w_printed w ++ [s]) (w_commands w), Ok tt).

Definition of_fs_error (e : DailyLogRunner.error) : exc :=
  match e with
  | DailyLogRunner.FileNotFoundError => FileNotFoundError
  | DailyLogRunner.PermissionError => PermissionError
  | _ => OSError
  end.

(** [p.mkdir(parents=True, exist_ok=True)] *)
Definition Path_mkdir (sys : System) (p : Path) : I unit :=
  fun w =>
    if sys_denied sys p then (w, Raise PermissionError)
    else
      match DailyLogRunner.mkdir_parents (w_fs w) (root p) (rev (parts p)) with
      | inl fs' => (mkWorld fs' (w_printed w) (w_commands w), Ok tt)
      | inr e => (w, Raise (of_fs_error e))
      end.

(** [p.write_text(content)]: the file is made or truncated; its directory
    must exist *)
Definition Path_write_text (sys : System) (p : Path) (content : string) : I unit :=
  fun w =>
    if sys_denied sys p then (w, Raise PermissionError)
    else
      match w_fs w p with
      | DailyLogRunner.Dir => (w, Raise OSError)
      | _ =>
          match w_fs w (parent p) with
          | DailyLogRunner.Dir =>
              (mkWorld (DailyLogRunner.fs_set (w_fs w) p (DailyLogRunner.File content))
                       (w_printed w) (w_commands w), Ok tt)
          | DailyLogRunner.File _ => (w, Raise OSError)
          | DailyLogRunner.Absent => (w, Raise FileNotFoundError)
          end
      end.

(** [subprocess.run(command, check=True)] *)
Definition subprocess_run (sys : System) (command : list string) : I unit :=
  fun w =>
    let w' := mkWorld (w_fs w) (w_printed w) (w_commands w ++ [command]) in
    if Z.eqb (sys_status sys command) 0 then (w', Ok tt)
    else (w', Raise (CalledProcessError (sys_status sys command))).

Definition run_systemctl (sys : System) (user_service : bool)
    (args : list string) : I unit :=
  if negb (sys_has_systemctl sys) then raise FileNotFoundError
  else
    let command := (["systemctl"] ++ (if user_service then ["--user"] else [])
                      ++ args)%list in
    subprocess_run sys command.

Definition install_service (sys : System) (config : SystemdInstallConfig) : I unit :=
  let service_name := normalize_service_name (SystemdInstaller.service_name config) in
  let service_path := get_service_path (sys_home sys) service_name
                        (user_service config) in
  let service_content := build_service_content config service_name in
  if dry_run config then
    print ("[dry-run] Service file path: " ++ str service_path) ;;;
    print ("[dry-run] Log file base path: " ++ str (log_file config)) ;;;
    print ("[dry-run] Daily logs path: " ++ daily_log_pattern (log_file config)) ;;;
    print service_content ;;;
    print "[dry-run] Commands:" ;;;
    let prefix := if user_service config then "systemctl --user" else "systemctl" in
    print ("  " ++ prefix ++ " daemon-reload") ;;;
    if enable_now config
    then print ("  " ++ prefix ++ " enable --now " ++ service_name)
    else print ("  " ++ prefix ++ " enable " ++ service_name)
  else
    Path_mkdir sys (parent service_path) ;;;
    Path_mkdir sys (parent (log_file config)) ;;;
    Path_write_text sys service_path service_content ;;;
    run_systemctl sys (user_service config) ["daemon-reload"] ;;;
    (if enable_now config
     then run_systemctl sys (user_service config) ["enable"; "--now"; service_name]
     else run_systemctl sys (user_service config) ["enable"; service_name]) ;;;
    print ("Installed service: " ++ str service_path) ;;;
    print "Done." ;;;
    (if user_service config
     then print ("Manage with: systemctl --user status " ++ service_name)
     else print ("Manage with: systemctl status " ++ service_name)) ;;;
    print ("Daily logs: " ++ daily_log_pattern (log_file config)).

Definition print_example (sys : System) : I unit :=
  print "Example (user service):" ;;;
  print ("python3 systemd_installer.py --user-service --enable-now "
           ++ "--service-name tiktok-auto "
           ++ "-- -user someuser -mode automatic -automatic_interval 30") ;;;
  print EmptyString ;;;
  print "Example (system service):" ;;;
  print ("sudo python3 systemd_installer.py --enable-now "
           ++ "--run-as-user " ++ sys_user sys ++ " --service-name tiktok-auto "
           ++ "-- -user someuser -mode automatic -automatic_interval 30").

(** [main]; [example] is [args.example], and [args], [recorder_args] are
    what [parse_known_args] returned.  An exception carries no text here,
    so that a line printed by a handler stops after its fixed part. *)
Definition main (sys : System) (host : Host) (example : bool)
    (args : Namespace) (recorder_args : list string) : World -> World * Z :=
  fun w =>
    if example then (fst (print_example sys w), 0%Z)
    else
      match build_config host args recorder_args with
      | inr SystemdInstaller.ValueError => (fst (print "Error: " w), 1%Z)
      | inl config =>
          match install_service sys config w with
          | (w', Ok _) => (w', 0%Z)
          | (w', Raise (CalledProcessError _)) =>
              (fst (print "systemctl command failed: " w'), 1%Z)
          | (w', Raise PermissionError) =>
              (fst ((print "Permission denied: " ;;;
                     print "Try again with sudo for system services, or use --user-service.")
                      w'), 1%Z)
          | (w', Raise _) => (fst (print "Error: " w'), 1%Z)
          end
      end.

(** the command line [run_systemctl] builds *)
Definition systemctl_command (user_service : bool) (args : list string)
  : list string :=
  (["systemctl"] ++ (if user_service then ["--user"] else []) ++ args)%list.

(** the name and the path of the unit file of a configuration *)
Definition unit_name (config : SystemdInstallConfig) : string :=
  normalize_service_name (SystemdInstaller.service_name config).

Definition unit_path (sys : System) (config : SystemdInstallConfig) : Path :=
  get_service_path (sys_home sys) (unit_name config) (user_service config).

(** the two commands of an installation *)
Definition reload_command (config : SystemdInstallConfig) : list string :=
  systemctl_command (user_service config) ["daemon-reload"].

Definition enable_command (config : SystemdInstallConfig) : list string :=
  systemctl_command (user_service config)
    (if enable_now config then ["enable"; "--now"; unit_name config]
     else ["enable"; unit_name config]).

(** a machine with systemd on which every command succeeds *)
Definition plain_system : System :=
  mkSystem (mkPath Root1 ["home"; "rec"]) true (fun _ => 0%Z) (fun _ => false) "rec".

(** the same machine without [systemctl] *)
Definition no_systemd : System :=
  mkSystem (mkPath Root1 ["home"; "rec"]) false (fun _ => 0%Z) (fun _ => false) "rec".

Definition empty_world : World := mkWorld RunnerSpec.empty_fs [] [].

(** the lines of a text, as [systemd] reads a unit file: what lies
    between two line feeds *)
Definition text_lines (text : string) : list string :=
  PyStr.split (ascii_of_nat 10) text.

(** the text holds no line feed *)
Definition one_line (text : string) : bool :=
  negb (PyStr.contains_char (ascii_of_nat 10) text).

(** the texts of a configuration that [build_service_content] puts into
    the unit as they are *)
Definition unit_texts (config : SystemdInstallConfig) (service_name : string)
  : list string :=
  ([description config; str (working_directory config);
    build_exec_start config; service_name]
   ++ match run_as_user config with Some u => [u] | None => [] end
   ++ match run_as_group config with Some g => [g] | None => [] end)%list.

(** the configuration of a user service [tiktok-auto] kept in
    [/opt/recorder] *)
Definition tiktok_auto : SystemdInstallConfig :=
  mkConfig "tiktok-auto" "TikTok Live Recorder" "/usr/bin/python3"
    (mkPath Root1 ["opt"; "recorder"; "main.py"])
    (mkPath Root1 ["opt"; "recorder"])
    ["-user"; "someuser"; "-no-update-check"] true None None
    (mkPath Root1 ["opt"; "recorder"; "daily_log_runner.py"])
    (mkPath Root1 ["opt"; "recorder"; "logs"; "tiktok-auto.log"])
    5 false false.

End InstallerRun.

(** * Properties *)

Import Pathlib PyDate DailyLogRunner RunnerSpec.

Ltac splits := repeat match goal with |- _ /\ _ => split end.

(** ** Strings *)

Lemma append_assoc (a b c : string) : (a ++ b) ++ c = a ++ b ++ c.
Proof. induction a as [|x a IH]; simpl; [reflexivity | now rewrite IH]. Qed.

Lemma append_nil_r (a : string) : a ++ EmptyString = a.
Proof. induction a as [|x a IH]; simpl; [reflexivity | now rewrite IH]. Qed.

Lemma append_length (a b : string) :
  String.length (a ++ b) = String.length a + String.length b.
Proof. induction a as [|x a IH]; simpl; [reflexivity | now rewrite IH]. Qed.

Lemma append_inv_head (a b c : string) : a ++ b = a ++ c -> b = c.
Proof. induction a as [|x a IH]; simpl; intros H; [exact H | injection H; auto]. Qed.

Lemma append_inv_tail (a b c d : string) :
  String.length a = String.length b -> a ++ c = b ++ d -> a = b /\ c = d.
Proof.
  revert b; induction a as [|x a IH]; intros [|y b] L H; simpl in *;
    try discriminate.
  - auto.
  - injection H as -> H. injection L as L.
    destruct (IH b L H) as [-> ->]. auto.
Qed.

(** ** [normalize_extension] and [normalize_command] *)

(** C8. [normalize_extension] is defined on every string: the empty
    extension becomes [".log"], an extension that does not begin with ["."]
    gets ["."] put in front (so ["log"] becomes [".log"]), and an extension
    that begins with ["."] comes back unchanged. *)
Theorem normalize_extension_cases (extension : string) :
  (extension = EmptyString -> normalize_extension extension = ".log") /\
  (extension <> EmptyString -> PyStr.startswith extension "." = false ->
     normalize_extension extension = "." ++ extension) /\
  (PyStr.startswith extension "." = true ->
     normalize_extension extension = extension) /\
  PyStr.startswith (normalize_extension extension) "." = true.
Proof.
  unfold normalize_extension.
  destruct (String.eqb_spec extension EmptyString) as [E|E].
  - subst. repeat split; try reflexivity; intros; try congruence; discriminate.
  - destruct (PyStr.startswith extension ".") eqn:P;
      repeat split; intros; try congruence.
    destruct extension; reflexivity.
Qed.

Lemma normalize_extension_cases_witness :
  normalize_extension "log" = ".log" /\ normalize_extension ".txt" = ".txt"
  /\ normalize_extension EmptyString = ".log".
Proof.
  split; [|split].
  - apply (proj1 (proj2 (normalize_extension_cases "log")));
      [discriminate | reflexivity].
  - apply (proj1 (proj2 (proj2 (normalize_extension_cases ".txt")))); reflexivity.
  - apply (proj1 (normalize_extension_cases EmptyString)); reflexivity.
Defined.

(** C9. [normalize_command] removes exactly one leading ["--"]: a vector
    that starts with ["--"] loses that element and nothing else, any other
    vector comes back unchanged, and a ["--"] further on stays. *)
Theorem normalize_command_leading_separator (command : list string) :
  (forall rest, command = "--" :: rest -> normalize_command command = rest) /\
  ((forall rest, command <> "--" :: rest) -> normalize_command command = command) /\
  (forall first before after,
      first <> "--" -> command = (first :: before ++ "--" :: after)%list ->
      normalize_command command = command) /\
  (forall before after,
      command = ("--" :: before ++ "--" :: after)%list ->
      normalize_command command = (before ++ "--" :: after)%list).
Proof.
  repeat split.
  - intros rest ->. reflexivity.
  - intros H. destruct command as [|first rest]; [reflexivity|].
    simpl. destruct (String.eqb_spec first "--") as [->|]; [|reflexivity].
    now destruct (H rest).
  - intros first before after Hne ->. simpl.
    destruct (String.eqb_spec first "--"); [contradiction | reflexivity].
  - intros before after ->. reflexivity.
Qed.

Lemma normalize_command_leading_separator_witness :
  normalize_command ["--"; "python"; "main.py"; "--"; "-x"]
    = ["python"; "main.py"; "--"; "-x"]
  /\ normalize_command ["python"; "--"; "-x"] = ["python"; "--"; "-x"].
Proof.
  split.
  - apply (proj1 (normalize_command_leading_separator
                    ["--"; "python"; "main.py"; "--"; "-x"])).
    reflexivity.
  - apply (proj1 (proj2 (proj2 (normalize_command_leading_separator
                    ["python"; "--"; "-x"]))) "python" [] ["-x"]).
    + discriminate.
    + reflexivity.
Defined.

(** ** The installer's payload arguments *)

Lemma mem_In (x : string) (l : list string) : PyStr.mem x l = true <-> In x l.
Proof.
  induction l as [|y l IH]; simpl.
  - split; [discriminate | tauto].
  - destruct (String.eqb_spec y x) as [->|N].
    + split; auto.
    + rewrite IH. split; [auto | intros [E|H]; [contradiction | exact H]].
Qed.






(** ** [date.isoformat] *)

Lemma MAXYEAR_value : MAXYEAR = 9 * 1000 + 999.
Proof. vm_compute. reflexivity. Qed.

Lemma digit_val_digit (n : nat) : digit_val (digit n) = n mod 10.
Proof.
  unfold digit_val, digit.
  pose proof (Nat.mod_upper_bound n 10 ltac:(discriminate)).
  rewrite nat_ascii_embedding by lia. lia.
Qed.

Lemma is_digit_digit (n : nat) : is_digit (digit n) = true.
Proof.
  unfold is_digit, digit.
  pose proof (Nat.mod_upper_bound n 10 ltac:(discriminate)).
  rewrite nat_ascii_embedding by lia.
  apply andb_true_intro. split; apply Nat.leb_le; lia.
Qed.

Lemma date_bounds (d : date) :
  1 <= year d < 10 * 1000 /\ 1 <= month d <= 12 /\ 1 <= day d <= 31.
Proof.
  pose proof (date_ok d) as H. unfold valid_ymd in H.
  repeat (apply andb_prop in H; destruct H as [H ?]).
  repeat match goal with H : Nat.leb _ _ = true |- _ => apply Nat.leb_le in H end.
  rewrite MAXYEAR_value in *. unfold MINYEAR in *.
  assert (days_in_month (year d) (month d) <= 31).
  { unfold days_in_month.
    destruct (month d) as [|[|[|[|[|[|[|[|[|[|[|[|?]]]]]]]]]]]];
      try destruct (is_leap _); lia. }
  lia.
Qed.

Lemma four_digits (y : nat) :
  y < 10 * 1000 ->
  1000 * ((y / 1000) mod 10) + 100 * ((y / 100) mod 10)
    + 10 * ((y / 10) mod 10) + y mod 10 = y.
Proof.
  intros H.
  replace (y / 100) with (y / 10 / 10)
    by (rewrite Nat.Div0.div_div; reflexivity).
  replace (y / 1000) with (y / 10 / 10 / 10)
    by (rewrite !Nat.Div0.div_div; reflexivity).
  pose proof (Nat.div_mod_eq y 10) as E1.
  pose proof (Nat.div_mod_eq (y / 10) 10) as E2.
  pose proof (Nat.div_mod_eq (y / 10 / 10) 10) as E3.
  pose proof (Nat.div_mod_eq (y / 10 / 10 / 10) 10) as E4.
  pose proof (Nat.mod_upper_bound y 10 ltac:(discriminate)).
  pose proof (Nat.mod_upper_bound (y / 10) 10 ltac:(discriminate)).
  pose proof (Nat.mod_upper_bound (y / 10 / 10) 10 ltac:(discriminate)).
  pose proof (Nat.mod_upper_bound (y / 10 / 10 / 10) 10 ltac:(discriminate)).
  generalize dependent (y mod 10). generalize dependent ((y / 10) mod 10).
  generalize dependent ((y / 10 / 10) mod 10).
  generalize dependent ((y / 10 / 10 / 10) mod 10).
  generalize dependent (y / 10 / 10 / 10 / 10).
  generalize dependent (y / 10 / 10 / 10).
  generalize dependent (y / 10 / 10).
  generalize dependent (y / 10).
  intros. lia.
Qed.

Lemma two_digits (n : nat) : n < 100 -> 10 * ((n / 10) mod 10) + n mod 10 = n.
Proof.
  intros H.
  pose proof (Nat.div_mod_eq n 10) as E1.
  pose proof (Nat.div_mod_eq (n / 10) 10) as E2.
  pose proof (Nat.mod_upper_bound n 10 ltac:(discriminate)).
  pose proof (Nat.mod_upper_bound (n / 10) 10 ltac:(discriminate)).
  generalize dependent (n mod 10). generalize dependent ((n / 10) mod 10).
  generalize dependent (n / 10 / 10). generalize dependent (n / 10).
  intros. lia.
Qed.

(** The text [isoformat] returns reads back as the date's own fields: it
    has the shape [YYYY-MM-DD]. *)
Lemma iso_fields_isoformat (d : date) :
  iso_fields (isoformat d) = Some (year d, month d, day d).
Proof.
  destruct (date_bounds d) as (Hy & Hm & Hd).
  unfold isoformat, fmt04, fmt02.
  cbn [append iso_fields forallb].
  rewrite !is_digit_digit, !digit_val_digit.
  cbn [andb Ascii.eqb Bool.eqb].
  rewrite four_digits, !two_digits by lia. reflexivity.
Qed.

Lemma date_eq (d1 d2 : date) :
  year d1 = year d2 -> month d1 = month d2 -> day d1 = day d2 -> d1 = d2.
Proof.
  destruct d1 as [y1 m1 a1 p1], d2 as [y2 m2 a2 p2]. simpl.
  intros -> -> ->. f_equal. apply UIP_dec, Bool.bool_dec.
Qed.

Lemma isoformat_inj (d1 d2 : date) : isoformat d1 = isoformat d2 -> d1 = d2.
Proof.
  intros H. pose proof (iso_fields_isoformat d1) as H1.
  rewrite H, iso_fields_isoformat in H1. injection H1 as Hy Hm Hd.
  now apply date_eq.
Qed.

Lemma isoformat_length (d : date) : String.length (isoformat d) = 10.
Proof. reflexivity. Qed.

Lemma isoformat_no_slash (d : date) :
  PyStr.contains_char slash (isoformat d) = false.
Proof.
  assert (D : forall n, Ascii.eqb (digit n) slash = false).
  { intros n. apply Ascii.eqb_neq. intros E.
    pose proof (is_digit_digit n) as H. rewrite E in H. discriminate. }
  unfold isoformat, fmt04, fmt02. cbn [append PyStr.contains_char].
  rewrite !D. reflexivity.
Qed.

(** ** Splitting and parsing paths *)

Lemma split_not_nil (c : ascii) (s : string) : PyStr.split c s <> [].
Proof.
  destruct s as [|a s]; simpl; [discriminate|].
  destruct (Ascii.eqb a c); [discriminate|].
  destruct (PyStr.split c s); discriminate.
Qed.

Lemma split_no_sep (c : ascii) (s : string) :
  PyStr.contains_char c s = false -> PyStr.split c s = [s].
Proof.
  induction s as [|a s IH]; simpl; [reflexivity|].
  destruct (Ascii.eqb a c); [discriminate|].
  intros H. now rewrite (IH H).
Qed.

(** Splitting a concatenation: the last piece of the left part and the
    first piece of the right part become one piece. *)
Lemma split_app (c : ascii) (a b : string) :
  PyStr.split c (a ++ b)
  = (removelast (PyStr.split c a)
       ++ [(last (PyStr.split c a) EmptyString
              ++ hd EmptyString (PyStr.split c b))%string]
       ++ tl (PyStr.split c b))%list.
Proof.
  induction a as [|x a IH].
  - simpl. pose proof (split_not_nil c b).
    destruct (PyStr.split c b); [congruence | reflexivity].
  - change (String x a ++ b) with (String x (a ++ b)).
    cbn [PyStr.split]. rewrite IH. clear IH.
    pose proof (split_not_nil c a) as Hn.
    destruct (Ascii.eqb x c).
    + destruct (PyStr.split c a) as [|h t]; [congruence | reflexivity].
    + destruct (PyStr.split c a) as [|h t]; [congruence|].
      destruct t as [|h' t]; reflexivity.
Qed.

Lemma splitroot_app (prefix rest : string) (c0 : ascii) :
  c0 <> slash ->
  splitroot (prefix ++ String c0 rest)
  = (fst (splitroot prefix), snd (splitroot prefix) ++ String c0 rest).
Proof.
  intros Hc. apply Ascii.eqb_neq in Hc.
  destruct prefix as [|a [|b [|c p]]]; simpl; rewrite ?Hc;
    repeat match goal with
           | |- context [Ascii.eqb ?x slash] =>
               lazymatch x with
               | c0 => fail
               | _ => destruct (Ascii.eqb x slash)
               end
           end; reflexivity.
Qed.

Lemma keep_part_dash (u w : string) :
  keep_part (u ++ String "-"%char w) = true.
Proof.
  unfold keep_part. apply andb_true_intro; split; apply negb_true_iff;
    apply String.eqb_neq; destruct u as [|a [|b u]]; simpl; congruence.
Qed.

Lemma parse_dashed (log_prefix mid log_extension : string) :
  PyStr.contains_char slash mid = false ->
  let rel := snd (splitroot log_prefix) in
  parse (log_prefix ++ String "-"%char (mid ++ log_extension))
  = mkPath (fst (splitroot log_prefix))
      (filter keep_part (removelast (PyStr.split slash rel))
       ++ [(last (PyStr.split slash rel) EmptyString
              ++ String "-"%char (mid ++ hd EmptyString (PyStr.split slash log_extension)))%string]
       ++ filter keep_part (tl (PyStr.split slash log_extension)))%list.
Proof.
  intros Hmid rel. unfold parse.
  rewrite splitroot_app by discriminate. fold rel.
  f_equal.
  replace (String "-"%char (mid ++ log_extension))
    with (String "-"%char mid ++ log_extension) by reflexivity.
  rewrite split_app.
  rewrite (split_app slash (String "-"%char mid) log_extension).
  assert (Hs : PyStr.split slash (String "-"%char mid) = [String "-"%char mid]).
  { apply split_no_sep. cbn [PyStr.contains_char].
    replace (Ascii.eqb "-"%char slash) with false by reflexivity. exact Hmid. }
  rewrite Hs.
  cbn [removelast last hd tl app].
  rewrite !filter_app. cbn [filter].
  replace (String "-"%char mid ++ hd EmptyString (PyStr.split slash log_extension))
    with (String "-"%char (mid ++ hd EmptyString (PyStr.split slash log_extension)))
    by reflexivity.
  rewrite keep_part_dash. reflexivity.
Qed.

(** The components of the parsed file name: those the prefix brings,
    the one that holds the date, those the extension brings. *)
Lemma parse_log_name (log_prefix log_extension : string) (today : date) :
  let rel := snd (splitroot log_prefix) in
  parse (log_name log_prefix today log_extension)
  = mkPath (fst (splitroot log_prefix))
      (filter keep_part (removelast (PyStr.split slash rel))
       ++ [(last (PyStr.split slash rel) EmptyString
              ++ String "-"%char (isoformat today
                   ++ hd EmptyString (PyStr.split slash log_extension)))%string]
       ++ filter keep_part (tl (PyStr.split slash log_extension)))%list.
Proof.
  exact (parse_dashed log_prefix (isoformat today) log_extension
           (isoformat_no_slash today)).
Qed.

Lemma daily_log_path_log_name today log_dir log_prefix log_extension :
  daily_log_path today log_dir log_prefix log_extension
  = truediv log_dir (log_name log_prefix today log_extension).
Proof. reflexivity. Qed.

(** Two dates never share a log file, whatever the directory, the prefix
    and the extension. *)
Lemma daily_log_path_inj log_dir log_prefix log_extension (d1 d2 : date) :
  daily_log_path d1 log_dir log_prefix log_extension
  = daily_log_path d2 log_dir log_prefix log_extension ->
  d1 = d2.
Proof.
  rewrite !daily_log_path_log_name. unfold truediv.
  rewrite !parse_log_name. cbn [root parts].
  generalize (last (PyStr.split slash (snd (splitroot log_prefix))) EmptyString).
  generalize (hd EmptyString (PyStr.split slash log_extension)).
  generalize (filter keep_part (tl (PyStr.split slash log_extension))).
  generalize (filter keep_part
                (removelast (PyStr.split slash (snd (splitroot log_prefix))))).
  pose proof (isoformat_length d1) as L1.
  pose proof (isoformat_length d2) as L2.
  pose proof (isoformat_inj d1 d2) as Hinj.
  generalize dependent (isoformat d2). generalize dependent (isoformat d1).
  intros i1 L1 i2 L2 Hinj A B v u H.
  assert (Hmid : (u ++ String "-"%char (i1 ++ v))%string
                 = (u ++ String "-"%char (i2 ++ v))%string).
  { destruct (fst (splitroot log_prefix)); injection H as H.
    - apply app_inv_head in H. apply app_inv_head in H. now injection H.
    - apply app_inv_head in H. now injection H.
    - apply app_inv_head in H. now injection H. }
  apply append_inv_head in Hmid. injection Hmid as Hmid.
  apply append_inv_tail in Hmid; [| congruence].
  apply Hinj, Hmid.
Qed.

Lemma contains_char_head (c a : ascii) (s : string) :
  PyStr.contains_char c (String a s) = false -> Ascii.eqb a c = false.
Proof. simpl. destruct (Ascii.eqb a c); [discriminate | reflexivity]. Qed.

Lemma splitroot_no_slash (s : string) :
  PyStr.contains_char slash s = false -> splitroot s = (NoRoot, s).
Proof.
  destruct s as [|a s]; [reflexivity|].
  intros H. apply contains_char_head in H. simpl. now rewrite H.
Qed.

(** Without a separator in the prefix and in the extension the path is the
    directory with the file name as its one further component. *)
Lemma daily_log_path_plain today log_dir log_prefix log_extension :
  PyStr.contains_char slash log_prefix = false ->
  PyStr.contains_char slash log_extension = false ->
  daily_log_path today log_dir log_prefix log_extension
  = mkPath (root log_dir)
      (parts log_dir ++ [log_name log_prefix today log_extension]).
Proof.
  intros Hp He.
  rewrite daily_log_path_log_name. unfold truediv.
  rewrite parse_log_name. cbn [root parts].
  rewrite (splitroot_no_slash _ Hp). cbn [fst snd].
  rewrite (split_no_sep _ _ Hp), (split_no_sep _ _ He).
  reflexivity.
Qed.

(** ** Traces *)

Lemma open_after_app (t1 t2 : list Action) (acc : list Path) :
  open_after (t1 ++ t2) acc = open_after t2 (open_after t1 acc).
Proof.
  revert acc. induction t1 as [|a t1 IH]; intros acc; [reflexivity|].
  destruct a; simpl; apply IH.
Qed.

Lemma open_after_cons (a : Action) (t : list Action) (acc : list Path) :
  open_after (a :: t) acc = open_after t (open_after [a] acc).
Proof. destruct a; reflexivity. Qed.

Lemma never_two_open_bound (t : list Action) (acc : list Path) :
  never_two_open t acc = true -> List.length acc <= 1.
Proof.
  destruct t; simpl; intros H; apply andb_prop in H;
    destruct H as [H _]; now apply Nat.leb_le.
Qed.

Lemma never_two_open_app (t1 t2 : list Action) (acc : list Path) :
  never_two_open (t1 ++ t2) acc
  = never_two_open t1 acc && never_two_open t2 (open_after t1 acc).
Proof.
  revert acc. induction t1 as [|a t1 IH]; intros acc.
  - simpl. destruct t2; simpl; destruct (Nat.leb (List.length acc) 1); reflexivity.
  - cbn [app never_two_open]. rewrite IH, (open_after_cons a t1 acc).
    now rewrite andb_assoc.
Qed.

Lemma writes_of_app (t1 t2 : list Action) :
  writes_of (t1 ++ t2) = (writes_of t1 ++ writes_of t2)%list.
Proof.
  induction t1 as [|a t1 IH]; [reflexivity|].
  destruct a; simpl; now rewrite IH.
Qed.

Lemma appended_app (w1 w2 : list (Path * string)) (p : Path) :
  appended (w1 ++ w2) p = appended w1 p ++ appended w2 p.
Proof.
  induction w1 as [|[q text] w1 IH]; [reflexivity|].
  simpl. now rewrite IH, append_assoc.
Qed.

Lemma flushed_app (t1 t2 : list Action) :
  flushed_after_each_write t1 = true ->
  flushed_after_each_write t2 = true ->
  flushed_after_each_write (t1 ++ t2) = true.
Proof.
  intros H1 H2. induction t1 as [|a t1 IH]; [exact H2|].
  destruct a; try (simpl in *; now apply IH).
  cbn [app flushed_after_each_write] in *.
  destruct t1 as [|b t1]; [discriminate|].
  destruct b; try discriminate.
  cbn [app]. apply andb_prop in H1. destruct H1 as [E H1].
  rewrite E. simpl. exact (IH H1).
Qed.

Lemma Step_refl (st : State) : List.length (st_open st) <= 1 -> Step st st [].
Proof.
  intros H. unfold Step. simpl. rewrite app_nil_r.
  repeat split; auto.
  - apply andb_true_intro. split; [now apply Nat.leb_le | reflexivity].
  - intros p. now rewrite append_nil_r.
Qed.

Lemma Step_trans (st1 st2 st3 : State) (t1 t2 : list Action) :
  Step st1 st2 t1 -> Step st2 st3 t2 -> Step st1 st3 (t1 ++ t2).
Proof.
  intros (T1 & O1 & N1 & F1 & C1) (T2 & O2 & N2 & F2 & C2).
  unfold Step. repeat split.
  - now rewrite T2, T1, app_assoc.
  - now rewrite open_after_app, O1.
  - now rewrite never_two_open_app, N1, O1.
  - now apply flushed_app.
  - intros p. now rewrite C2, C1, writes_of_app, appended_app, append_assoc.
Qed.

Lemma Step_Trail (st st' : State) (t : list Action) :
  Step st st' t -> Trail st st' t.
Proof. intros (T & O & N & _). repeat split; assumption. Qed.

Lemma Trail_trans (st1 st2 st3 : State) (t1 t2 : list Action) :
  Trail st1 st2 t1 -> Trail st2 st3 t2 -> Trail st1 st3 (t1 ++ t2).
Proof.
  intros (T1 & O1 & N1) (T2 & O2 & N2).
  unfold Trail. repeat split.
  - now rewrite T2, T1, app_assoc.
  - now rewrite open_after_app, O1.
  - now rewrite never_two_open_app, N1, O1.
Qed.

Lemma childless_app (t1 t2 : list Action) :
  childless (t1 ++ t2) = childless t1 && childless t2.
Proof. apply forallb_app. Qed.

(** ** The file system *)

Lemma Path_eqb_refl (p : Path) : Path_eqb p p = true.
Proof. unfold Path_eqb. destruct (Path_eq_dec p p); congruence. Qed.

Lemma Path_eqb_eq (p q : Path) : Path_eqb p q = true <-> p = q.
Proof. unfold Path_eqb. destruct (Path_eq_dec p q); split; congruence. Qed.

Lemma content_of_fs_set (fs : FileSystem) (p q : Path) (n : Node) :
  content_of (fs_set fs p n) q
  = if Path_eq_dec q p
    then match n with File c => c | _ => EmptyString end
    else content_of fs q.
Proof. unfold content_of, fs_set. destruct (Path_eq_dec q p); reflexivity. Qed.

Lemma content_of_commit (f : TextIO) (fs : FileSystem) (q : Path) :
  content_of (commit f fs) q
  = content_of fs q ++ (if Path_eq_dec q (f_path f) then f_buffer f else EmptyString).
Proof.
  unfold commit. rewrite content_of_fs_set.
  destruct (Path_eq_dec q (f_path f)) as [->|]; [reflexivity|].
  now rewrite append_nil_r.
Qed.

Lemma content_of_open_append (fs fs' : FileSystem) (p q : Path) :
  open_append fs p = inl fs' -> content_of fs' q = content_of fs q.
Proof.
  unfold open_append. destruct (fs p) eqn:E.
  - destruct (fs (parent p)); try discriminate.
    intros H. injection H as <-. rewrite content_of_fs_set.
    destruct (Path_eq_dec q p) as [->|]; [|reflexivity].
    unfold content_of. now rewrite E.
  - discriminate.
  - intros H. now injection H as <-.
Qed.

Lemma open_append_file (fs fs' : FileSystem) (p : Path) :
  open_append fs p = inl fs' -> exists c, fs' p = File c.
Proof.
  unfold open_append. destruct (fs p) eqn:E.
  - destruct (fs (parent p)); try discriminate.
    intros H. injection H as <-. exists EmptyString. unfold fs_set.
    destruct (Path_eq_dec p p); congruence.
  - discriminate.
  - intros H. injection H as <-. eauto.
Qed.

Lemma open_append_same_dirs (fs fs' : FileSystem) (p : Path) :
  open_append fs p = inl fs' -> same_dirs fs fs'.
Proof.
  unfold open_append, same_dirs. destruct (fs p) eqn:E.
  - destruct (fs (parent p)); try discriminate.
    intros H q. injection H as <-. unfold fs_set.
    destruct (Path_eq_dec q p) as [->|]; [|tauto].
    rewrite E. split; discriminate.
  - discriminate.
  - intros H q. injection H as <-. tauto.
Qed.

Lemma commit_same_dirs (f : TextIO) (fs : FileSystem) :
  (exists c, fs (f_path f) = File c) -> same_dirs fs (commit f fs).
Proof.
  intros [c E] q. unfold commit, fs_set.
  destruct (Path_eq_dec q (f_path f)) as [->|]; [|tauto].
  rewrite E. split; discriminate.
Qed.

Lemma commit_file (f : TextIO) (fs : FileSystem) :
  exists c, commit f fs (f_path f) = File c.
Proof.
  unfold commit, fs_set. destruct (Path_eq_dec (f_path f) (f_path f)); [eauto | congruence].
Qed.

Lemma same_dirs_refl (fs : FileSystem) : same_dirs fs fs.
Proof. intros q. tauto. Qed.

Lemma same_dirs_trans (a b c : FileSystem) :
  same_dirs a b -> same_dirs b c -> same_dirs a c.
Proof. intros H1 H2 q. etransitivity; [apply H2 | apply H1]. Qed.

(** ** The rotating writer *)

Lemma writer_ready_settled (st : State) : writer_ready st -> writer_settled st.
Proof.
  unfold writer_ready, writer_settled. destruct (current_log_file st) as [f|].
  - intros (-> & -> & _ & -> & Hc). auto.
  - tauto.
Qed.

Lemma writer_settled_bound (st : State) :
  writer_settled st -> List.length (st_open st) <= 1.
Proof.
  unfold writer_settled. destruct (current_log_file st) as [f|].
  - intros (_ & -> & _). destruct (f_closed f); simpl; lia.
  - intros ->. simpl. lia.
Qed.

Lemma path_differs_same (p : Path) : path_differs p (Some p) = false.
Proof. simpl. now rewrite Path_eqb_refl. Qed.

Lemma path_differs_true (p : Path) (cur : option Path) :
  path_differs p cur = true <-> cur <> Some p.
Proof.
  destruct cur as [q|]; simpl.
  - unfold Path_eqb. destruct (Path_eq_dec p q); simpl; split; congruence.
  - split; [discriminate | reflexivity].
Qed.

Lemma path_differs_false (p : Path) (cur : option Path) :
  path_differs p cur = false <-> cur = Some p.
Proof.
  destruct cur as [q|]; simpl.
  - unfold Path_eqb. destruct (Path_eq_dec p q); simpl; split; congruence.
  - split; discriminate.
Qed.

Lemma select_log_file_same (target : Path) (fails : bool) (st : State) :
  current_log_path st = Some target ->
  select_log_file target fails st = (st, Ok tt).
Proof.
  intros H. unfold select_log_file, bind, get. cbn.
  now rewrite H, path_differs_same.
Qed.

Lemma writer_calls_close (cur : option TextIO) :
  forallb is_writer_call (close_calls cur) = true.
Proof. destruct cur; reflexivity. Qed.

Lemma writer_calls_childless (t : list Action) :
  forallb is_writer_call t = true -> childless t = true.
Proof.
  unfold childless. induction t as [|a t IH]; [reflexivity|].
  cbn [forallb]. intros H. apply andb_prop in H. destruct H as [Ha Ht].
  rewrite (IH Ht). now destruct a.
Qed.

Lemma writer_calls_no_mkdir (t : list Action) :
  forallb is_writer_call t = true -> mkdirs_of t = [].
Proof.
  induction t as [|a t IH]; [reflexivity|].
  cbn [forallb]. intros H. apply andb_prop in H. destruct H as [Ha Ht].
  destruct a; try discriminate; cbn; auto.
Qed.

Lemma mkdirs_of_app (t1 t2 : list Action) :
  mkdirs_of (t1 ++ t2) = (mkdirs_of t1 ++ mkdirs_of t2)%list.
Proof.
  induction t1 as [|a t1 IH]; [reflexivity|].
  destruct a; cbn; now rewrite ?IH.
Qed.


Lemma select_log_file_differs (target : Path) (fails : bool) (st st' : State)
    (r : result unit) :
  writer_ready st ->
  current_log_path st <> Some target ->
  select_log_file target fails st = (st', r) ->
  st_stream_open st' = st_stream_open st /\
  st_stdout st' = st_stdout st /\
  same_dirs (st_fs st) (st_fs st') /\
  match r with
  | Ok _ =>
      writer_ready st' /\ current_log_path st' = Some target /\
      open_append (fs_closed st) target = inl (st_fs st') /\
      Step st st' (close_calls (current_log_file st) ++ [AOpen target])
  | Raise e =>
      writer_settled st' /\
      (exists er, e = Exception er /\ open_append (fs_closed st) target = inr er) /\
      st_open st' = [] /\
      Step st st' (close_calls (current_log_file st))
  end.
Proof.
  intros Hr Hd H. apply path_differs_true in Hd.
  unfold select_log_file, bind, get in H. cbn in H. rewrite Hd in H.
  unfold writer_ready in Hr. unfold fs_closed.
  destruct st as [fs op so out tr cp cf]. cbn in *.
  destruct cf as [[fp fb fc]|]; cbn in *.
  - destruct Hr as (-> & -> & -> & -> & [c Hc]).
    unfold close_current, TextIO_close, TextIO_flush, release, Path_open,
      bind, get, modify, ret, raise in H.
    cbn in H.
    destruct (Path_eq_dec fp fp) as [_|N]; [|congruence].
    set (f := {| f_path := fp; f_buffer := ""; f_closed := false |}) in *.
    assert (Hsd : same_dirs fs (commit f fs)) by (apply commit_same_dirs; eauto).
    assert (Hcc : forall p, content_of (commit f fs) p = content_of fs p).
    { intros p. rewrite content_of_commit. cbn.
      destruct (Path_eq_dec p fp); now rewrite append_nil_r. }
    destruct (open_append (commit f fs) target) as [fs'|er] eqn:Eo; cbn in H;
      injection H as <- <-; cbn.
    + splits; auto.
      * eapply same_dirs_trans; [exact Hsd | eapply open_append_same_dirs; eauto].
      * eapply open_append_file; eauto.
      * unfold Step; cbn. destruct (Path_eq_dec fp fp); [|congruence].
        splits; auto.
        -- now rewrite <- !app_assoc.
        -- intros p. rewrite (content_of_open_append _ _ _ p Eo), Hcc.
           now rewrite append_nil_r.
    + splits; auto; try (intros; discriminate).
      * eauto.
      * unfold Step; cbn. destruct (Path_eq_dec fp fp); [|congruence].
        splits; auto.
        -- now rewrite <- !app_assoc.
        -- intros p. rewrite Hcc. now rewrite append_nil_r.
  - destruct Hr as (-> & ->).
    unfold Path_open, bind, get, modify, ret, raise in H. cbn in H.
    destruct (open_append fs target) as [fs'|er] eqn:Eo; cbn in H;
      injection H as <- <-; cbn.
    + splits; auto.
      * eapply open_append_same_dirs; eauto.
      * eapply open_append_file; eauto.
      * unfold Step; cbn. splits; auto.
        intros p. rewrite (content_of_open_append _ _ _ p Eo).
        now rewrite append_nil_r.
    + splits; auto.
      * apply same_dirs_refl.
      * eauto.
      * unfold Step; cbn. splits; auto.
        -- now rewrite app_nil_r.
        -- intros p. now rewrite append_nil_r.
Qed.

(** Lines 91 to 96 on a writer that is ready: the line is written and
    flushed and echoed; or the flush is refused, the text staying in the
    buffer; or the line reaches the file and the echo is refused. *)
Lemma write_line_spec (line : string) (ffails efails echo : bool) (f : TextIO)
    (st st' : State) (r : result unit) :
  writer_ready st ->
  current_log_file st = Some f ->
  write_line line ffails efails echo st = (st', r) ->
  st_stream_open st' = st_stream_open st /\
  match r with
  | Ok _ =>
      negb (String.eqb line EmptyString) && ffails = false /\
      echo && efails = false /\
      writer_ready st' /\
      current_log_path st' = current_log_path st /\
      same_dirs (st_fs st) (st_fs st') /\
      st_stdout st' = st_stdout st ++ (if echo then line else EmptyString) /\
      Step st st' ([AWrite (f_path f) line; AFlush (f_path f)]
                     ++ (if echo then [AEcho line] else []))
  | Raise e =>
      e = Exception OSError /\ st_stdout st' = st_stdout st /\
      ((negb (String.eqb line EmptyString) && ffails = true /\
        st' = with_pending (f_path f) line st)
       \/ (negb (String.eqb line EmptyString) && ffails = false /\
           echo = true /\ efails = true /\
           writer_ready st' /\
           current_log_path st' = current_log_path st /\
           same_dirs (st_fs st) (st_fs st') /\
           Step st st' [AWrite (f_path f) line; AFlush (f_path f)]))
  end.
Proof.
  intros Hr Hf H. unfold writer_ready in Hr. rewrite Hf in Hr.
  destruct Hr as (Hc & Hb & Hp & Ho & [c Hfile]).
  unfold write_line, bind, get in H. cbn in H. rewrite Hf in H.
  unfold TextIO_write, TextIO_flush, stdout_write, bind, get, modify, ret, raise in H.
  rewrite Hc in H.
  destruct st as [fs op so out tr cp cf]. cbn in *. subst.
  destruct f as [fp fb fc]. cbn in *. subst. cbn [append] in H.
  destruct (negb (String.eqb line "") && ffails) eqn:Eref.
  { cbn in H. injection H as <- <-. splits; auto. }
  cbn in H.
  set (f1 := {| f_path := fp; f_buffer := line; f_closed := false |}) in *.
  assert (Hcc : forall p, content_of (commit f1 fs) p
                          = content_of fs p
                              ++ (if Path_eq_dec p fp then line else "") ++ "").
  { intros p. rewrite content_of_commit. cbn. now rewrite append_nil_r. }
  assert (Hsd : same_dirs fs (commit f1 fs)) by (apply commit_same_dirs; eauto).
  pose proof (commit_file f1 fs) as Hcf.
  assert (HS : Step (mkState fs [fp] so out tr (Some fp)
                       (Some (mkTextIO fp "" false)))
                    (mkState (commit f1 fs) [fp] so out
                       ((tr ++ [AWrite fp line]) ++ [AFlush fp]) (Some fp)
                       (Some (mkTextIO fp "" false)))
                    [AWrite fp line; AFlush fp]).
  { unfold Step; cbn. rewrite Path_eqb_refl.
    splits; auto. now rewrite <- !app_assoc. }
  destruct echo; cbn in H.
  - destruct efails; cbn in H; injection H as <- <-; cbn.
    + splits; auto. right. splits; auto.
    + splits; auto. unfold Step; cbn. rewrite Path_eqb_refl.
      splits; auto. now rewrite <- !app_assoc.
  - injection H as <- <-; cbn. splits; auto.
    now rewrite append_nil_r.
Qed.

(** One turn of the loop. *)
Lemma process_line_spec log_dir log_prefix log_extension echo ev st st' r :
  writer_ready st ->
  process_line log_dir log_prefix log_extension echo ev st = (st', r) ->
  let target := target_of log_dir log_prefix log_extension ev in
  st_stream_open st' = st_stream_open st /\
  match r with
  | Ok _ =>
      exists t,
        Step st st' t /\ forallb is_writer_call t = true /\
        writer_ready st' /\ current_log_path st' = Some target /\
        same_dirs (st_fs st) (st_fs st') /\
        writes_of t = [(target, le_line ev)] /\
        st_stdout st' = st_stdout st ++ (if echo then le_line ev else EmptyString)
  | Raise e =>
      st_stdout st' = st_stdout st /\
      exists er, e = Exception er /\
      ((exists t,
           Step st st' t /\ forallb is_writer_call t = true /\
           writes_of t = [] /\ writer_settled st' /\
           same_dirs (st_fs st) (st_fs st') /\
           open_append (fs_closed st) target = inr er)
       \/ (exists s1 t,
             Step st s1 t /\ forallb is_writer_call t = true /\
             writes_of t = [] /\ writer_ready s1 /\
             current_log_path s1 = Some target /\
             same_dirs (st_fs st) (st_fs s1) /\
             st_stdout s1 = st_stdout st /\
             st_stream_open s1 = st_stream_open st /\
             refused ev = true /\ er = OSError /\
             st' = with_pending target (le_line ev) s1)
       \/ (exists t,
             Step st st' t /\ forallb is_writer_call t = true /\
             writes_of t = [(target, le_line ev)] /\
             writer_ready st' /\ current_log_path st' = Some target /\
             same_dirs (st_fs st) (st_fs st') /\
             refused ev = false /\ echo = true /\ le_echo_fails ev = true /\
             er = OSError))
  end.
Proof.
  intros Hr H target. unfold process_line in H.
  fold (target_of log_dir log_prefix log_extension ev) in H.
  fold target in H. clearbody target.
  unfold bind at 1 in H.
  destruct (select_log_file target (le_flush_fails ev) st) as [st1 r1] eqn:Es.
  assert (Hsel :
    r1 = Ok tt /\ writer_ready st1 /\ current_log_path st1 = Some target /\
    st_stream_open st1 = st_stream_open st /\ st_stdout st1 = st_stdout st /\
    same_dirs (st_fs st) (st_fs st1) /\
    (exists t1, Step st st1 t1 /\ forallb is_writer_call t1 = true /\
                writes_of t1 = [])
    \/ (exists er, r1 = Raise (Exception er) /\
          st_stream_open st1 = st_stream_open st /\ st_stdout st1 = st_stdout st /\
          same_dirs (st_fs st) (st_fs st1) /\ writer_settled st1 /\
          open_append (fs_closed st) target = inr er /\
          Step st st1 (close_calls (current_log_file st)))).
  { destruct (path_differs target (current_log_path st)) eqn:D;
      [apply path_differs_true in D | apply path_differs_false in D].
    - pose proof (select_log_file_differs _ _ _ _ _ Hr D Es) as (S1 & S2 & S3 & S4).
      destruct r1 as [[]|e1].
      + destruct S4 as (Hr1 & Hp1 & _ & HS1). left. splits; auto.
        eexists. splits; [exact HS1 | |].
        * rewrite forallb_app, writer_calls_close. reflexivity.
        * rewrite writes_of_app. now destruct (current_log_file st).
      + destruct S4 as (Hs1 & (er & -> & Eo) & _ & HS1). right.
        exists er. splits; auto.
    - rewrite (select_log_file_same _ _ _ D) in Es. injection Es as <- <-.
      left. splits; auto using same_dirs_refl.
      exists []. splits; auto.
      apply Step_refl, writer_settled_bound, writer_ready_settled, Hr. }
  destruct Hsel as [(-> & Hr1 & Hp1 & Hso1 & Hout1 & Hsd1 & t1 & HS1 & Hw1 & Hwr1)
                   |(er & -> & Hso1 & Hout1 & Hsd1 & Hs1 & Eo & HS1)].
  - assert (Hf : exists f, current_log_file st1 = Some f /\ f_path f = target).
    { unfold writer_ready in Hr1. destruct (current_log_file st1) as [f|].
      - exists f. destruct Hr1 as (_ & _ & Hp & _). split; congruence.
      - destruct Hr1; congruence. }
    destruct Hf as (f & Hf & Hfp).
    pose proof (write_line_spec _ _ _ _ f _ _ _ Hr1 Hf H) as (W0 & W).
    rewrite Hfp in W.
    split; [congruence|].
    destruct r as [[]|e].
    + destruct W as (_ & _ & Hr' & Hp' & Hd' & Ho' & HS).
      eexists. splits; [exact (Step_trans _ _ _ _ _ HS1 HS) | | | | | |].
      * rewrite forallb_app, Hw1. now destruct echo.
      * exact Hr'.
      * congruence.
      * eauto using same_dirs_trans.
      * rewrite writes_of_app, Hwr1. now destruct echo.
      * congruence.
    + destruct W as (-> & Ho' & [(Eref & ->)|(Eref & -> & Eef & Hr' & Hp' & Hd' & HS)]).
      * split; [cbn; congruence|]. exists OSError. split; [reflexivity|].
        right. left. exists st1, t1. splits; auto.
      * split; [congruence|]. exists OSError. split; [reflexivity|].
        right. right. eexists.
        splits; [exact (Step_trans _ _ _ _ _ HS1 HS) | | | | | | | | |]; auto.
        -- rewrite forallb_app, Hw1. reflexivity.
        -- rewrite writes_of_app, Hwr1. reflexivity.
        -- congruence.
        -- eauto using same_dirs_trans.
  - injection H as <- <-. split; [exact Hso1|]. split; [exact Hout1|].
    exists er. split; [reflexivity|]. left.
    eexists. splits; [exact HS1 | | | | |]; auto.
    + apply writer_calls_close.
    + now destruct (current_log_file st).
Qed.

(** ** The read loop *)

Lemma appended_write_of log_dir log_prefix log_extension lines p :
  appended (map (write_of log_dir log_prefix log_extension) lines) p
  = routed log_dir log_prefix log_extension lines p.
Proof.
  induction lines as [|ev rest IH]; [reflexivity|].
  cbn [map appended routed write_of]. now rewrite IH.
Qed.

Lemma routed_app log_dir log_prefix log_extension l1 l2 p :
  routed log_dir log_prefix log_extension (l1 ++ l2) p
  = routed log_dir log_prefix log_extension l1 p
    ++ routed log_dir log_prefix log_extension l2 p.
Proof.
  induction l1 as [|ev l1 IH]; [reflexivity|].
  cbn [app routed]. now rewrite IH, append_assoc.
Qed.

Lemma Step_routed log_dir log_prefix log_extension (st st' : State)
    (t : list Action) (lines : list LineEvent) :
  Step st st' t ->
  writes_of t = map (write_of log_dir log_prefix log_extension) lines ->
  forall p, content_of (st_fs st') p
            = content_of (st_fs st) p
              ++ routed log_dir log_prefix log_extension lines p.
Proof.
  intros (_ & _ & _ & _ & C) W p. now rewrite C, W, appended_write_of.
Qed.

Lemma read_loop_spec log_dir log_prefix log_extension echo lines fin :
  forall st st' r,
  writer_ready st ->
  read_loop log_dir log_prefix log_extension echo lines fin st = (st', r) ->
  st_stream_open st' = st_stream_open st /\
  exists k,
    k <= List.length lines /\
    st_stdout st'
    = st_stdout st ++ (if echo then concat_lines (firstn k lines)
                       else EmptyString) /\
    ((exists t m,
         Step st st' t /\ forallb is_writer_call t = true /\
         writer_settled st' /\ same_dirs (st_fs st) (st_fs st') /\
         writes_of t
         = map (write_of log_dir log_prefix log_extension) (firstn m lines) /\
         match r with
         | Ok _ =>
             k = List.length lines /\ m = k /\ fin = EndOfStream /\
             writer_ready st' /\
             (forall ev, lines <> [] ->
                current_log_path st'
                = Some (target_of log_dir log_prefix log_extension (last lines ev)))
         | Raise KeyboardInterrupt =>
             k = List.length lines /\ m = k /\ fin = InterruptedRead /\
             writer_ready st'
         | Raise (Exception e) =>
             (k = List.length lines /\ m = k /\ fin = ReadFails e /\
              writer_ready st')
             \/ (k < List.length lines /\ m = k)
             \/ (k < List.length lines /\ m = S k /\ e = OSError)
         | Raise (SystemExit _) => False
         end)
     \/ (exists s1 t ev,
           r = Raise (Exception OSError) /\
           Step st s1 t /\ forallb is_writer_call t = true /\
           writer_ready s1 /\ same_dirs (st_fs st) (st_fs s1) /\
           st_stream_open s1 = st_stream_open st /\
           st_stdout s1 = st_stdout st' /\
           writes_of t
           = map (write_of log_dir log_prefix log_extension) (firstn k lines) /\
           nth_error lines k = Some ev /\ refused ev = true /\
           current_log_path s1
           = Some (target_of log_dir log_prefix log_extension ev) /\
           st' = with_pending (target_of log_dir log_prefix log_extension ev)
                   (le_line ev) s1)).
Proof.
  induction lines as [|ev rest IH]; intros st st' r Hr H.
  - cbn in H.
    assert (HS : Step st st' [] /\ st' = st).
    { destruct fin; injection H as <- <-; split; auto;
        apply Step_refl, writer_settled_bound, writer_ready_settled, Hr. }
    destruct HS as (HS & ->).
    split; [reflexivity|]. exists 0. split; [auto|].
    split; [destruct echo; now rewrite append_nil_r|].
    left. exists [], 0.
    splits; auto using same_dirs_refl, writer_ready_settled.
    destruct fin; injection H as <-; splits; auto; try congruence.
  - cbn [read_loop] in H. unfold bind at 1 in H.
    destruct (process_line log_dir log_prefix log_extension echo ev st)
      as [st1 r1] eqn:E1.
    pose proof (process_line_spec _ _ _ _ _ _ _ _ Hr E1) as (P1 & P2).
    destruct r1 as [[]|e1].
    + destruct P2 as (t1 & HS1 & Hc1 & Hr1 & Hp1 & Hd1 & Hw1 & Ho1).
      destruct (IH _ _ _ Hr1 H) as (Q1 & k & Hk & Qo & Q).
      split; [congruence|]. exists (S k). split; [simpl; lia|].
      split.
      { rewrite Qo, Ho1. cbn [firstn concat_lines].
        destruct echo; now rewrite ?append_assoc, ?append_nil_r. }
      destruct Q as [(t2 & m & HS2 & Hc2 & Hs2 & Hd2 & Hw2 & Q4)
                    |(s1 & t2 & ev' & -> & HS2 & Hc2 & Hrs & Hd2 & Hso & Hout
                      & Hw2 & Hn & Href & Hp2 & ->)].
      * left. exists (t1 ++ t2)%list, (S m). splits.
        -- eapply Step_trans; eauto.
        -- now rewrite forallb_app, Hc1, Hc2.
        -- exact Hs2.
        -- eauto using same_dirs_trans.
        -- rewrite writes_of_app, Hw1, Hw2. reflexivity.
        -- destruct r as [[]|[e| |c]]; cbn [List.length].
           ++ destruct Q4 as (-> & -> & -> & Hr' & Hl). splits; auto.
              intros ev0 _. destruct rest as [|ev' rest'].
              ** cbn in H. injection H as <-. exact Hp1.
              ** apply (Hl ev0). discriminate.
           ++ destruct Q4 as [(-> & -> & -> & Hr')|[(Hlt & ->)|(Hlt & -> & ->)]].
              ** left. auto.
              ** right. left. split; [lia | reflexivity].
              ** right. right. splits; auto. lia.
           ++ destruct Q4 as (-> & -> & -> & Hr'). auto.
           ++ exact Q4.
      * right. exists s1, (t1 ++ t2)%list, ev'. splits; auto.
        -- eapply Step_trans; eauto.
        -- now rewrite forallb_app, Hc1, Hc2.
        -- eauto using same_dirs_trans.
        -- congruence.
        -- rewrite writes_of_app, Hw1, Hw2. reflexivity.
    + injection H as <- <-.
      destruct P2 as (Ho1 & er & -> & P2).
      split; [exact P1|]. exists 0. split; [simpl; lia|].
      split; [rewrite Ho1; destruct echo; now rewrite append_nil_r|].
      destruct P2 as [(t & HS & Hc & Hw & Hs & Hd & _)
                     |[(s1 & t & HS & Hc & Hw & Hrs & Hp & Hd & Hout & Hso & Href & -> & ->)
                      |(t & HS & Hc & Hw & Hrs & Hp & Hd & _ & _ & _ & ->)]].
      * left. exists t, 0. splits; auto.
        right. left. split; [simpl; lia | reflexivity].
      * right. exists s1, t, ev. splits; auto.
      * left. exists t, 1. splits; auto using writer_ready_settled.
        right. right. splits; auto. simpl. lia.
Qed.

Lemma read_loop_app log_dir log_prefix log_extension echo l1 l2 fin st :
  read_loop log_dir log_prefix log_extension echo (l1 ++ l2) fin st
  = bind (read_loop log_dir log_prefix log_extension echo l1 EndOfStream)
         (fun _ => read_loop log_dir log_prefix log_extension echo l2 fin) st.
Proof.
  revert st. induction l1 as [|ev l1 IH]; intros st; [reflexivity|].
  cbn [app read_loop]. unfold bind.
  destruct (process_line log_dir log_prefix log_extension echo ev st) as [st1 [[]|e]];
    [|reflexivity].
  rewrite IH. reflexivity.
Qed.


(** ** Before the loop and after it *)

(** [mkdir] only turns absent paths into directories. *)
Lemma mkdir_parents_grows (r : Root) (rparts : list string) :
  forall fs fs' q,
  mkdir_parents fs r rparts = inl fs' ->
  fs' q = fs q \/ (fs q = Absent /\ fs' q = Dir).
Proof.
  induction rparts as [|x up IH]; intros fs fs' q; cbn [mkdir_parents].
  - destruct (fs _); try discriminate. intros H. injection H as <-. auto.
  - destruct (fs (mkPath r (rev (x :: up)))) eqn:E; try discriminate.
    + destruct (fs (mkPath r (rev up))) eqn:E2; try discriminate.
      * destruct (mkdir_parents fs r up) as [fs1|] eqn:E3; try discriminate.
        intros H. injection H as <-. unfold fs_set.
        destruct (Path_eq_dec q _) as [->|]; [right; auto|].
        eapply IH; eauto.
      * intros H. injection H as <-. unfold fs_set.
        destruct (Path_eq_dec q _) as [->|]; auto.
    + intros H. injection H as <-. auto.
Qed.

Lemma mkdir_parents_dir (r : Root) (rparts : list string) (fs fs' : FileSystem) :
  mkdir_parents fs r rparts = inl fs' -> fs' (mkPath r (rev rparts)) = Dir.
Proof.
  destruct rparts as [|x up]; cbn [mkdir_parents].
  - destruct (fs _) eqn:E; try discriminate. intros H. now injection H as <-.
  - destruct (fs (mkPath r (rev (x :: up)))) eqn:E; try discriminate.
    + assert (Hset : forall g, fs_set g (mkPath r (rev (x :: up))) Dir
                                 (mkPath r (rev (x :: up))) = Dir).
      { intros g. unfold fs_set. destruct (Path_eq_dec _ _); congruence. }
      destruct (fs (mkPath r (rev up))); try discriminate.
      * destruct (mkdir_parents fs r up); try discriminate.
        intros H. injection H as <-. apply Hset.
      * intros H. injection H as <-. apply Hset.
    + intros H. now injection H as <-.
Qed.

Lemma mkdir_parents_content (r : Root) (rparts : list string) fs fs' q :
  mkdir_parents fs r rparts = inl fs' -> content_of fs' q = content_of fs q.
Proof.
  intros H. unfold content_of.
  destruct (mkdir_parents_grows _ _ _ _ q H) as [->|[-> ->]]; reflexivity.
Qed.

Lemma mkdir_parents_files (r : Root) (rparts : list string) fs fs' q c :
  mkdir_parents fs r rparts = inl fs' -> (fs' q = File c <-> fs q = File c).
Proof.
  intros H.
  destruct (mkdir_parents_grows _ _ _ _ q H) as [->|[-> ->]];
    [tauto | split; discriminate].
Qed.

Lemma path_eta (p : Path) : mkPath (root p) (rev (rev (parts p))) = p.
Proof. destruct p. cbn. now rewrite rev_involutive. Qed.

(** The run, with lines 66 to 77 evaluated. *)
Lemma run_with_daily_logs_eval env command log_dir log_prefix log_extension echo fs :
  run_with_daily_logs env command log_dir log_prefix log_extension echo
    (initial_state fs)
  = match mkdir_parents fs (root log_dir) (rev (parts log_dir)) with
    | inr er => (initial_state fs, Raise (Exception er))
    | inl fs1 =>
        match env_launch env command with
        | LaunchFails er =>
            (mkState fs1 [] false EmptyString [AMkdir log_dir] None None,
             Raise (Exception er))
        | Launched has_stdout =>
            try_except_finally
              (try_body env has_stdout log_dir log_prefix log_extension echo)
              (on_keyboard_interrupt env)
              (finally_clause env has_stdout)
              (started fs1 has_stdout log_dir command)
        end
    end.
Proof.
  unfold run_with_daily_logs, Path_mkdir, Popen, bind, get, modify, ret, raise.
  cbn.
  destruct (mkdir_parents fs (root log_dir) (rev (parts log_dir))); [|reflexivity].
  cbn. destruct (env_launch env command); reflexivity.
Qed.

Lemma run_upto_eval k env command log_dir log_prefix log_extension echo fs :
  run_upto k env command log_dir log_prefix log_extension echo (initial_state fs)
  = match mkdir_parents fs (root log_dir) (rev (parts log_dir)) with
    | inr er => (initial_state fs, Raise (Exception er))
    | inl fs1 =>
        match env_launch env command with
        | LaunchFails er =>
            (mkState fs1 [] false EmptyString [AMkdir log_dir] None None,
             Raise (Exception er))
        | Launched true =>
            read_loop log_dir log_prefix log_extension echo
              (firstn k (env_lines env)) EndOfStream
              (started fs1 true log_dir command)
        | Launched false =>
            (started fs1 false log_dir command, Raise (Exception RuntimeError))
        end
    end.
Proof.
  unfold run_upto, Path_mkdir, Popen, bind, get, modify, ret, raise.
  cbn.
  destruct (mkdir_parents fs (root log_dir) (rev (parts log_dir))); [|reflexivity].
  cbn. destruct (env_launch env command) as [[]|]; reflexivity.
Qed.

Lemma started_ready fs hs log_dir command :
  writer_ready (started fs hs log_dir command).
Proof. split; reflexivity. Qed.

(** The [finally] clause on a writer with nothing buffered releases the
    pipe and the file and does not raise. *)
Lemma finally_clause_spec (env : Env) (has_stdout : bool) (st : State) :
  writer_settled st ->
  exists st',
    finally_clause env has_stdout st = (st', Ok tt) /\
    st_open st' = [] /\
    st_stream_open st' = (if has_stdout then false else st_stream_open st) /\
    st_stdout st' = st_stdout st /\
    same_dirs (st_fs st) (st_fs st') /\
    Step st st' ((if has_stdout then [ACloseStream] else [])
                   ++ final_close_calls (current_log_file st)).
Proof.
  intros Hs. pose proof (writer_settled_bound _ Hs) as Hb.
  unfold writer_settled in Hs.
  unfold finally_clause, stream_close, close_current, TextIO_close, TextIO_flush,
    release, bind, get, modify, ret, raise.
  destruct st as [fs op so out tr cp cf]. cbn in *.
  destruct cf as [[fp fb fc]|]; cbn in *.
  - destruct Hs as (-> & -> & Hex).
    destruct fc.
    + destruct has_stdout; cbn; eexists; (split; [reflexivity|]); cbn;
        splits; auto using same_dirs_refl; unfold Step; cbn;
        splits; auto; rewrite ?app_nil_r; auto;
        intros p; now rewrite ?append_nil_r.
    + destruct (Hex eq_refl) as [c Hc].
      assert (Hsd : same_dirs fs (commit (mkTextIO fp "" false) fs))
        by (apply commit_same_dirs; cbn; eauto).
      destruct has_stdout; cbn; eexists; (split; [reflexivity|]); cbn;
        (destruct (Path_eq_dec fp fp); [|congruence]);
        splits; auto; unfold Step; cbn;
        (destruct (Path_eq_dec fp fp); [|congruence]);
        splits; auto; rewrite <- ?app_assoc, ?app_nil_r; auto;
        intros p; rewrite ?content_of_commit; cbn;
        destruct (Path_eq_dec p fp); now rewrite ?append_nil_r.
  - subst. destruct has_stdout; cbn; eexists; (split; [reflexivity|]); cbn;
      splits; auto using same_dirs_refl; unfold Step; cbn; splits; auto;
      rewrite ?app_nil_r; auto; intros p; now rewrite append_nil_r.
Qed.

Lemma firstn_snoc {A : Type} (l : list A) (k : nat) (x : A) :
  nth_error l k = Some x -> firstn (S k) l = (firstn k l ++ [x])%list.
Proof.
  revert k. induction l as [|a l IH]; intros [|k] H; try discriminate.
  - cbn in H. injection H as ->. reflexivity.
  - cbn in H. cbn [firstn app]. f_equal. exact (IH k H).
Qed.

Lemma nth_error_length {A : Type} (l : list A) (k : nat) (x : A) :
  nth_error l k = Some x -> k < List.length l.
Proof. intros H. apply nth_error_Some. congruence. Qed.

(** The [finally] clause after a refused flush: the pipe is closed, and
    the close of the file hands the text over again; the file is released
    whether the device takes the text or refuses it once more. *)
Lemma finally_pending (env : Env) (s1 : State) (p : Path) (line : string) :
  writer_ready s1 -> current_log_path s1 = Some p ->
  st_stream_open s1 = true ->
  negb (String.eqb line EmptyString) = true ->
  exists st',
    finally_clause env true (with_pending p line s1)
    = (st', if env_close_fails env then Raise (Exception OSError) else Ok tt) /\
    st_open st' = [] /\ st_stream_open st' = false /\
    st_stdout st' = st_stdout s1 /\
    same_dirs (st_fs s1) (st_fs st') /\
    Trail s1 st' ([AWrite p line; ACloseStream]
                    ++ (if env_close_fails env then [AClose p]
                        else [AFlush p; AClose p])) /\
    (forall q, content_of (st_fs st') q
               = content_of (st_fs s1) q
                 ++ (if env_close_fails env then EmptyString
                     else if Path_eq_dec q p then line else EmptyString)).
Proof.
  intros Hr Hp Hso Hne. unfold writer_ready in Hr.
  destruct s1 as [fs op so out tr cp cf]. cbn in *. subst.
  destruct cf as [[fp fb fc]|]; [|destruct Hr; discriminate].
  cbn in Hr. destruct Hr as (-> & -> & E & -> & [c Hc]). injection E as ->.
  unfold with_pending, finally_clause, stream_close, close_current, TextIO_close,
    TextIO_flush, release, bind, get, modify, ret, raise.
  cbn. rewrite Hne. cbn [andb].
  destruct (env_close_fails env); cbn;
    (destruct (Path_eq_dec fp fp) as [_|N]; [|congruence]).
  - eexists. split; [reflexivity|]. cbn.
    splits; auto using same_dirs_refl.
    + unfold Trail; cbn. destruct (Path_eq_dec fp fp); [|congruence].
      splits; auto. now rewrite <- !app_assoc.
    + intros q. now rewrite append_nil_r.
  - eexists. split; [reflexivity|]. cbn.
    splits; auto.
    + apply commit_same_dirs. cbn. eauto.
    + unfold Trail; cbn. destruct (Path_eq_dec fp fp); [|congruence].
      splits; auto. now rewrite <- !app_assoc.
    + intros q. rewrite content_of_commit. reflexivity.
Qed.

Lemma on_keyboard_interrupt_spec (env : Env) (st : State) :
  List.length (st_open st) <= 1 ->
  exists st',
    on_keyboard_interrupt env st = (st', Ok 130%Z) /\
    st_open st' = st_open st /\
    st_stream_open st' = st_stream_open st /\
    st_fs st' = st_fs st /\
    st_stdout st' = st_stdout st /\
    current_log_file st' = current_log_file st /\
    current_log_path st' = current_log_path st /\
    Step st st' (handler_calls env).
Proof.
  intros Hb. apply Nat.leb_le in Hb.
  unfold on_keyboard_interrupt, process_poll, process_terminate,
    process_wait_terminated, handler_calls, bind, get, modify, ret, raise.
  destruct (env_poll env); cbn; eexists; (split; [reflexivity|]); cbn;
    splits; auto; unfold Step; cbn; rewrite ?Hb; splits; auto;
    rewrite <- ?app_assoc; auto; intros p; now rewrite append_nil_r.
Qed.

Lemma process_wait_spec (env : Env) (st : State) :
  List.length (st_open st) <= 1 ->
  match env_wait env with
  | Exited c =>
      exists st',
        process_wait env st = (st', Ok c) /\
        st_open st' = st_open st /\
        st_stream_open st' = st_stream_open st /\
        st_fs st' = st_fs st /\
        st_stdout st' = st_stdout st /\
        current_log_file st' = current_log_file st /\
        Step st st' [AWait]
  | InterruptedWait => process_wait env st = (st, Raise KeyboardInterrupt)
  end.
Proof.
  intros Hb. apply Nat.leb_le in Hb.
  unfold process_wait, bind, modify, ret, raise.
  destruct (env_wait env); [|reflexivity].
  cbn. eexists. split; [reflexivity|]. cbn. splits; auto.
  unfold Step; cbn. rewrite Hb. splits; auto.
  intros p. now rewrite append_nil_r.
Qed.

Lemma writer_settled_fields (st st' : State) :
  st_open st' = st_open st ->
  st_fs st' = st_fs st ->
  current_log_file st' = current_log_file st ->
  writer_settled st -> writer_settled st'.
Proof. unfold writer_settled. intros -> -> ->. auto. Qed.

Lemma writes_of_final_close (cur : option TextIO) :
  writes_of (final_close_calls cur) = [].
Proof. destruct cur as [f|]; [|reflexivity]. cbn. now destruct (f_closed f). Qed.

Lemma writes_of_handler (env : Env) : writes_of (handler_calls env) = [].
Proof. unfold handler_calls. now destruct (env_poll env). Qed.

Lemma mkdirs_of_final_close (cur : option TextIO) :
  mkdirs_of (final_close_calls cur) = [].
Proof. destruct cur as [f|]; [|reflexivity]. cbn. now destruct (f_closed f). Qed.

Lemma mkdirs_of_handler (env : Env) : mkdirs_of (handler_calls env) = [].
Proof. unfold handler_calls. now destruct (env_poll env). Qed.

Lemma childless_final_close (cur : option TextIO) :
  childless (final_close_calls cur) = true.
Proof. destruct cur as [f|]; [|reflexivity]. cbn. now destruct (f_closed f). Qed.

Lemma finally_after (env : Env) (has_stdout : bool) (s : State) :
  writer_settled s -> st_stream_open s = has_stdout ->
  exists s',
    finally_clause env has_stdout s = (s', Ok tt) /\
    st_open s' = [] /\ st_stream_open s' = false /\
    st_stdout s' = st_stdout s /\
    same_dirs (st_fs s) (st_fs s') /\
    Step s s' ((if has_stdout then [ACloseStream] else [])
                 ++ final_close_calls (current_log_file s)).
Proof.
  intros Hs Hst.
  destruct (finally_clause_spec env has_stdout s Hs) as (s' & E & O & S & Out & D & T).
  exists s'. splits; auto. rewrite S, Hst. now destruct has_stdout.
Qed.

(** The handler, then [finally]: the child is polled, terminated and
    waited for when it still runs, and the status is 130. *)
Lemma interrupted_tail (env : Env) (s1 : State) :
  writer_settled s1 -> st_stream_open s1 = true ->
  exists st',
    (let '(st1, r1) := on_keyboard_interrupt env s1 in
     let (st2, rf) := finally_clause env true st1 in
     match rf with
     | Ok _ => (st2, r1)
     | Raise e => (st2, Raise e)
     end) = (st', Ok 130%Z) /\
    st_open st' = [] /\ st_stream_open st' = false /\
    st_stdout st' = st_stdout s1 /\
    same_dirs (st_fs s1) (st_fs st') /\
    Step s1 st' (handler_calls env ++ [ACloseStream]
                   ++ final_close_calls (current_log_file s1)).
Proof.
  intros Hs Hst.
  destruct (on_keyboard_interrupt_spec env s1 (writer_settled_bound _ Hs))
    as (s2 & E2 & O2 & S2 & F2 & Out2 & C2 & P2 & HS2).
  rewrite E2.
  destruct (finally_after env true s2) as (s3 & E3 & O3 & S3 & Out3 & D3 & HS3);
    [eapply writer_settled_fields; eauto | congruence |].
  rewrite E3. exists s3.
  splits; auto; try congruence.
  - rewrite <- F2. exact D3.
  - rewrite <- C2. exact (Step_trans _ _ _ _ _ HS2 HS3).
Qed.

(** The [try] statement, entered between two lines: how it ends, what it
    leaves open, which calls it made, and what reached the files and
    standard output. Of the lines, [k] were handled to the end, [m] are
    in the files and [w] were written. *)
Lemma guarded_run_spec env has_stdout log_dir log_prefix log_extension echo
    (st st' : State) (r : result Z) :
  writer_ready st ->
  st_stream_open st = has_stdout ->
  try_except_finally
    (try_body env has_stdout log_dir log_prefix log_extension echo)
    (on_keyboard_interrupt env) (finally_clause env has_stdout) st = (st', r) ->
  st_open st' = [] /\ st_stream_open st' = false /\
  exists t k m w,
    Trail st st' t /\ mkdirs_of t = [] /\
    k <= m /\ m <= w /\ w <= S k /\ w <= List.length (env_lines env) /\
    writes_of t
      = map (write_of log_dir log_prefix log_extension)
            (firstn w (env_lines env)) /\
    (forall p, content_of (st_fs st') p
               = content_of (st_fs st) p
                 ++ routed log_dir log_prefix log_extension
                      (firstn m (env_lines env)) p) /\
    same_dirs (st_fs st) (st_fs st') /\
    st_stdout st'
    = st_stdout st ++ (if echo then concat_lines (firstn k (env_lines env))
                       else EmptyString) /\
    ((exists c,
         r = Ok c /\ has_stdout = true /\ k = List.length (env_lines env) /\
         env_end env = EndOfStream /\ env_wait env = Exited c)
     \/ (r = Ok 130%Z /\ has_stdout = true /\ k = List.length (env_lines env) /\
         (env_end env = InterruptedRead
          \/ (env_end env = EndOfStream /\ env_wait env = InterruptedWait)))
     \/ (exists er,
           r = Raise (Exception er) /\ childless t = true /\
           (k < w -> er = OSError) /\
           (has_stdout = false \/ k < List.length (env_lines env)
            \/ (k = List.length (env_lines env) /\ env_end env = ReadFails er)))).
Proof.
  intros Hr Hso H.
  unfold try_except_finally, try_body in H.
  destruct has_stdout.
  - unfold bind at 1 in H.
    destruct (read_loop log_dir log_prefix log_extension echo
                (env_lines env) (env_end env) st) as [s1 r1] eqn:EL.
    destruct (read_loop_spec _ _ _ _ _ _ _ _ _ Hr EL) as (L1 & k & Hk & Lo & L).
    assert (Hs1 : st_stream_open s1 = true) by congruence.
    destruct L as [(t & m & HS & Hc & L3 & Ld & Hw & L4)
                  |(s0 & t & ev & -> & HS & Hc & Hr0 & Ld & Lso & Lout & Hw
                    & Hn & Href & Hp0 & ->)].
    + pose proof (writer_settled_bound _ L3) as Hb1.
      assert (Hfin : forall t_end s3,
                Step s1 s3 t_end -> writes_of t_end = [] ->
                mkdirs_of t_end = [] ->
                same_dirs (st_fs s1) (st_fs s3) ->
                st_stdout s3 = st_stdout s1 ->
                m <= List.length (env_lines env) ->
                Trail st s3 (t ++ t_end) /\ mkdirs_of (t ++ t_end) = [] /\
                writes_of (t ++ t_end)
                = map (write_of log_dir log_prefix log_extension)
                      (firstn m (env_lines env)) /\
                (forall p, content_of (st_fs s3) p
                           = content_of (st_fs st) p
                             ++ routed log_dir log_prefix log_extension
                                  (firstn m (env_lines env)) p) /\
                same_dirs (st_fs st) (st_fs s3) /\
                st_stdout s3
                = st_stdout st ++ (if echo
                                   then concat_lines (firstn k (env_lines env))
                                   else EmptyString)).
      { intros t_end s3 HSe Hwe Hme Hde Houte _.
        pose proof (Step_trans _ _ _ _ _ HS HSe) as HSt.
        assert (Hwt : writes_of (t ++ t_end)
                      = map (write_of log_dir log_prefix log_extension)
                            (firstn m (env_lines env)))
          by now rewrite writes_of_app, Hwe, app_nil_r.
        splits.
        - now apply Step_Trail.
        - now rewrite mkdirs_of_app, Hme, (writer_calls_no_mkdir _ Hc).
        - exact Hwt.
        - exact (Step_routed _ _ _ _ _ _ _ HSt Hwt).
        - eauto using same_dirs_trans.
        - congruence. }
      destruct r1 as [[]|[er| |c]].
      * destruct L4 as (-> & -> & Hend & Hr1 & _).
        pose proof (process_wait_spec env s1 Hb1) as W.
        destruct (env_wait env) as [c|] eqn:EW.
        -- destruct W as (s2 & E2 & O2 & S2 & F2 & Out2 & C2 & HS2).
           rewrite E2 in H.
           destruct (finally_after env true s2)
             as (s3 & E3 & O3 & S3 & Out3 & D3 & HS3);
             [eapply writer_settled_fields; eauto | congruence |].
           rewrite E3 in H. injection H as <- <-.
           splits; auto.
           destruct (Hfin ([AWait] ++ [ACloseStream]
                             ++ final_close_calls (current_log_file s2))%list s3)
             as (A1 & A2 & A3 & A4 & A5 & A6); auto.
           { exact (Step_trans _ _ _ _ _ HS2 HS3). }
           { cbn. apply writes_of_final_close. }
           { cbn. apply mkdirs_of_final_close. }
           { rewrite <- F2. exact D3. }
           { congruence. }
           eexists. exists (List.length (env_lines env)),
             (List.length (env_lines env)), (List.length (env_lines env)).
           splits; eauto.
           left. exists c. splits; auto.
        -- rewrite W in H.
           destruct (interrupted_tail env s1 L3 Hs1)
             as (s3 & E3 & O & S & Out3 & D3 & HSe).
           rewrite E3 in H. injection H as <- <-.
           splits; auto.
           destruct (Hfin _ s3 HSe) as (A1 & A2 & A3 & A4 & A5 & A6); auto.
           { rewrite !writes_of_app, writes_of_final_close, writes_of_handler.
             reflexivity. }
           { rewrite !mkdirs_of_app, mkdirs_of_final_close, mkdirs_of_handler.
             reflexivity. }
           eexists. exists (List.length (env_lines env)),
             (List.length (env_lines env)), (List.length (env_lines env)).
           splits; eauto.
           right. left. splits; auto.
      * destruct (finally_after env true s1 L3 Hs1)
          as (s3 & E3 & O3 & S3 & Out3 & D3 & HS3).
        rewrite E3 in H. injection H as <- <-.
        splits; auto.
        assert (Hm : k <= m /\ m <= S k /\ m <= List.length (env_lines env) /\
                     (k < m -> er = OSError) /\
                     (k < List.length (env_lines env)
                      \/ (k = List.length (env_lines env)
                          /\ env_end env = ReadFails er))).
        { destruct L4 as [(-> & -> & L4 & _)|[(Hlt & ->)|(Hlt & -> & ->)]];
            splits; auto; try lia. }
        destruct Hm as (M1 & M2 & M3 & M4 & M5).
        destruct (Hfin _ s3 HS3) as (A1 & A2 & A3 & A4 & A5 & A6); auto.
        { rewrite writes_of_app, writes_of_final_close. reflexivity. }
        { rewrite mkdirs_of_app, mkdirs_of_final_close. reflexivity. }
        eexists. exists k, m, m. splits; eauto.
        right. right. exists er. splits; auto.
        unfold childless. rewrite forallb_app.
        fold (childless t). rewrite (writer_calls_childless _ Hc).
        cbn [app forallb is_child_call negb andb].
        apply childless_final_close.
      * destruct L4 as (-> & -> & Hend & Hr1).
        destruct (interrupted_tail env s1 L3 Hs1)
          as (s3 & E3 & O & S & Out3 & D3 & HSe).
        rewrite E3 in H. injection H as <- <-.
        splits; auto.
        destruct (Hfin _ s3 HSe) as (A1 & A2 & A3 & A4 & A5 & A6); auto.
        { rewrite !writes_of_app, writes_of_final_close, writes_of_handler.
          reflexivity. }
        { rewrite !mkdirs_of_app, mkdirs_of_final_close, mkdirs_of_handler.
          reflexivity. }
        eexists. exists (List.length (env_lines env)),
          (List.length (env_lines env)), (List.length (env_lines env)).
        splits; eauto.
        right. left. splits; auto.
      * contradiction.
    + set (target := target_of log_dir log_prefix log_extension ev) in *.
      assert (Hne : negb (String.eqb (le_line ev) EmptyString) = true).
      { unfold refused in Href. apply andb_prop in Href. tauto. }
      assert (Hs0 : st_stream_open s0 = true) by congruence.
      destruct (finally_pending env s0 target (le_line ev) Hr0 Hp0 Hs0 Hne)
        as (s3 & E3 & O3 & S3 & Out3 & D3 & T3 & C3).
      cbv beta iota in H. rewrite E3 in H.
      pose proof (nth_error_length _ _ _ Hn) as Hlt.
      pose proof (firstn_snoc _ _ _ Hn) as Hsn.
      assert (Hw3 : writes_of
                      (t ++ [AWrite target (le_line ev); ACloseStream]
                         ++ (if env_close_fails env then [AClose target]
                             else [AFlush target; AClose target]))
                    = map (write_of log_dir log_prefix log_extension)
                          (firstn (S k) (env_lines env))).
      { rewrite writes_of_app, Hw, Hsn, map_app.
        destruct (env_close_fails env); reflexivity. }
      assert (Hm3 : mkdirs_of
                      (t ++ [AWrite target (le_line ev); ACloseStream]
                         ++ (if env_close_fails env then [AClose target]
                             else [AFlush target; AClose target])) = []).
      { rewrite mkdirs_of_app, (writer_calls_no_mkdir _ Hc).
        destruct (env_close_fails env); reflexivity. }
      assert (Hc3 : childless
                      (t ++ [AWrite target (le_line ev); ACloseStream]
                         ++ (if env_close_fails env then [AClose target]
                             else [AFlush target; AClose target])) = true).
      { rewrite childless_app, (writer_calls_childless _ Hc).
        destruct (env_close_fails env); reflexivity. }
      pose proof (Trail_trans _ _ _ _ _ (Step_Trail _ _ _ HS) T3) as Tt.
      pose proof (Step_routed _ _ _ _ _ _ _ HS Hw) as C0.
      assert (Hr3 : r = Raise (Exception OSError) /\ st' = s3).
      { destruct (env_close_fails env); injection H as <- <-; auto. }
      destruct Hr3 as (-> & ->).
      splits; auto.
      eexists. exists k, (if env_close_fails env then k else S k), (S k).
      split; [exact Tt|]. split; [exact Hm3|].
      split; [destruct (env_close_fails env); lia|].
      split; [destruct (env_close_fails env); lia|].
      split; [lia|]. split; [lia|].
      split; [exact Hw3|].
      split.
      { intros q. rewrite C3, C0.
        destruct (env_close_fails env).
        - now rewrite append_nil_r.
        - rewrite Hsn, routed_app. cbn [routed]. fold target.
          now rewrite append_nil_r, append_assoc. }
      split; [eauto using same_dirs_trans|].
      split; [congruence|].
      right. right. exists OSError. splits; auto.
  - destruct (finally_after env false st (writer_ready_settled _ Hr) Hso)
      as (s3 & E3 & O3 & S3 & Out3 & D3 & HS3).
    unfold raise in H. cbv beta iota in H. rewrite E3 in H. injection H as <- <-.
    splits; auto.
    eexists. exists 0, 0, 0.
    split; [exact (Step_Trail _ _ _ HS3)|].
    split; [apply mkdirs_of_final_close|].
    split; [lia|]. split; [lia|]. split; [lia|]. split; [lia|].
    split; [apply writes_of_final_close|].
    split.
    { intros p. destruct HS3 as (_ & _ & _ & _ & C). rewrite C.
      cbn [app]. now rewrite writes_of_final_close. }
    split; [exact D3|].
    split; [rewrite Out3; destruct echo; now rewrite append_nil_r|].
    right. right. exists RuntimeError. splits; auto.
    + apply childless_final_close.
    + lia.
Qed.

Lemma read_loop_end log_dir log_prefix log_extension echo lines fin st s1 :
  read_loop log_dir log_prefix log_extension echo lines EndOfStream st = (s1, Ok tt) ->
  read_loop log_dir log_prefix log_extension echo lines fin st
  = read_loop log_dir log_prefix log_extension echo [] fin s1.
Proof.
  intros H. rewrite <- (app_nil_r lines) at 1.
  rewrite read_loop_app. unfold bind. now rewrite H.
Qed.

Lemma open_after_prologue (t_pre t : list Action) log_dir command acc :
  t_pre = [] \/ t_pre = [AMkdir log_dir]
  \/ t_pre = [AMkdir log_dir; APopen command] ->
  open_after (t_pre ++ t) acc = open_after t acc.
Proof. intros [-> | [-> | ->]]; reflexivity. Qed.

(** The whole run from a fresh process: [k] lines were handled to the
    end, [m] are in the files, [w] were written. *)
Lemma run_spec env command log_dir log_prefix log_extension echo fs st' r :
  run_with_daily_logs env command log_dir log_prefix log_extension echo
    (initial_state fs) = (st', r) ->
  st_open st' = [] /\ st_stream_open st' = false /\
  exists t_pre t k m w,
    st_trace st' = (t_pre ++ t)%list /\
    (t_pre = [] \/ t_pre = [AMkdir log_dir]
     \/ t_pre = [AMkdir log_dir; APopen command]) /\
    open_after t [] = [] /\
    never_two_open t [] = true /\
    mkdirs_of t = [] /\
    k <= m /\ m <= w /\ w <= S k /\ w <= List.length (env_lines env) /\
    writes_of t
      = map (write_of log_dir log_prefix log_extension)
            (firstn w (env_lines env)) /\
    (forall p, content_of (st_fs st') p
               = content_of fs p
                 ++ routed log_dir log_prefix log_extension
                      (firstn m (env_lines env)) p) /\
    st_stdout st'
    = (if echo then concat_lines (firstn k (env_lines env)) else EmptyString) /\
    (forall fs1,
        mkdir_parents fs (root log_dir) (rev (parts log_dir)) = inl fs1 ->
        same_dirs fs1 (st_fs st')) /\
    ((exists c,
         r = Ok c /\ k = List.length (env_lines env) /\
         ((env_end env = EndOfStream /\ env_wait env = Exited c)
          \/ (c = 130%Z /\
              (env_end env = InterruptedRead
               \/ (env_end env = EndOfStream /\ env_wait env = InterruptedWait)))))
     \/ (exists er, r = Raise (Exception er) /\ childless t = true /\
                    (k < w -> er = OSError))).
Proof.
  rewrite run_with_daily_logs_eval.
  destruct (mkdir_parents fs (root log_dir) (rev (parts log_dir)))
    as [fs1|er] eqn:Em.
  - destruct (env_launch env command) as [hs|er] eqn:El.
    + intros H.
      destruct (guarded_run_spec _ _ _ _ _ _ _ _ _
                  (started_ready fs1 hs log_dir command) eq_refl H)
        as (O & S & t & k & m & w & (T & OA & N) & Hmk & K1 & K2 & K3 & K4
            & Hw & C & D & Out & Hout).
      cbn in T, OA, N, C, D, Out.
      splits; auto.
      exists [AMkdir log_dir; APopen command], t, k, m, w.
      splits; auto.
      * congruence.
      * intros p. rewrite C. now rewrite (mkdir_parents_content _ _ _ _ p Em).
      * intros fs1' E. injection E as <-. exact D.
      * destruct Hout as [(c & -> & _ & -> & Q)|[(-> & _ & -> & Q)|(er & -> & Hc & He & _)]].
        -- left. exists c. splits; auto.
        -- left. exists 130%Z. splits; auto.
        -- right. eauto.
    + intros H. injection H as <- <-. cbn. splits; auto.
      exists [AMkdir log_dir], [], 0, 0, 0. cbn. splits; auto; try lia.
      * intros p. rewrite (mkdir_parents_content _ _ _ _ p Em).
        now rewrite append_nil_r.
      * now destruct echo.
      * intros fs1' E. injection E as <-. apply same_dirs_refl.
      * right. exists er. splits; auto. lia.
  - intros H. injection H as <- <-. cbn. splits; auto.
    exists [], [], 0, 0, 0. cbn. splits; auto; try lia.
    + intros p. now rewrite append_nil_r.
    + now destruct echo.
    + discriminate.
    + right. exists er. splits; auto. lia.
Qed.

(** A run returns a status or raises an [Exception]. *)
Lemma run_outcome env command log_dir log_prefix log_extension echo fs st' r :
  run_with_daily_logs env command log_dir log_prefix log_extension echo
    (initial_state fs) = (st', r) ->
  (exists c, r = Ok c) \/ (exists er, r = Raise (Exception er)).
Proof.
  intros H.
  destruct (run_spec _ _ _ _ _ _ _ _ _ H)
    as (_ & _ & t_pre & t & k & m & w & _ & _ & _ & _ & _ & _ & _ & _ & _ & _
        & _ & _ & _ & Hout).
  destruct Hout as [(c & -> & _)|(er & -> & _)]; eauto.
Qed.

(** The run once every line has been appended: the end of the stream
    decides the rest. *)
Lemma run_after_lines env command log_dir log_prefix log_extension echo fs s_k :
  run_upto (List.length (env_lines env)) env command log_dir log_prefix
    log_extension echo (initial_state fs) = (s_k, Ok tt) ->
  writer_ready s_k /\ st_stream_open s_k = true /\
  exists st' r t_end,
    run_with_daily_logs env command log_dir log_prefix log_extension echo
      (initial_state fs) = (st', r) /\
    Step s_k st' t_end /\ st_open st' = [] /\ st_stream_open st' = false /\
    match env_end env, env_wait env with
    | EndOfStream, Exited c =>
        r = Ok c /\
        t_end = ([AWait; ACloseStream]
                   ++ final_close_calls (current_log_file s_k))%list
    | EndOfStream, InterruptedWait | InterruptedRead, _ =>
        r = Ok 130%Z /\
        t_end = (handler_calls env ++ [ACloseStream]
                   ++ final_close_calls (current_log_file s_k))%list
    | ReadFails er, _ =>
        r = Raise (Exception er) /\
        t_end = ([ACloseStream] ++ final_close_calls (current_log_file s_k))%list
    end.
Proof.
  rewrite run_upto_eval, run_with_daily_logs_eval, firstn_all.
  destruct (mkdir_parents fs (root log_dir) (rev (parts log_dir)))
    as [fs1|er]; [|discriminate].
  destruct (env_launch env command) as [[|]|er]; try discriminate.
  intros EL.
  destruct (read_loop_spec _ _ _ _ _ _ _ _ _
              (started_ready fs1 true log_dir command) EL)
    as (L1 & k & _ & _ & [(t & m & _ & _ & L3 & _ & _ & _ & _ & _ & Hr & _)
                         |(s0 & t & ev & Habs & _)]); [|discriminate].
  cbn in L1. splits; auto.
  pose proof (writer_settled_bound _ L3) as Hb.
  unfold try_except_finally, try_body. unfold bind at 1.
  rewrite (read_loop_end _ _ _ _ _ (env_end env) _ _ EL). cbn [read_loop].
  destruct (env_end env) as [| |er].
  - unfold ret. pose proof (process_wait_spec env s_k Hb) as W.
    destruct (env_wait env) as [c|].
    + destruct W as (s2 & E2 & O2 & S2 & F2 & Out2 & C2 & HS2). rewrite E2.
      destruct (finally_after env true s2) as (s3 & E3 & O3 & S3 & Out3 & D3 & HS3);
        [eapply writer_settled_fields; eauto | congruence |].
      rewrite E3. exists s3, (Ok c). eexists. splits; eauto.
      rewrite <- C2. exact (Step_trans _ _ _ _ _ HS2 HS3).
    + rewrite W.
      destruct (interrupted_tail env s_k L3 L1) as (s3 & E3 & O & S & _ & _ & HS).
      rewrite E3. exists s3, (Ok 130%Z). eexists. splits; eauto.
  - unfold raise.
    destruct (interrupted_tail env s_k L3 L1) as (s3 & E3 & O & S & _ & _ & HS).
    rewrite E3. exists s3, (Ok 130%Z). eexists. splits; eauto.
  - unfold raise.
    destruct (finally_after env true s_k L3 L1) as (s3 & E3 & O3 & S3 & _ & _ & HS3).
    rewrite E3. exists s3, (Raise (Exception er)). eexists. splits; eauto.
Qed.

(** ** The name of the daily file *)

(** C7, as amended. For every directory and date, and every prefix and
    extension without the separator ["/"], the log path is the directory
    with one further component, [<prefix>-<YYYY-MM-DD><extension>], the
    date being the one [date.today()] returned for the line; prefix [job],
    the default extension and directory [/tmp/logs] on 2024-01-01 give
    [/tmp/logs/job-2024-01-01.log]. *)
Theorem daily_log_path_naming today log_dir log_prefix log_extension :
  PyStr.contains_char slash log_prefix = false ->
  PyStr.contains_char slash log_extension = false ->
  let p := daily_log_path today log_dir log_prefix log_extension in
  p = mkPath (root log_dir)
        (parts log_dir ++ [log_prefix ++ "-" ++ isoformat today ++ log_extension]) /\
  parent p = log_dir /\
  name p = log_prefix ++ "-" ++ isoformat today ++ log_extension /\
  iso_fields (isoformat today) = Some (year today, month today, day today) /\
  str (daily_log_path Examples.jan1 Examples.tmp_logs "job"
         (normalize_extension ".log"))
  = "/tmp/logs/job-2024-01-01.log".
Proof.
  intros Hp He p. subst p.
  rewrite (daily_log_path_plain _ _ _ _ Hp He). unfold log_name.
  splits.
  - reflexivity.
  - unfold parent. cbn [root parts]. rewrite removelast_last.
    now destruct log_dir.
  - unfold name. cbn [parts]. now rewrite last_last.
  - apply iso_fields_isoformat.
  - vm_compute. reflexivity.
Qed.

Lemma daily_log_path_naming_witness :
  parent (daily_log_path Examples.jan1 Examples.tmp_logs "job" ".log")
  = Examples.tmp_logs
  /\ name (daily_log_path Examples.jan1 Examples.tmp_logs "job" ".log")
     = "job-2024-01-01.log".
Proof.
  pose proof (daily_log_path_naming Examples.jan1 Examples.tmp_logs "job" ".log"
                eq_refl eq_refl) as H.
  split; [exact (proj1 (proj2 H)) | exact (proj1 (proj2 (proj2 H)))].
Defined.

(** A prefix that begins with ["/"] takes the file out of the directory:
    [Path("/tmp/logs") / "/var/job-2024-01-01.log"] is
    [/var/job-2024-01-01.log]; a ["/"] in the extension splits the name
    into a directory and a file. *)
Lemma daily_log_path_absolute_prefix :
  daily_log_path Examples.jan1 Examples.tmp_logs "/var/job" ".log"
  = mkPath Root1 ["var"; "job-2024-01-01.log"]
  /\ parent (daily_log_path Examples.jan1 Examples.tmp_logs "/var/job" ".log")
     <> Examples.tmp_logs
  /\ daily_log_path Examples.jan1 Examples.tmp_logs "/var/job" ".log"
     <> mkPath (root Examples.tmp_logs)
          (parts Examples.tmp_logs
             ++ ["/var/job" ++ "-" ++ isoformat Examples.jan1 ++ ".log"])
  /\ daily_log_path Examples.jan1 Examples.tmp_logs "job" ".d/log"
     = mkPath Root1 ["tmp"; "logs"; "job-2024-01-01.d"; "log"]
  /\ parent (daily_log_path Examples.jan1 Examples.tmp_logs "job" ".d/log")
     <> Examples.tmp_logs.
Proof.
  split; [vm_compute; reflexivity|].
  split; [vm_compute; intros H; discriminate H|].
  split; [vm_compute; intros H; discriminate H|].
  split; [vm_compute; reflexivity|].
  vm_compute; intros H; discriminate H.
Qed.


(** ** Every line reaches exactly one file *)




(** *** When nothing is refused *)









(** The device refuses the second of two lines for good: the write is
    made, the flush raises, the close in [finally] raises again and
    releases the file. The first line stays in its file and the second is
    lost, with [OSError]. *)
Lemma refused_flush_loses_the_line :
  let res := run_with_daily_logs Examples.disk_full ["child"]
               Examples.tmp_logs "job" ".log" false (initial_state empty_fs) in
  let p := daily_log_path Examples.jan1 Examples.tmp_logs "job" ".log" in
  snd res = Raise (Exception OSError) /\
  st_trace (fst res)
  = [AMkdir Examples.tmp_logs; APopen ["child"]; AOpen p;
     AWrite p ("a" ++ newline); AFlush p; AWrite p ("b" ++ newline);
     ACloseStream; AClose p] /\
  content_of (st_fs (fst res)) p = "a" ++ newline /\
  st_open (fst res) = [].
Proof. vm_compute. repeat split. Qed.

(** ** The choice of the file on every append *)



Lemma run_upto_spec k env command log_dir log_prefix log_extension echo fs s_k :
  run_upto k env command log_dir log_prefix log_extension echo
    (initial_state fs) = (s_k, Ok tt) ->
  writer_ready s_k /\ st_stream_open s_k = true /\
  st_fs s_k log_dir = Dir /\
  (exists t,
      st_trace s_k = (AMkdir log_dir :: APopen command :: t)%list /\
      open_after t [] = st_open s_k /\
      never_two_open t [] = true /\
      flushed_after_each_write t = true /\
      writes_of t = map (write_of log_dir log_prefix log_extension)
                        (firstn k (env_lines env))) /\
  (forall p, content_of (st_fs s_k) p
             = content_of fs p
               ++ routed log_dir log_prefix log_extension
                    (firstn k (env_lines env)) p) /\
  (forall ev, firstn k (env_lines env) <> [] ->
     current_log_path s_k
     = Some (target_of log_dir log_prefix log_extension
               (last (firstn k (env_lines env)) ev))).
Proof.
  rewrite run_upto_eval.
  destruct (mkdir_parents fs (root log_dir) (rev (parts log_dir)))
    as [fs1|er] eqn:Em; [|discriminate].
  destruct (env_launch env command) as [[|]|er]; try discriminate.
  intros EL.
  destruct (read_loop_spec _ _ _ _ _ _ _ _ _
              (started_ready fs1 true log_dir command) EL)
    as (L1 & k' & _ & _ & [(t & m & HS & _ & L3 & L2 & Hw & -> & -> & _ & Hr & Hl)
                          |(s0 & t & ev & Habs & _)]); [|discriminate].
  rewrite firstn_all in Hw.
  destruct HS as (T & OA & N & F & C). cbn in *.
  splits; auto.
  - apply L2. pose proof (mkdir_parents_dir _ _ _ _ Em) as Hd.
    now rewrite path_eta in Hd.
  - exists t. splits; auto.
  - intros p. rewrite C, Hw, appended_write_of.
    now rewrite (mkdir_parents_content _ _ _ _ p Em).
Qed.





(** ** Flushing *)

Lemma run_continues k env command log_dir log_prefix log_extension echo fs s_k :
  run_upto k env command log_dir log_prefix log_extension echo
    (initial_state fs) = (s_k, Ok tt) ->
  run_with_daily_logs env command log_dir log_prefix log_extension echo
    (initial_state fs)
  = try_except_finally
      (bind (read_loop log_dir log_prefix log_extension echo
               (skipn k (env_lines env)) (env_end env))
            (fun _ => process_wait env))
      (on_keyboard_interrupt env) (finally_clause env true) s_k.
Proof.
  rewrite run_upto_eval, run_with_daily_logs_eval.
  destruct (mkdir_parents fs (root log_dir) (rev (parts log_dir)))
    as [fs1|er]; [|discriminate].
  destruct (env_launch env command) as [[|]|er]; try discriminate.
  intros EL. unfold try_except_finally, try_body.
  rewrite <- (firstn_skipn k (env_lines env)) at 1.
  unfold bind at 1. rewrite read_loop_app. unfold bind at 1. rewrite EL.
  reflexivity.
Qed.

Lemma flushed_prologue (t : list Action) log_dir command :
  flushed_after_each_write (AMkdir log_dir :: APopen command :: t)
  = flushed_after_each_write t.
Proof. reflexivity. Qed.

(** C3. Every write of a line is followed at once by a flush, so that
    once [k] lines have been appended nothing is left in the buffer and
    the files hold lines [1..k]: each file its own, in the order read.
    The rest of the run starts from that state. *)
Theorem flush_after_every_write k env command log_dir log_prefix log_extension
    echo fs s_k :
  run_upto k env command log_dir log_prefix log_extension echo
    (initial_state fs) = (s_k, Ok tt) ->
  (forall p,
      content_of (st_fs s_k) p
      = content_of fs p
        ++ routed log_dir log_prefix log_extension
             (firstn k (env_lines env)) p) /\
  match current_log_file s_k with
  | Some f => f_buffer f = EmptyString
  | None => True
  end /\
  flushed_after_each_write (st_trace s_k) = true /\
  writes_of (st_trace s_k)
  = map (write_of log_dir log_prefix log_extension) (firstn k (env_lines env)) /\
  run_with_daily_logs env command log_dir log_prefix log_extension echo
    (initial_state fs)
  = try_except_finally
      (bind (read_loop log_dir log_prefix log_extension echo
               (skipn k (env_lines env)) (env_end env))
            (fun _ => process_wait env))
      (on_keyboard_interrupt env) (finally_clause env true) s_k /\
  (forall line echo_fails echo' f st st' r,
      writer_ready st -> current_log_file st = Some f ->
      write_line line false echo_fails echo' st = (st', r) ->
      r = (if echo' && echo_fails then Raise (Exception OSError) else Ok tt) /\
      st_trace st'
      = (st_trace st ++ [AWrite (f_path f) line; AFlush (f_path f)]
           ++ (if echo' && negb echo_fails then [AEcho line] else []))%list /\
      content_of (st_fs st') (f_path f)
      = content_of (st_fs st) (f_path f) ++ line /\
      current_log_file st' = Some (mkTextIO (f_path f) EmptyString false)).
Proof.
  intros H.
  destruct (run_upto_spec _ _ _ _ _ _ _ _ _ H)
    as (Hr & _ & _ & (t & T & _ & _ & F & W) & C & _).
  splits; auto.
  - unfold writer_ready in Hr. destruct (current_log_file s_k); tauto.
  - now rewrite T, flushed_prologue.
  - now rewrite T.
  - now apply run_continues.
  - intros line echo_fails echo' f st st' r Hst Hf Hw.
    pose proof (write_line_spec _ _ _ _ f _ _ _ Hst Hf Hw) as (_ & S).
    assert (Hcur : writer_ready st' ->
                   current_log_path st' = current_log_path st ->
                   current_log_file st'
                   = Some (mkTextIO (f_path f) EmptyString false)).
    { intros Hr' Hp'. unfold writer_ready in Hst, Hr'. rewrite Hf in Hst.
      destruct Hst as (_ & _ & P & _). rewrite Hp', P in Hr'.
      destruct (current_log_file st') as [[fp fb fc]|];
        [|destruct Hr'; discriminate].
      cbn in Hr'. destruct Hr' as (-> & -> & E & _). congruence. }
    assert (Hsame : forall x : string,
               (if Path_eq_dec (f_path f) (f_path f) then x else EmptyString)
               = x).
    { intros x. destruct (Path_eq_dec (f_path f) (f_path f));
        [reflexivity | congruence]. }
    destruct r as [[]|e].
    + destruct S as (_ & He & Hr' & Hp' & _ & _ & (T' & _ & _ & _ & C')).
      rewrite He. splits; auto.
      * rewrite T'. destruct echo'; [|reflexivity].
        cbn in He. now rewrite He.
      * rewrite C'. destruct echo'; cbn; rewrite Hsame;
          now rewrite append_nil_r.
    + destruct S as (-> & _ & [(Hx & _)
                              |(_ & -> & -> & Hr' & Hp' & _
                                & (T' & _ & _ & _ & C'))]).
      { rewrite andb_false_r in Hx. discriminate. }
      splits; auto.
      rewrite C'. cbn. rewrite Hsame. now rewrite append_nil_r.
Qed.

Lemma flush_after_every_write_witness :
  flushed_after_each_write
    (st_trace (fst (run_upto 2 Examples.over_midnight ["child"]
                      Examples.tmp_logs "job" ".log" false
                      (initial_state empty_fs)))) = true.
Proof.
  refine (proj1 (proj2 (proj2
            (flush_after_every_write 2 Examples.over_midnight ["child"]
               Examples.tmp_logs "job" ".log" false empty_fs _ _)))).
  etransitivity; [apply surjective_pairing|].
  apply f_equal2; [reflexivity | vm_compute; reflexivity].
Defined.

(** ** Exit codes *)

Lemma main_cases resolve env args st :
  normalize_command (args_command args) <> [] ->
  match run_with_daily_logs env (normalize_command (args_command args))
          (resolve (args_log_dir args)) (args_log_prefix args)
          (normalize_extension (args_log_extension args)) (args_echo args) st
  with
  | (st', Ok c) => main resolve env args st = (st', Ok c)
  | (st', Raise (Exception er)) =>
      exists msg, main resolve env args st = (log_action (APrint msg) st', Ok 1%Z)
  | (st', Raise e) => main resolve env args st = (st', Raise e)
  end.
Proof.
  intros Hc. unfold main.
  destruct (normalize_command (args_command args)) as [|c0 cs]; [congruence|].
  destruct (run_with_daily_logs _ _ _ _ _ _ _) as [st' [c|[er| |c]]];
    try reflexivity.
  destruct er; eexists; reflexivity.
Qed.

(** C4. [main] always returns an exit code: the child's own status when
    the stream ends and the child is waited for, 130 when the run is
    interrupted, 1 when the launch fails or another error ends the run; a
    failed launch writes nothing to any log file. *)
Theorem main_exit_code resolve env args fs :
  let command := normalize_command (args_command args) in
  let log_dir := resolve (args_log_dir args) in
  let extension := normalize_extension (args_log_extension args) in
  let run := run_with_daily_logs env command log_dir (args_log_prefix args)
               extension (args_echo args) (initial_state fs) in
  let lines_done := run_upto (List.length (env_lines env)) env command log_dir
                      (args_log_prefix args) extension (args_echo args)
                      (initial_state fs) in
  let res := main resolve env args (initial_state fs) in
  command <> [] ->
  (exists code, snd res = Ok code) /\
  (forall c, snd lines_done = Ok tt -> env_end env = EndOfStream ->
             env_wait env = Exited c -> snd res = Ok c) /\
  (snd lines_done = Ok tt ->
   env_end env = InterruptedRead
   \/ (env_end env = EndOfStream /\ env_wait env = InterruptedWait) ->
   snd res = Ok 130%Z) /\
  (forall er, env_launch env command = LaunchFails er ->
              snd res = Ok 1%Z /\
              writes_of (st_trace (fst res)) = [] /\
              open_after (st_trace (fst res)) [] = [] /\
              forall p c, st_fs (fst res) p = File c <-> fs p = File c) /\
  (forall er, snd run = Raise (Exception er) -> snd res = Ok 1%Z) /\
  (forall c, snd run = Ok c -> snd res = Ok c).
Proof.
  intros command log_dir extension run lines_done res Hc.
  pose proof (main_cases resolve env args (initial_state fs) Hc) as M.
  fold command log_dir extension in M. fold run in M. fold res in M.
  assert (Herr : forall er, snd run = Raise (Exception er) -> snd res = Ok 1%Z).
  { intros er E. destruct run as [st' r]. cbn in E. subst r.
    destruct M as (msg & ->). reflexivity. }
  assert (Hok : forall c, snd run = Ok c -> snd res = Ok c).
  { intros c E. destruct run as [st' r]. cbn in E. subst r. now rewrite M. }
  assert (Hdone : snd lines_done = Ok tt ->
            exists s_k, lines_done = (s_k, Ok tt)).
  { intros E. exists (fst lines_done). rewrite <- E. apply surjective_pairing. }
  splits; auto.
  - destruct (run_outcome env command log_dir (args_log_prefix args) extension
                (args_echo args) fs (fst run) (snd run)
                (surjective_pairing _)) as [(c & E)|(er & E)]; eauto.
  - intros c Hd He Hw. destruct (Hdone Hd) as (s_k & Ek).
    destruct (run_after_lines _ _ _ _ _ _ _ _ Ek)
      as (_ & _ & st' & r & t_end & Er & _ & _ & _ & Hm).
    rewrite He, Hw in Hm. destruct Hm as (-> & _).
    apply Hok. fold run in Er. now rewrite Er.
  - intros Hd Hi. destruct (Hdone Hd) as (s_k & Ek).
    destruct (run_after_lines _ _ _ _ _ _ _ _ Ek)
      as (_ & _ & st' & r & t_end & Er & _ & _ & _ & Hm).
    assert (r = Ok 130%Z) as ->.
    { destruct Hi as [Hi|(Hi & Hw)]; rewrite Hi in Hm; [|rewrite Hw in Hm];
        tauto. }
    apply Hok. fold run in Er. now rewrite Er.
  - intros er El. subst run. unfold res in *.
    rewrite run_with_daily_logs_eval in M. fold command log_dir in M.
    destruct (mkdir_parents fs (root log_dir) (rev (parts log_dir)))
      as [fs1|er'] eqn:Em.
    + rewrite El in M. destruct M as (msg & ->). cbn. splits; auto.
      intros p c. eapply mkdir_parents_files; eauto.
    + destruct M as (msg & ->). cbn. splits; auto. tauto.
Qed.

Lemma main_exit_code_witness :
  snd (main (fun p => p) Examples.echo_hello Examples.echo_hello_args
         (initial_state empty_fs)) = Ok 0%Z
  /\ snd (main (fun p => p) Examples.no_such_command Examples.echo_hello_args
            (initial_state empty_fs)) = Ok 1%Z.
Proof.
  split.
  - apply (proj1 (proj2 (main_exit_code (fun p => p) Examples.echo_hello
                           Examples.echo_hello_args empty_fs
                           ltac:(discriminate)))).
    + vm_compute. reflexivity.
    + reflexivity.
    + reflexivity.
  - apply (proj1 (proj2 (proj2 (proj2 (main_exit_code (fun p => p)
                           Examples.no_such_command
                           Examples.echo_hello_args empty_fs
                           ltac:(discriminate)))))
             FileNotFoundError).
    reflexivity.
Defined.

(** ** Interruption *)

(** C5. When the interruption comes in the read loop, the run polls the
    child; if the child still runs it is asked to terminate and waited
    for; then the pipe and the log file are closed and the run returns
    130, whatever the child's own status. *)
Theorem interruption_terminates_child env command log_dir log_prefix
    log_extension echo fs s_k :
  run_upto (List.length (env_lines env)) env command log_dir log_prefix
    log_extension echo (initial_state fs) = (s_k, Ok tt) ->
  env_end env = InterruptedRead ->
  exists st',
    run_with_daily_logs env command log_dir log_prefix log_extension echo
      (initial_state fs) = (st', Ok 130%Z) /\
    st_trace st'
    = (st_trace s_k ++ handler_calls env ++ [ACloseStream]
         ++ final_close_calls (current_log_file s_k))%list /\
    (env_poll env = None -> handler_calls env = [APoll; ATerminate; AWait]) /\
    (forall status, env_poll env = Some status -> handler_calls env = [APoll]) /\
    st_open st' = [] /\ st_stream_open st' = false.
Proof.
  intros H He.
  destruct (run_after_lines _ _ _ _ _ _ _ _ H)
    as (_ & _ & st' & r & t_end & Er & (T & _) & O & S & Hm).
  rewrite He in Hm. destruct Hm as (-> & ->).
  exists st'. splits; auto.
  - intros E. unfold handler_calls. now rewrite E.
  - intros status E. unfold handler_calls. now rewrite E.
Qed.

Lemma interruption_terminates_child_witness :
  exists st',
    run_with_daily_logs Examples.interrupted ["child"] Examples.tmp_logs
      "job" ".log" false (initial_state empty_fs) = (st', Ok 130%Z)
    /\ handler_calls Examples.interrupted = [APoll; ATerminate; AWait].
Proof.
  destruct (interruption_terminates_child Examples.interrupted ["child"]
              Examples.tmp_logs "job" ".log" false empty_fs
              (fst (run_upto 1 Examples.interrupted ["child"] Examples.tmp_logs
                      "job" ".log" false (initial_state empty_fs))))
    as (st' & E & _ & P & _).
  - etransitivity; [apply surjective_pairing|].
    apply f_equal2; [reflexivity | vm_compute; reflexivity].
  - reflexivity.
  - exists st'. split; [exact E | apply P; reflexivity].
Defined.

(** ** Handles *)

Lemma never_two_open_prologue (t_pre t : list Action) log_dir command :
  t_pre = [] \/ t_pre = [AMkdir log_dir]
  \/ t_pre = [AMkdir log_dir; APopen command] ->
  never_two_open (t_pre ++ t) [] = never_two_open t [].
Proof. intros [-> | [-> | ->]]; reflexivity. Qed.

Lemma never_two_open_prefix (tr t1 t2 : list Action) :
  never_two_open tr [] = true -> tr = (t1 ++ t2)%list ->
  List.length (open_after t1 []) <= 1.
Proof.
  intros H ->. rewrite never_two_open_app in H.
  apply andb_prop in H. destruct H as [_ H].
  exact (never_two_open_bound _ _ H).
Qed.

(** C6. However the run ends, the child's pipe and the log file are
    closed when it returns; at no moment of the run are two log files
    open; and once a line has been appended the one open file is the
    destination computed for that line. *)
Theorem handles_released env command log_dir log_prefix log_extension echo
    fs st' r :
  run_with_daily_logs env command log_dir log_prefix log_extension echo
    (initial_state fs) = (st', r) ->
  st_stream_open st' = false /\
  st_open st' = [] /\
  open_after (st_trace st') [] = [] /\
  (forall t1 t2, st_trace st' = (t1 ++ t2)%list ->
                 List.length (open_after t1 []) <= 1) /\
  (forall k s_k,
      run_upto k env command log_dir log_prefix log_extension echo
        (initial_state fs) = (s_k, Ok tt) ->
      open_after (st_trace s_k) [] = st_open s_k /\
      (forall t1 t2, st_trace s_k = (t1 ++ t2)%list ->
                     List.length (open_after t1 []) <= 1) /\
      (firstn k (env_lines env) = [] ->
         st_open s_k = [] /\ current_log_file s_k = None) /\
      (forall ev,
          firstn k (env_lines env) <> [] ->
          let target := target_of log_dir log_prefix log_extension
                          (last (firstn k (env_lines env)) ev) in
          st_open s_k = [target] /\
          current_log_path s_k = Some target /\
          current_log_file s_k = Some (mkTextIO target EmptyString false))).
Proof.
  intros H.
  destruct (run_spec _ _ _ _ _ _ _ _ _ H)
    as (O & S & t_pre & t & k & m & w & T & Hpre & OA & N & _).
  splits; auto.
  - rewrite T, (open_after_prologue _ _ _ _ _ Hpre). exact OA.
  - intros t1 t2 E. eapply never_two_open_prefix; [|exact E].
    rewrite T, (never_two_open_prologue _ _ _ _ Hpre). exact N.
  - intros k' s_k Hk.
    destruct (run_upto_spec _ _ _ _ _ _ _ _ _ Hk)
      as (Hr & _ & _ & (t' & T' & OA' & N' & _) & _ & Hl).
    splits.
    + rewrite T'. exact OA'.
    + intros t1 t2 E. eapply never_two_open_prefix; [|exact E].
      rewrite T'. exact N'.
    + intros E. rewrite run_upto_eval, E in Hk.
      destruct (mkdir_parents fs (root log_dir) (rev (parts log_dir)));
        [|discriminate].
      destruct (env_launch env command) as [[|]|]; try discriminate.
      cbn in Hk. injection Hk as <-. split; reflexivity.
    + intros ev Hne target. specialize (Hl ev Hne). fold target in Hl.
      unfold writer_ready in Hr. rewrite Hl in Hr.
      destruct (current_log_file s_k) as [[fp fb fc]|];
        [|destruct Hr; discriminate].
      cbn in Hr. destruct Hr as (-> & -> & E & -> & _).
      injection E as ->. splits; auto.
Qed.

Lemma handles_released_witness :
  st_open (fst (run_with_daily_logs Examples.over_midnight ["child"]
                  Examples.tmp_logs "job" ".log" false
                  (initial_state empty_fs))) = []
  /\ st_stream_open (fst (run_with_daily_logs Examples.over_midnight ["child"]
                            Examples.tmp_logs "job" ".log" false
                            (initial_state empty_fs))) = false.
Proof.
  pose proof (handles_released Examples.over_midnight ["child"]
                Examples.tmp_logs "job" ".log" false empty_fs _ _
                (surjective_pairing _)) as H.
  split; [exact (proj1 (proj2 H)) | exact (proj1 H)].
Defined.

(** * Further properties of the runner *)

Import RunnerCalls.

Lemma writer_ready_file (st : State) (target : Path) :
  writer_ready st -> current_log_path st = Some target ->
  exists f, current_log_file st = Some f /\ f_path f = target.
Proof.
  unfold writer_ready. intros Hr Hp.
  destruct (current_log_file st) as [f|].
  - exists f. destruct Hr as (_ & _ & E & _). split; congruence.
  - destruct Hr; congruence.
Qed.

Lemma close_calls_current (st : State) :
  writer_ready st ->
  close_calls (current_log_file st)
  = match current_log_path st with
    | Some p => [AFlush p; AClose p]
    | None => []
    end.
Proof.
  unfold writer_ready. destruct (current_log_file st) as [f|].
  - intros (_ & _ & -> & _). reflexivity.
  - intros (-> & _). reflexivity.
Qed.

(** One turn of the loop that succeeds, call by call. *)
Lemma process_line_calls log_dir log_prefix log_extension echo ev st st' :
  writer_ready st ->
  process_line log_dir log_prefix log_extension echo ev st = (st', Ok tt) ->
  st_trace st'
  = (st_trace st
       ++ loop_calls log_dir log_prefix log_extension echo
            (current_log_path st) [ev])%list.
Proof.
  intros Hr H. cbn [loop_calls]. rewrite app_nil_r.
  unfold process_line in H.
  fold (target_of log_dir log_prefix log_extension ev) in H.
  set (target := target_of log_dir log_prefix log_extension ev) in *.
  clearbody target.
  unfold bind at 1 in H.
  destruct (select_log_file target (le_flush_fails ev) st) as [st1 r1] eqn:Es.
  destruct (path_differs target (current_log_path st)) eqn:D.
  - apply path_differs_true in D.
    pose proof (select_log_file_differs _ _ _ _ _ Hr D Es) as (_ & _ & _ & S4).
    destruct r1 as [[]|e1]; [|discriminate].
    destruct S4 as (Hr1 & Hp1 & _ & (T1 & _)).
    destruct (writer_ready_file _ _ Hr1 Hp1) as (f & Hf & Hfp).
    pose proof (write_line_spec _ _ _ _ f _ _ _ Hr1 Hf H) as (_ & W).
    cbn in W. destruct W as (_ & _ & _ & _ & _ & _ & (T2 & _)).
    rewrite T2, T1, Hfp, (close_calls_current _ Hr).
    now rewrite <- !app_assoc.
  - apply path_differs_false in D.
    rewrite (select_log_file_same _ _ _ D) in Es. injection Es as <- <-.
    destruct (writer_ready_file _ _ Hr D) as (f & Hf & Hfp).
    pose proof (write_line_spec _ _ _ _ f _ _ _ Hr Hf H) as (_ & W).
    cbn in W. destruct W as (_ & _ & _ & _ & _ & _ & (T2 & _)).
    rewrite T2, Hfp. reflexivity.
Qed.

Lemma loop_calls_cons log_dir log_prefix log_extension echo cur ev rest :
  loop_calls log_dir log_prefix log_extension echo cur (ev :: rest)
  = (loop_calls log_dir log_prefix log_extension echo cur [ev]
       ++ loop_calls log_dir log_prefix log_extension echo
            (Some (target_of log_dir log_prefix log_extension ev)) rest)%list.
Proof.
  cbn [loop_calls]. rewrite app_nil_r.
  set (tail := loop_calls _ _ _ _ _ rest).
  destruct (path_differs _ cur), echo; rewrite <- ?app_assoc; reflexivity.
Qed.

(** The loop that succeeds, call by call. *)
Lemma read_loop_calls log_dir log_prefix log_extension echo lines :
  forall st st',
  writer_ready st ->
  read_loop log_dir log_prefix log_extension echo lines EndOfStream st
    = (st', Ok tt) ->
  st_trace st'
  = (st_trace st
       ++ loop_calls log_dir log_prefix log_extension echo
            (current_log_path st) lines)%list.
Proof.
  induction lines as [|ev rest IH]; intros st st' Hr H.
  - cbn in H. injection H as <-. cbn. now rewrite app_nil_r.
  - cbn [read_loop] in H. unfold bind at 1 in H.
    destruct (process_line log_dir log_prefix log_extension echo ev st)
      as [st1 r1] eqn:E1.
    pose proof (process_line_spec _ _ _ _ _ _ _ _ Hr E1) as (_ & P3).
    destruct r1 as [[]|e1]; [|discriminate].
    destruct P3 as (t1 & _ & _ & Hr1 & Hp1 & _).
    rewrite (IH _ _ Hr1 H), (process_line_calls _ _ _ _ _ _ _ Hr E1), Hp1.
    rewrite (loop_calls_cons _ _ _ _ _ ev rest). now rewrite <- app_assoc.
Qed.

(** ** The echo *)



(** Standard output refuses the second of two lines: the line is in its
    file by then, the run ends with [OSError], and standard output holds
    the first line alone. *)
Lemma refused_echo_keeps_the_line :
  let res := run_with_daily_logs Examples.echo_refused ["child"]
               Examples.tmp_logs "job" ".log" true (initial_state empty_fs) in
  let p := daily_log_path Examples.jan1 Examples.tmp_logs "job" ".log" in
  snd res = Raise (Exception OSError) /\
  st_stdout (fst res) = "a" ++ newline /\
  content_of (st_fs (fst res)) p = ("a" ++ newline) ++ ("b" ++ newline) /\
  st_trace (fst res)
  = [AMkdir Examples.tmp_logs; APopen ["child"]; AOpen p;
     AWrite p ("a" ++ newline); AFlush p; AEcho ("a" ++ newline);
     AWrite p ("b" ++ newline); AFlush p;
     ACloseStream; AFlush p; AClose p].
Proof. vm_compute. repeat split. Qed.

(** ** What an error exit leaves undone *)

(** When the run ends with an exception (the directory cannot be made, the
    launch fails, a log file cannot be opened or flushed, the echo is
    refused, the stream cannot be read), the child is neither polled, nor terminated, nor
    waited for: only the handles are closed. *)
Theorem error_exit_leaves_child env command log_dir log_prefix log_extension
    echo fs st' e :
  run_with_daily_logs env command log_dir log_prefix log_extension echo
    (initial_state fs) = (st', Raise e) ->
  (exists er, e = Exception er) /\
  forall a, In a (st_trace st') -> is_child_call a = false.
Proof.
  intros H.
  destruct (run_spec _ _ _ _ _ _ _ _ _ H)
    as (_ & _ & t_pre & t & k & m & w & T & Hpre & _ & _ & _ & _ & _ & _ & _
        & _ & _ & _ & _ & Hout).
  destruct Hout as [(c & E & _)|(er & E & Hc & _)]; [discriminate|].
  injection E as ->. split; [eauto|].
  intros a Ha. rewrite T in Ha.
  apply in_app_or in Ha. destruct Ha as [Ha|Ha].
  - destruct Hpre as [-> | [-> | ->]]; cbn in Ha;
      repeat (destruct Ha as [<-|Ha]; [reflexivity|]); contradiction.
  - unfold childless in Hc. rewrite forallb_forall in Hc.
    specialize (Hc a Ha). now destruct (is_child_call a).
Qed.

Lemma error_exit_leaves_child_witness :
  is_child_call ACloseStream = false.
Proof.
  refine (proj2 (error_exit_leaves_child Examples.echo_hello ["echo"; "hello"]
                   Examples.tmp_logs "sub/job" ".log" false empty_fs
                   (fst (run_with_daily_logs Examples.echo_hello ["echo"; "hello"]
                           Examples.tmp_logs "sub/job" ".log" false
                           (initial_state empty_fs)))
                   (Exception FileNotFoundError) _) ACloseStream _).
  - etransitivity; [apply surjective_pairing|].
    apply f_equal2; [reflexivity | vm_compute; reflexivity].
  - vm_compute. auto.
Defined.

(** ** The calls of a run that ends normally *)

Lemma last_opt_last {A : Type} (l : list A) (d : A) :
  l <> [] -> last_opt l = Some (last l d).
Proof.
  intros Hl. destruct (exists_last Hl) as (l' & x & ->).
  unfold last_opt. rewrite rev_app_distr, last_last. reflexivity.
Qed.

Lemma run_upto_calls k env command log_dir log_prefix log_extension echo fs s_k :
  run_upto k env command log_dir log_prefix log_extension echo
    (initial_state fs) = (s_k, Ok tt) ->
  st_trace s_k
  = (AMkdir log_dir :: APopen command
       :: loop_calls log_dir log_prefix log_extension echo None
            (firstn k (env_lines env)))%list /\
  final_close_calls (current_log_file s_k)
  = match last_opt (firstn k (env_lines env)) with
    | Some ev =>
        [AFlush (target_of log_dir log_prefix log_extension ev);
         AClose (target_of log_dir log_prefix log_extension ev)]
    | None => []
    end.
Proof.
  intros H. split.
  - rewrite run_upto_eval in H.
    destruct (mkdir_parents fs (root log_dir) (rev (parts log_dir)))
      as [fs1|er]; [|discriminate].
    destruct (env_launch env command) as [[|]|er]; try discriminate.
    rewrite (read_loop_calls _ _ _ _ _ _ _
               (started_ready fs1 true log_dir command) H).
    reflexivity.
  - destruct (run_upto_spec _ _ _ _ _ _ _ _ _ H) as (Hr & _ & _ & _ & _ & Hl).
    destruct (firstn k (env_lines env)) as [|ev0 l] eqn:E.
    + rewrite run_upto_eval, E in H.
      destruct (mkdir_parents fs (root log_dir) (rev (parts log_dir)));
        [|discriminate].
      destruct (env_launch env command) as [[|]|]; try discriminate.
      cbn in H. injection H as <-. reflexivity.
    + rewrite (last_opt_last _ ev0) by discriminate.
      specialize (Hl ev0 ltac:(discriminate)).
      unfold writer_ready in Hr. rewrite Hl in Hr.
      destruct (current_log_file s_k) as [[fp fb fc]|];
        [|destruct Hr; discriminate].
      cbn in Hr. destruct Hr as (-> & _ & E' & _). injection E' as <-.
      reflexivity.
Qed.

(** A run whose stream ends and whose child exits makes exactly these
    calls, in this order: the directory, the launch, for each line the
    rotation when the destination changed, the write, the flush and the
    echo, then the wait, the close of the pipe, and the flush and close of
    the last file. *)
Theorem normal_run_calls env command log_dir log_prefix log_extension echo
    fs s_k status :
  run_upto (List.length (env_lines env)) env command log_dir log_prefix
    log_extension echo (initial_state fs) = (s_k, Ok tt) ->
  env_end env = EndOfStream ->
  env_wait env = Exited status ->
  exists st',
    run_with_daily_logs env command log_dir log_prefix log_extension echo
      (initial_state fs) = (st', Ok status) /\
    st_trace st'
    = ([AMkdir log_dir; APopen command]
         ++ loop_calls log_dir log_prefix log_extension echo None (env_lines env)
         ++ [AWait; ACloseStream]
         ++ match last_opt (env_lines env) with
            | Some ev =>
                [AFlush (target_of log_dir log_prefix log_extension ev);
                 AClose (target_of log_dir log_prefix log_extension ev)]
            | None => []
            end)%list.
Proof.
  intros H He Hw.
  destruct (run_after_lines _ _ _ _ _ _ _ _ H)
    as (_ & _ & st' & r & t_end & Er & (T & _) & _ & _ & Hm).
  rewrite He, Hw in Hm. destruct Hm as (-> & ->).
  exists st'. split; [exact Er|].
  destruct (run_upto_calls _ _ _ _ _ _ _ _ _ H) as (Tk & Fk).
  rewrite firstn_all in Tk, Fk.
  rewrite T, Tk, Fk. reflexivity.
Qed.

Lemma normal_run_calls_witness :
  exists st',
    run_with_daily_logs Examples.echo_hello ["echo"; "hello"]
      Examples.tmp_logs "job" ".log" false (initial_state empty_fs)
    = (st', Ok 0%Z)
    /\ List.length (st_trace st') = 9.
Proof.
  destruct (normal_run_calls Examples.echo_hello ["echo"; "hello"]
              Examples.tmp_logs "job" ".log" false empty_fs
              (fst (run_upto 1 Examples.echo_hello ["echo"; "hello"]
                      Examples.tmp_logs "job" ".log" false
                      (initial_state empty_fs))) 0%Z)
    as (st' & E & T).
  - etransitivity; [apply surjective_pairing|].
    apply f_equal2; [reflexivity | vm_compute; reflexivity].
  - reflexivity.
  - reflexivity.
  - exists st'. split; [exact E|]. rewrite T. vm_compute. reflexivity.
Defined.

(** ** One open per day *)

Lemma date_eqb_eq (d1 d2 : date) : date_eqb d1 d2 = true <-> d1 = d2.
Proof.
  unfold date_eqb. split.
  - intros H. apply andb_prop in H. destruct H as [H Hd].
    apply andb_prop in H. destruct H as [Hy Hm].
    apply Nat.eqb_eq in Hy, Hm, Hd. now apply date_eq.
  - intros ->. now rewrite !Nat.eqb_refl.
Qed.

Lemma opens_of_app (t1 t2 : list Action) :
  opens_of (t1 ++ t2) = (opens_of t1 ++ opens_of t2)%list.
Proof.
  induction t1 as [|a t1 IH]; [reflexivity|].
  destruct a; cbn; now rewrite ?IH.
Qed.

Lemma opens_of_loop_calls log_dir log_prefix log_extension echo lines :
  forall prev,
  opens_of (loop_calls log_dir log_prefix log_extension echo
              (option_map
                 (fun d => daily_log_path d log_dir log_prefix log_extension)
                 prev)
              lines)
  = map (fun d => daily_log_path d log_dir log_prefix log_extension)
        (day_starts prev (map le_today lines)).
Proof.
  induction lines as [|ev rest IH]; intros prev; [reflexivity|].
  cbn [loop_calls map day_starts]. rewrite !opens_of_app.
  specialize (IH (Some (le_today ev))). cbn [option_map] in IH.
  unfold target_of in *. rewrite IH. clear IH.
  assert (He : opens_of (if echo then [AEcho (le_line ev)] else []) = [])
    by now destruct echo.
  rewrite He. cbn [opens_of app].
  destruct prev as [d0|]; cbn [option_map path_differs].
  - destruct (date_eqb (le_today ev) d0) eqn:E.
    + apply date_eqb_eq in E. subst d0. rewrite Path_eqb_refl. reflexivity.
    + assert (N : Path_eqb
                    (daily_log_path (le_today ev) log_dir log_prefix log_extension)
                    (daily_log_path d0 log_dir log_prefix log_extension) = false).
      { destruct (Path_eqb _ _) eqn:P; [|reflexivity].
        apply Path_eqb_eq, daily_log_path_inj in P.
        apply date_eqb_eq in P. congruence. }
      rewrite N. reflexivity.
  - reflexivity.
Qed.

(** A log file is opened for the first line and then exactly when a
    line's date differs from the date of the line before it: the files
    opened while [k] lines are appended are the files of the days that
    start in those lines, in order. *)
Theorem one_open_per_day k env command log_dir log_prefix log_extension echo
    fs s_k :
  run_upto k env command log_dir log_prefix log_extension echo
    (initial_state fs) = (s_k, Ok tt) ->
  opens_of (st_trace s_k)
  = map (fun d => daily_log_path d log_dir log_prefix log_extension)
        (day_starts None (map le_today (firstn k (env_lines env)))).
Proof.
  intros H. destruct (run_upto_calls _ _ _ _ _ _ _ _ _ H) as (T & _).
  rewrite T. cbn [opens_of].
  exact (opens_of_loop_calls _ _ _ _ _ None).
Qed.

Lemma one_open_per_day_witness :
  opens_of (st_trace (fst (run_upto 3 Examples.over_midnight ["child"]
                             Examples.tmp_logs "job" ".log" false
                             (initial_state empty_fs))))
  = [daily_log_path Examples.jan1 Examples.tmp_logs "job" ".log";
     daily_log_path Examples.jan2 Examples.tmp_logs "job" ".log"].
Proof.
  rewrite (one_open_per_day 3 Examples.over_midnight ["child"]
             Examples.tmp_logs "job" ".log" false empty_fs).
  - reflexivity.
  - etransitivity; [apply surjective_pairing|].
    apply f_equal2; [reflexivity | vm_compute; reflexivity].
Defined.

(** ** Interruption while waiting *)

(** When the stream has ended and the interruption comes while the run
    waits for the child, the run takes the same path as for an
    interruption in the loop: poll, terminate and wait when the child
    still runs, close the handles, return 130. *)
Theorem interrupted_wait_terminates_child env command log_dir log_prefix
    log_extension echo fs s_k :
  run_upto (List.length (env_lines env)) env command log_dir log_prefix
    log_extension echo (initial_state fs) = (s_k, Ok tt) ->
  env_end env = EndOfStream ->
  env_wait env = InterruptedWait ->
  exists st',
    run_with_daily_logs env command log_dir log_prefix log_extension echo
      (initial_state fs) = (st', Ok 130%Z) /\
    st_trace st'
    = (st_trace s_k ++ handler_calls env ++ [ACloseStream]
         ++ final_close_calls (current_log_file s_k))%list /\
    (env_poll env = None -> handler_calls env = [APoll; ATerminate; AWait]) /\
    (forall status, env_poll env = Some status -> handler_calls env = [APoll]) /\
    (forall p, content_of (st_fs st') p = content_of (st_fs s_k) p).
Proof.
  intros H He Hw.
  destruct (run_after_lines _ _ _ _ _ _ _ _ H)
    as (_ & _ & st' & r & t_end & Er & (T & _ & _ & _ & C) & _ & _ & Hm).
  rewrite He, Hw in Hm. destruct Hm as (-> & ->).
  exists st'. splits; auto.
  - intros E. unfold handler_calls. now rewrite E.
  - intros status E. unfold handler_calls. now rewrite E.
  - intros p. rewrite C, !writes_of_app, writes_of_final_close.
    unfold handler_calls. destruct (env_poll env); cbn; now rewrite append_nil_r.
Qed.

Lemma interrupted_wait_terminates_child_witness :
  exists st',
    run_with_daily_logs Examples.interrupted_wait ["child"] Examples.tmp_logs
      "job" ".log" false (initial_state empty_fs)
    = (st', Ok 130%Z).
Proof.
  destruct (interrupted_wait_terminates_child Examples.interrupted_wait
              ["child"] Examples.tmp_logs "job" ".log" false empty_fs
              (fst (run_upto 1 Examples.interrupted_wait
                      ["child"] Examples.tmp_logs "job" ".log" false
                      (initial_state empty_fs))))
    as (st' & E & _).
  - etransitivity; [apply surjective_pairing|].
    apply f_equal2; [reflexivity | vm_compute; reflexivity].
  - reflexivity.
  - reflexivity.
  - exists st'. exact E.
Defined.

(** ** Before the child is launched *)

Lemma mkdir_parents_on_file (fs : FileSystem) (p : Path) (c : string) :
  fs p = File c ->
  mkdir_parents fs (root p) (rev (parts p)) = inr FileExistsError.
Proof.
  intros H.
  assert (E : fs (mkPath (root p) (rev (rev (parts p)))) = File c)
    by now rewrite path_eta.
  destruct (rev (parts p)) as [|x up]; cbn [mkdir_parents]; now rewrite E.
Qed.

(** When the log directory path is an existing regular file, [main]
    reports an error and returns 1 without launching the child: the state
    is the initial one but for the message. *)
Theorem log_dir_is_a_file resolve env args fs c :
  normalize_command (args_command args) <> [] ->
  fs (resolve (args_log_dir args)) = File c ->
  run_with_daily_logs env (normalize_command (args_command args))
    (resolve (args_log_dir args)) (args_log_prefix args)
    (normalize_extension (args_log_extension args)) (args_echo args)
    (initial_state fs)
  = (initial_state fs, Raise (Exception FileExistsError)) /\
  main resolve env args (initial_state fs)
  = (log_action (APrint "Error") (initial_state fs), Ok 1%Z).
Proof.
  intros Hc Hf.
  assert (E : run_with_daily_logs env (normalize_command (args_command args))
                (resolve (args_log_dir args)) (args_log_prefix args)
                (normalize_extension (args_log_extension args)) (args_echo args)
                (initial_state fs)
              = (initial_state fs, Raise (Exception FileExistsError))).
  { rewrite run_with_daily_logs_eval.
    now rewrite (mkdir_parents_on_file _ _ _ Hf). }
  split; [exact E|].
  unfold main.
  destruct (normalize_command (args_command args)) as [|c0 cs]; [congruence|].
  rewrite E. reflexivity.
Qed.

Lemma log_dir_is_a_file_witness :
  snd (main (fun p => p) Examples.echo_hello Examples.echo_hello_args
         (initial_state
            (fs_set empty_fs Examples.tmp_logs (File EmptyString))))
  = Ok 1%Z.
Proof.
  rewrite (proj2 (log_dir_is_a_file (fun p => p) Examples.echo_hello
                    Examples.echo_hello_args
                    (fs_set empty_fs Examples.tmp_logs (File EmptyString))
                    EmptyString ltac:(discriminate) ltac:(reflexivity))).
  reflexivity.
Defined.

Lemma normalize_command_nil (command : list string) :
  normalize_command command = [] <-> command = [] \/ command = ["--"].
Proof.
  split.
  - destruct command as [|first rest]; [auto|]. simpl.
    destruct (String.eqb_spec first "--") as [->|]; [|discriminate].
    intros ->. auto.
  - intros [->| ->]; reflexivity.
Qed.

(** [main] leaves through [parser.error] (exit status 2) exactly when no
    command is given, that is when the command is empty or is the lone
    separator ["--"]; nothing is created or launched then. *)
Theorem main_usage_error resolve env args fs :
  (args_command args = [] \/ args_command args = ["--"] ->
   main resolve env args (initial_state fs)
   = (log_action (APrint "Missing command. Add command arguments after --")
        (initial_state fs),
      Raise (SystemExit 2))) /\
  (forall code,
      snd (main resolve env args (initial_state fs)) = Raise (SystemExit code) ->
      code = 2%Z /\ (args_command args = [] \/ args_command args = ["--"])).
Proof.
  split.
  - intros H. apply normalize_command_nil in H. unfold main. now rewrite H.
  - intros code H.
    destruct (list_eq_dec String.string_dec
                (normalize_command (args_command args)) []) as [E|N].
    + split; [|now apply normalize_command_nil].
      unfold main in H. rewrite E in H. cbn in H. now injection H as <-.
    + pose proof (main_cases resolve env args (initial_state fs) N) as M.
      destruct (run_with_daily_logs env (normalize_command (args_command args))
                  (resolve (args_log_dir args)) (args_log_prefix args)
                  (normalize_extension (args_log_extension args))
                  (args_echo args) (initial_state fs)) as [st1 r1] eqn:Er.
      destruct (run_outcome _ _ _ _ _ _ _ _ _ Er) as [(c & ->)|(er & ->)].
      * rewrite M in H. discriminate.
      * destruct M as (msg & M). rewrite M in H. discriminate.
Qed.

Lemma main_usage_error_witness :
  snd (main (fun p => p) Examples.echo_hello
         (mkArgs Examples.tmp_logs "job" ".log" false ["--"])
         (initial_state empty_fs))
  = Raise (SystemExit 2).
Proof.
  rewrite (proj1 (main_usage_error (fun p => p) Examples.echo_hello
                    (mkArgs Examples.tmp_logs "job" ".log" false ["--"])
                    empty_fs) (or_intror eq_refl)).
  reflexivity.
Defined.

(** ** A file per day *)

(** Whatever the directory, the prefix and the extension are, two
    different dates never share a log file. *)
Theorem distinct_days_distinct_files log_dir log_prefix log_extension
    (d1 d2 : date) :
  d1 <> d2 ->
  daily_log_path d1 log_dir log_prefix log_extension
  <> daily_log_path d2 log_dir log_prefix log_extension.
Proof.
  intros Hne E. apply Hne. eapply daily_log_path_inj, E.
Qed.

Lemma distinct_days_distinct_files_witness :
  daily_log_path Examples.jan1 Examples.tmp_logs "job" ".log"
  <> daily_log_path Examples.jan2 Examples.tmp_logs "job" ".log".
Proof.
  apply distinct_days_distinct_files. intros E.
  apply (f_equal day) in E. vm_compute in E. discriminate.
Defined.

(** * Further properties of the installer *)

(** ** The service name and the payload arguments *)

Lemma substring_all (p : string) : String.substring 0 (String.length p) p = p.
Proof. induction p as [|c p IH]; [reflexivity|]. cbn. now rewrite IH. Qed.

Lemma substring_skip (s p : string) :
  String.substring (String.length s) (String.length p) (s ++ p) = p.
Proof.
  induction s as [|c s IH]; cbn; [apply substring_all | exact IH].
Qed.

Lemma endswith_append (s p : string) : PyStr.endswith (s ++ p) p = true.
Proof.
  unfold PyStr.endswith. rewrite append_length.
  replace (String.length p <=? String.length s + String.length p)%nat with true
    by (symmetry; apply Nat.leb_le; lia).
  replace (String.length s + String.length p - String.length p)
    with (String.length s) by lia.
  rewrite substring_skip. apply String.eqb_refl.
Qed.

(** [normalize_service_name] always returns a name that ends with
    [".service"], leaves such a name alone, and applying it twice is the
    same as applying it once. *)
Theorem normalize_service_name_idempotent (service_name : string) :
  let n := SystemdInstaller.normalize_service_name service_name in
  PyStr.endswith n ".service" = true /\
  SystemdInstaller.normalize_service_name n = n /\
  (PyStr.endswith service_name ".service" = true -> n = service_name) /\
  (PyStr.endswith service_name ".service" = false ->
     n = service_name ++ ".service").
Proof.
  intros n. subst n. unfold SystemdInstaller.normalize_service_name.
  destruct (PyStr.endswith service_name ".service") eqn:E.
  - rewrite E. splits; auto. discriminate.
  - rewrite endswith_append. splits; auto. discriminate.
Qed.

Lemma normalize_service_name_idempotent_witness :
  SystemdInstaller.normalize_service_name "tiktok-auto" = "tiktok-auto.service"
  /\ SystemdInstaller.normalize_service_name "tiktok-auto.service"
     = "tiktok-auto.service".
Proof.
  split.
  - apply (proj2 (proj2 (proj2
             (normalize_service_name_idempotent "tiktok-auto")))).
    reflexivity.
  - apply (proj1 (proj2 (proj2
             (normalize_service_name_idempotent "tiktok-auto.service")))).
    reflexivity.
Defined.

Lemma filter_all_true {A : Type} (f : A -> bool) (l : list A) :
  (forall x, In x l -> f x = true) -> filter f l = l.
Proof.
  induction l as [|a l IH]; intros H; [reflexivity|].
  cbn. rewrite (H a (or_introl eq_refl)). f_equal. apply IH.
  intros x Hx. apply H. now right.
Qed.

Lemma recorder_args_sound (recorder_args : list string) :
  ~ In "--" (SystemdInstaller.normalize_recorder_args recorder_args) /\
  PyStr.mem "-no-update-check"
    (SystemdInstaller.normalize_recorder_args recorder_args) = true.
Proof.
  unfold SystemdInstaller.normalize_recorder_args.
  set (kept := filter (fun arg => negb (String.eqb arg "--")) recorder_args).
  assert (Hk : ~ In "--" kept).
  { unfold kept. rewrite filter_In. intros [_ H]. discriminate. }
  destruct (PyStr.mem "-no-update-check" kept) eqn:E; cbn.
  - auto.
  - split.
    + intros H. apply in_app_or in H. destruct H as [H|[H|[]]];
        [auto | discriminate].
    + apply mem_In. apply in_or_app. right. now left.
Qed.

(** Normalising the payload arguments twice is the same as normalising
    them once. *)
Theorem normalize_recorder_args_idempotent (recorder_args : list string) :
  SystemdInstaller.normalize_recorder_args
    (SystemdInstaller.normalize_recorder_args recorder_args)
  = SystemdInstaller.normalize_recorder_args recorder_args.
Proof.
  destruct (recorder_args_sound recorder_args) as (Hsep & Hflag).
  set (args := SystemdInstaller.normalize_recorder_args recorder_args) in *.
  unfold SystemdInstaller.normalize_recorder_args at 1.
  rewrite filter_all_true.
  - now rewrite Hflag.
  - intros x Hx. destruct (String.eqb_spec x "--") as [->|]; [contradiction|].
    reflexivity.
Qed.

(** ** What [build_config] guarantees *)

(** Every configuration [build_config] returns has a stripped, non-empty
    service name, a non-empty description, a non-negative restart delay,
    no user or group for a user service, an existing main script, runner
    script and working directory, and a log file that is no directory;
    a blank service name or a negative delay is refused whatever the
    rest. *)
Theorem build_config_invariants host args recorder_args :
  (SystemdInstaller.strip (SystemdInstaller.args_service_name args) = EmptyString ->
   SystemdInstaller.build_config host args recorder_args
   = inr SystemdInstaller.ValueError) /\
  ((SystemdInstaller.args_restart_sec args < 0)%Z ->
   SystemdInstaller.build_config host args recorder_args
   = inr SystemdInstaller.ValueError) /\
  (forall config,
      SystemdInstaller.build_config host args recorder_args = inl config ->
      SystemdInstaller.service_name config
      = SystemdInstaller.strip (SystemdInstaller.args_service_name args) /\
      SystemdInstaller.service_name config <> EmptyString /\
      SystemdInstaller.description config <> EmptyString /\
      (0 <= SystemdInstaller.restart_sec config)%Z /\
      (SystemdInstaller.user_service config = true ->
       SystemdInstaller.run_as_user config = None /\
       SystemdInstaller.run_as_group config = None) /\
      SystemdInstaller.is_file host (SystemdInstaller.main_script config) = true /\
      SystemdInstaller.is_file host (SystemdInstaller.log_runner_script config)
      = true /\
      SystemdInstaller.is_dir host (SystemdInstaller.working_directory config)
      = true /\
      (SystemdInstaller.exists_ host (SystemdInstaller.log_file config)
       && SystemdInstaller.is_dir host (SystemdInstaller.log_file config))%bool
      = false /\
      SystemdInstaller.dry_run config = SystemdInstaller.args_dry_run args /\
      SystemdInstaller.enable_now config = SystemdInstaller.args_enable_now args).
Proof.
  unfold SystemdInstaller.build_config. splits.
  - intros ->. reflexivity.
  - intros H. apply Z.ltb_lt in H. rewrite H.
    now destruct (String.eqb _ EmptyString).
  - intros config H.
    destruct (String.eqb_spec
                (SystemdInstaller.strip (SystemdInstaller.args_service_name args))
                EmptyString) as [|Hn]; [discriminate|].
    destruct (Z.ltb_spec (SystemdInstaller.args_restart_sec args) 0) as [|Hz];
      [discriminate|].
    repeat match type of H with
           | (if negb ?c then _ else _) = _ =>
               destruct c eqn:?; cbn [negb] in H; try discriminate
           | (if ?c then _ else _) = _ =>
               destruct c eqn:?; try discriminate
           end.
    injection H as <-. cbn. splits; auto.
    + destruct (String.eqb_spec
                  (SystemdInstaller.strip (SystemdInstaller.args_description args))
                  EmptyString); [discriminate | assumption].
    + intros ->. auto.
Qed.

Lemma build_config_invariants_witness :
  SystemdInstaller.build_config Examples.plain_host
    (SystemdInstaller.mkArgs (" " ++ Examples.em_space) "d" "python3"
       (mkPath Root1 ["m.py"])
       (mkPath Root1 []) false (Some "root") None None 5 false false) []
  = inr SystemdInstaller.ValueError.
Proof.
  apply (proj1 (build_config_invariants Examples.plain_host
                  (SystemdInstaller.mkArgs (" " ++ Examples.em_space) "d"
                     "python3" (mkPath Root1 ["m.py"]) (mkPath Root1 []) false
                     (Some "root") None None 5 false false) [])).
  reflexivity.
Defined.

(** ** From the installer to the runner *)

Lemma rsplit_dot_spec (s pre suf : string) :
  rsplit_dot s = Some (pre, suf) ->
  s = pre ++ suf /\ exists rest, suf = String "."%char rest.
Proof.
  revert pre suf. induction s as [|a s IH]; intros pre suf; cbn; [discriminate|].
  destruct (rsplit_dot s) as [[pre' suf']|].
  - intros H. injection H as <- <-. destruct (IH _ _ eq_refl) as (-> & rest & ->).
    split; [reflexivity | eauto].
  - destruct (Ascii.eqb_spec a "."%char) as [->|]; [|discriminate].
    intros H. injection H as <- <-. split; [reflexivity | eauto].
Qed.

Lemma suffix_or_log_dot (p : Path) :
  exists rest, SystemdInstaller.suffix_or_log p = String "."%char rest.
Proof.
  unfold SystemdInstaller.suffix_or_log.
  destruct (String.eqb_spec (suffix p) EmptyString) as [|N]; [eauto|].
  unfold suffix in *.
  destruct (rsplit_dot (name p)) as [[pre suf]|] eqn:E; [|congruence].
  destruct (rsplit_dot_spec _ _ _ E) as (_ & rest & ->).
  destruct pre; [congruence|]. destruct rest; [congruence|]. eauto.
Qed.

Lemma normalize_extension_suffix_or_log (log_file : Path) :
  normalize_extension (SystemdInstaller.suffix_or_log log_file)
  = SystemdInstaller.suffix_or_log log_file.
Proof.
  destruct (suffix_or_log_dot log_file) as (rest & ->).
  unfold normalize_extension. cbn. now destruct rest.
Qed.

(** The extension the installer puts after [--log-extension] always
    begins with a dot, so the runner's [normalize_extension] leaves it as
    it is; and normalising an extension twice is the same as once. *)
Theorem installer_extension_is_normal (log_file : Path) (extension : string) :
  PyStr.startswith (SystemdInstaller.suffix_or_log log_file) "." = true /\
  normalize_extension (SystemdInstaller.suffix_or_log log_file)
  = SystemdInstaller.suffix_or_log log_file /\
  normalize_extension (normalize_extension extension)
  = normalize_extension extension.
Proof.
  destruct (suffix_or_log_dot log_file) as (rest & Ed). rewrite Ed.
  splits.
  - cbn. now destruct rest.
  - rewrite <- Ed. apply normalize_extension_suffix_or_log.
  - unfold normalize_extension.
    destruct (String.eqb_spec extension EmptyString) as [->|N]; [reflexivity|].
    destruct (PyStr.startswith extension ".") eqn:E.
    + destruct extension; [congruence|]. cbn [String.eqb]. now rewrite E.
    + cbn. now destruct extension.
Qed.

Lemma contains_char_app (c : ascii) (a b : string) :
  PyStr.contains_char c (a ++ b)
  = (PyStr.contains_char c a || PyStr.contains_char c b)%bool.
Proof.
  induction a as [|x a IH]; [reflexivity|].
  cbn. destruct (Ascii.eqb x c); [reflexivity | exact IH].
Qed.

Lemma stem_suffix_no_slash (p : Path) :
  PyStr.contains_char slash (name p) = false ->
  PyStr.contains_char slash (stem p) = false /\
  PyStr.contains_char slash (SystemdInstaller.suffix_or_log p) = false.
Proof.
  intros H. unfold stem, SystemdInstaller.suffix_or_log, suffix.
  destruct (rsplit_dot (name p)) as [[pre suf]|] eqn:E; [|auto].
  destruct (rsplit_dot_spec _ _ _ E) as (En & _).
  rewrite En, contains_char_app in H. apply orb_false_elim in H.
  destruct H as (Hpre & Hsuf).
  destruct pre as [|a pre]; [rewrite En; cbn; auto|].
  destruct suf as [|b [|c suf]];
    try (rewrite En, contains_char_app, Hpre; cbn; auto).
  cbn [String.eqb]. auto.
Qed.

(** joining a directory and a file name made of a prefix, a dash, a
    middle part and an extension, none with a separator *)
Lemma truediv_dashed (dir : Path) (log_prefix mid log_extension : string) :
  PyStr.contains_char slash log_prefix = false ->
  PyStr.contains_char slash mid = false ->
  PyStr.contains_char slash log_extension = false ->
  truediv dir (log_prefix ++ String "-"%char (mid ++ log_extension))
  = mkPath (root dir)
      (parts dir ++ [log_prefix ++ String "-"%char (mid ++ log_extension)]).
Proof.
  intros Hp Hm He. unfold truediv.
  rewrite (parse_dashed _ _ _ Hm). cbn [root parts].
  rewrite (splitroot_no_slash _ Hp). cbn [fst snd].
  rewrite (split_no_sep _ _ Hp), (split_no_sep _ _ He).
  reflexivity.
Qed.

(** The pattern the installer prints for the daily logs is the path the
    runner writes, with the letters [YYYY-MM-DD] where the date goes: for
    a log file whose name holds no separator, both are the log file's
    directory followed by [<stem>-<date><extension>]. *)
Theorem daily_log_pattern_is_runner_path (log_file : Path) :
  PyStr.contains_char slash (name log_file) = false ->
  let file_for (day : string) :=
    mkPath (root log_file)
      (removelast (parts log_file)
         ++ [stem log_file ++ "-" ++ day
               ++ SystemdInstaller.suffix_or_log log_file]) in
  InstallerRun.daily_log_pattern log_file = str (file_for "YYYY-MM-DD") /\
  forall today,
    daily_log_path today (parent log_file) (stem log_file)
      (normalize_extension (SystemdInstaller.suffix_or_log log_file))
    = file_for (isoformat today).
Proof.
  intros Hn file_for. subst file_for. cbv beta.
  destruct (stem_suffix_no_slash _ Hn) as (Hs & Hx).
  split.
  - unfold InstallerRun.daily_log_pattern.
    change (stem log_file ++ "-YYYY-MM-DD" ++ SystemdInstaller.suffix_or_log log_file)
      with (stem log_file
              ++ String "-"%char ("YYYY-MM-DD" ++ SystemdInstaller.suffix_or_log log_file)).
    rewrite (truediv_dashed _ (stem log_file) "YYYY-MM-DD" _ Hs eq_refl Hx).
    reflexivity.
  - intros today.
    rewrite normalize_extension_suffix_or_log.
    rewrite (daily_log_path_plain _ _ _ _ Hs Hx). reflexivity.
Qed.

Lemma daily_log_pattern_is_runner_path_witness :
  InstallerRun.daily_log_pattern
    (mkPath Root1 ["opt"; "recorder"; "logs"; "tiktok-auto.log"])
  = "/opt/recorder/logs/tiktok-auto-YYYY-MM-DD.log".
Proof.
  rewrite (proj1 (daily_log_pattern_is_runner_path
                    (mkPath Root1 ["opt"; "recorder"; "logs"; "tiktok-auto.log"])
                    eq_refl)).
  reflexivity.
Defined.

(** ** Installing the unit *)

Import InstallerRun.

Lemma install_service_dry (sys : System) (config : SystemdInstaller.SystemdInstallConfig)
    (w : World) :
  SystemdInstaller.dry_run config = true ->
  exists out,
    install_service sys config w
    = (mkWorld (w_fs w) (w_printed w ++ out) (w_commands w), Ok tt) /\
    In (build_service_content config (unit_name config)) out.
Proof.
  intros Hd. unfold install_service. rewrite Hd.
  fold (unit_name config).
  set (content := build_service_content config (unit_name config)).
  unfold bind, print. cbv beta iota.
  destruct (SystemdInstaller.enable_now config); cbv beta iota; cbn [w_fs w_printed w_commands];
    rewrite <- !app_assoc; eexists; (split; [reflexivity|]);
    cbn; tauto.
Qed.

(** A dry run succeeds on every machine, with or without [systemctl] and
    whatever may be written there: [main] returns 0, prints the unit, and
    leaves the file system and the commands untouched. *)
Theorem dry_run_is_harmless sys host args recorder_args config w :
  SystemdInstaller.build_config host args recorder_args = inl config ->
  SystemdInstaller.args_dry_run args = true ->
  let res := main sys host false args recorder_args w in
  snd res = 0%Z /\
  w_fs (fst res) = w_fs w /\
  w_commands (fst res) = w_commands w /\
  In (build_service_content config (unit_name config)) (w_printed (fst res)).
Proof.
  intros Hb Hd res. subst res. unfold main. rewrite Hb.
  assert (Hdry : SystemdInstaller.dry_run config = true).
  { unfold SystemdInstaller.build_config in Hb.
    repeat match type of Hb with
           | (if ?c then _ else _) = _ => destruct c; try discriminate
           end.
    injection Hb as <-. exact Hd. }
  destruct (install_service_dry sys config w Hdry) as (out & -> & Hin).
  cbn. splits; auto. apply in_or_app. now right.
Qed.

Lemma dry_run_is_harmless_witness :
  snd (main no_systemd Examples.plain_host false
         (SystemdInstaller.mkArgs "tiktok-auto" "TikTok Live Recorder"
            "/usr/bin/python3" (mkPath Root1 ["opt"; "recorder"; "main.py"])
            (mkPath Root1 ["opt"; "recorder"]) true None None None 5 false true)
         ["-user"; "someuser"] empty_world) = 0%Z.
Proof.
  refine (proj1 (dry_run_is_harmless no_systemd Examples.plain_host
            (SystemdInstaller.mkArgs "tiktok-auto" "TikTok Live Recorder"
               "/usr/bin/python3" (mkPath Root1 ["opt"; "recorder"; "main.py"])
               (mkPath Root1 ["opt"; "recorder"]) true None None None 5 false true)
            ["-user"; "someuser"] _ empty_world _ _)).
  - vm_compute. reflexivity.
  - reflexivity.
Defined.

Lemma Path_mkdir_frame (sys : System) (p : Path) (w w' : World) (r : result unit) :
  Path_mkdir sys p w = (w', r) ->
  w_commands w' = w_commands w /\ w_printed w' = w_printed w /\
  (forall q c, w_fs w' q = DailyLogRunner.File c <-> w_fs w q = DailyLogRunner.File c) /\
  (forall q, w_fs w q = DailyLogRunner.Dir -> w_fs w' q = DailyLogRunner.Dir) /\
  match r with
  | Ok _ => w_fs w' p = DailyLogRunner.Dir
  | Raise _ => w' = w
  end.
Proof.
  unfold Path_mkdir. destruct (sys_denied sys p).
  { intros H. injection H as <- <-. splits; auto. tauto. }
  destruct (mkdir_parents (w_fs w) (root p) (rev (parts p))) as [fs'|e] eqn:E.
  - intros H. injection H as <- <-. cbn. splits; auto.
    + intros q c. eapply mkdir_parents_files; eauto.
    + intros q Hq.
      destruct (mkdir_parents_grows _ _ _ _ q E) as [->|[Ha _]]; congruence.
    + pose proof (mkdir_parents_dir _ _ _ _ E) as Hd. now rewrite path_eta in Hd.
  - intros H. injection H as <- <-. splits; auto. tauto.
Qed.

Lemma Path_write_text_frame (sys : System) (p : Path) (content : string)
    (w w' : World) (r : result unit) :
  Path_write_text sys p content w = (w', r) ->
  w_commands w' = w_commands w /\ w_printed w' = w_printed w /\
  match r with
  | Ok _ =>
      w_fs w' p = DailyLogRunner.File content /\
      w_fs w p <> DailyLogRunner.Dir /\
      (forall q, q <> p -> w_fs w' q = w_fs w q)
  | Raise _ => w' = w
  end.
Proof.
  unfold Path_write_text. destruct (sys_denied sys p).
  { intros H. injection H as <- <-. auto. }
  assert (Hset : forall fs q,
             q <> p -> fs_set fs p (DailyLogRunner.File content) q = fs q).
  { intros fs q Hq. unfold fs_set. destruct (Path_eq_dec q p); congruence. }
  assert (Hself : forall fs, fs_set fs p (DailyLogRunner.File content) p
                             = DailyLogRunner.File content).
  { intros fs. unfold fs_set. destruct (Path_eq_dec p p); congruence. }
  destruct (w_fs w p) eqn:Ep.
  - destruct (w_fs w (parent p)); intros H; injection H as <- <-; cbn;
      splits; auto; congruence.
  - intros H. injection H as <- <-. auto.
  - destruct (w_fs w (parent p)); intros H; injection H as <- <-; cbn;
      splits; auto; congruence.
Qed.

(** The installation proper (no dry run), step by step. *)
Lemma install_service_steps (sys : System)
    (config : SystemdInstaller.SystemdInstallConfig) (w w' : World)
    (r : result unit) :
  SystemdInstaller.dry_run config = false ->
  install_service sys config w = (w', r) ->
  let content := build_service_content config (unit_name config) in
  (exists e, r = Raise e /\ w_commands w' = w_commands w /\
     (forall w1 w2 w3,
         Path_mkdir sys (parent (unit_path sys config)) w = (w1, Ok tt) ->
         Path_mkdir sys (parent (SystemdInstaller.log_file config)) w1 = (w2, Ok tt) ->
         Path_write_text sys (unit_path sys config) content w2 = (w3, Ok tt) ->
         sys_has_systemctl sys = false /\ e = FileNotFoundError /\ w' = w3))
  \/ (sys_has_systemctl sys = true /\
      w_fs w' (unit_path sys config) = DailyLogRunner.File content /\
      w_fs w' (parent (SystemdInstaller.log_file config)) = DailyLogRunner.Dir /\
      ((w_commands w' = (w_commands w ++ [reload_command config])%list /\
        r = Raise (CalledProcessError (sys_status sys (reload_command config))) /\
        sys_status sys (reload_command config) <> 0%Z)
       \/ (w_commands w'
           = (w_commands w ++ [reload_command config; enable_command config])%list /\
           sys_status sys (reload_command config) = 0%Z /\
           ((r = Raise (CalledProcessError (sys_status sys (enable_command config))) /\
             sys_status sys (enable_command config) <> 0%Z)
            \/ (r = Ok tt /\ sys_status sys (enable_command config) = 0%Z))))).
Proof.
  intros Hd H content.
  unfold install_service in H. rewrite Hd in H.
  fold (unit_name config) in H. fold (unit_path sys config) in H.
  fold content in H. clearbody content.
  set (sp := unit_path sys config) in *.
  unfold bind at 1 in H.
  destruct (Path_mkdir sys (parent sp) w) as [w1 r1] eqn:E1.
  destruct (Path_mkdir_frame _ _ _ _ _ E1) as (C1 & P1 & F1 & D1 & R1).
  destruct r1 as [[]|e1]; cycle 1.
  { injection H as <- <-. left. exists e1. subst w1.
    splits; auto; intros; congruence. }
  unfold bind at 1 in H.
  destruct (Path_mkdir sys (parent (SystemdInstaller.log_file config)) w1)
    as [w2 r2] eqn:E2.
  destruct (Path_mkdir_frame _ _ _ _ _ E2) as (C2 & P2 & F2 & D2 & R2).
  destruct r2 as [[]|e2]; cycle 1.
  { injection H as <- <-. left. exists e2. subst w2.
    splits; auto; intros; congruence. }
  unfold bind at 1 in H.
  destruct (Path_write_text sys sp content w2) as [w3 r3] eqn:E3.
  destruct (Path_write_text_frame _ _ _ _ _ _ E3) as (C3 & P3 & R3).
  destruct r3 as [[]|e3]; cycle 1.
  { injection H as <- <-. left. exists e3. subst w3.
    splits; try congruence; intros; congruence. }
  destruct R3 as (Hfile & Hnd & Hother).
  assert (Hlogdir : w_fs w3 (parent (SystemdInstaller.log_file config))
                    = DailyLogRunner.Dir).
  { rewrite Hother; [exact R2|]. intros E. apply Hnd. now rewrite <- E. }
  unfold run_systemctl in H.
  fold (systemctl_command (SystemdInstaller.user_service config) ["daemon-reload"]) in H.
  fold (reload_command config) in H.
  destruct (sys_has_systemctl sys) eqn:Hs; cbn [negb] in H; cycle 1.
  { unfold bind, raise in H. injection H as <- <-. left.
    exists FileNotFoundError. splits; try congruence.
    intros w1' w2' w3' A B C. splits; congruence. }
  right. split; [reflexivity|].
  unfold bind at 1 in H. unfold subprocess_run at 1 in H.
  destruct (Z.eqb_spec (sys_status sys (reload_command config)) 0) as [Z1|Z1];
    cycle 1.
  { injection H as <- <-. cbn [w_fs w_printed w_commands]. splits; auto. left. splits; congruence. }
  unfold bind at 1 in H.
  assert (Hen :
    (if SystemdInstaller.enable_now config
     then subprocess_run sys
            (["systemctl"] ++ (if SystemdInstaller.user_service config
                               then ["--user"] else [])
               ++ ["enable"; "--now";
                   SystemdInstaller.normalize_service_name
                     (SystemdInstaller.service_name config)])%list
     else subprocess_run sys
            (["systemctl"] ++ (if SystemdInstaller.user_service config
                               then ["--user"] else [])
               ++ ["enable";
                   SystemdInstaller.normalize_service_name
                     (SystemdInstaller.service_name config)])%list)
    = subprocess_run sys (enable_command config)).
  { unfold enable_command, systemctl_command, unit_name.
    now destruct (SystemdInstaller.enable_now config). }
  unfold unit_name in H. rewrite Hen in H. clear Hen.
  unfold subprocess_run in H. cbn [w_fs w_printed w_commands] in H.
  destruct (Z.eqb_spec (sys_status sys (enable_command config)) 0) as [Z2|Z2];
    cycle 1.
  { injection H as <- <-. cbn [w_fs w_printed w_commands]. splits; auto. right.
    split; [rewrite <- app_assoc; cbn [app]; congruence|].
    split; [assumption|]. left. auto. }
  unfold bind, print in H. cbn [w_fs w_printed w_commands] in H.
  destruct (SystemdInstaller.user_service config) eqn:Hu;
    cbv beta iota in H; cbn [w_fs w_printed w_commands] in H;
    injection H as <- <-; cbn [w_fs w_printed w_commands]; splits; auto; right;
    (split; [rewrite <- app_assoc; cbn [app]; congruence|]);
    (split; [assumption|]); right; auto.
Qed.

(** In an installation, [systemctl] is run only once the unit file has
    been written and the log directory made; the only commands are
    [daemon-reload] and then [enable], the second only after the first
    has succeeded; a failing command raises [CalledProcessError] with
    its status, and the installation succeeds exactly when both were run
    and succeeded. *)
Theorem systemctl_after_unit_file sys config w w' r :
  SystemdInstaller.dry_run config = false ->
  install_service sys config w = (w', r) ->
  exists cmds,
    w_commands w' = (w_commands w ++ cmds)%list /\
    (cmds = [] \/ cmds = [reload_command config]
     \/ cmds = [reload_command config; enable_command config]) /\
    (cmds <> [] ->
     sys_has_systemctl sys = true /\
     w_fs w' (unit_path sys config)
     = DailyLogRunner.File (build_service_content config (unit_name config)) /\
     w_fs w' (parent (SystemdInstaller.log_file config)) = DailyLogRunner.Dir) /\
    (cmds = [] -> exists e, r = Raise e) /\
    (cmds = [reload_command config] ->
     r = Raise (CalledProcessError (sys_status sys (reload_command config))) /\
     sys_status sys (reload_command config) <> 0%Z) /\
    (cmds = [reload_command config; enable_command config] ->
     sys_status sys (reload_command config) = 0%Z /\
     (sys_status sys (enable_command config) <> 0%Z ->
      r = Raise (CalledProcessError (sys_status sys (enable_command config))))) /\
    (r = Ok tt <->
     cmds = [reload_command config; enable_command config]
     /\ sys_status sys (enable_command config) = 0%Z).
Proof.
  intros Hd H.
  destruct (install_service_steps sys config w w' r Hd H)
    as [(e & -> & C & _)|(Hs & Hf & Hl & [(C & -> & Z1)|(C & Z1 & [(-> & Z2)|(-> & Z2)])])].
  - exists []. rewrite app_nil_r. splits; auto; try congruence; try discriminate.
    + eauto.
    + split; [discriminate | intros (? & _); discriminate].
  - exists [reload_command config]. splits; auto; try congruence; try discriminate.
    split; [discriminate|]. intros (E & _). discriminate.
  - exists [reload_command config; enable_command config].
    splits; auto; try congruence; try discriminate.
    split; [discriminate|]. intros (_ & E). congruence.
  - exists [reload_command config; enable_command config].
    splits; auto; try congruence; try discriminate.
    + intros _. split; [assumption | congruence].
    + tauto.
Qed.

Lemma systemctl_after_unit_file_witness :
  exists cmds,
    w_commands (fst (install_service plain_system tiktok_auto empty_world))
    = (w_commands empty_world ++ cmds)%list /\
    (cmds = [] \/ cmds = [reload_command tiktok_auto]
     \/ cmds = [reload_command tiktok_auto; enable_command tiktok_auto]).
Proof.
  destruct (systemctl_after_unit_file plain_system tiktok_auto empty_world
              (fst (install_service plain_system tiktok_auto empty_world))
              (snd (install_service plain_system tiktok_auto empty_world))
              eq_refl (surjective_pairing _))
    as (cmds & C & D & _).
  exists cmds. split; assumption.
Defined.

(** ** The installer's [main] *)

(** [main] of the installer always returns 0 or 1.  With [--example] it
    returns 0 and touches neither files nor commands; a configuration
    that is refused gives 1, again with nothing touched; otherwise the
    code is 0 exactly when the installation raised nothing. *)
Theorem installer_main_exit_code sys host example args recorder_args w :
  let res := main sys host example args recorder_args w in
  (snd res = 0%Z \/ snd res = 1%Z) /\
  (example = true ->
   snd res = 0%Z /\ w_fs (fst res) = w_fs w /\ w_commands (fst res) = w_commands w) /\
  (example = false ->
   SystemdInstaller.build_config host args recorder_args
   = inr SystemdInstaller.ValueError ->
   snd res = 1%Z /\ w_fs (fst res) = w_fs w /\ w_commands (fst res) = w_commands w) /\
  (example = false ->
   forall config,
     SystemdInstaller.build_config host args recorder_args = inl config ->
     (snd res = 0%Z <-> snd (install_service sys config w) = Ok tt) /\
     w_fs (fst res) = w_fs (fst (install_service sys config w)) /\
     w_commands (fst res) = w_commands (fst (install_service sys config w))).
Proof.
  intros res. subst res. unfold main. splits.
  - destruct example; [now left|].
    destruct (SystemdInstaller.build_config host args recorder_args) as [config|[]];
      [|now right].
    destruct (install_service sys config w) as [w' [[]|[]]]; cbn; auto.
  - intros ->. cbn. auto.
  - intros -> ->. cbn. auto.
  - intros -> config ->.
    destruct (install_service sys config w) as [w' [[]|[]]]; cbn;
      splits; auto; split; congruence.
Qed.

(** Without [systemctl] an installation fails with exit code 1 and runs
    no command, but only after its files were written: when both
    directories could be made and the unit file written, the unit file
    and the log directory are left behind. *)
Theorem main_without_systemctl sys host args recorder_args config w :
  sys_has_systemctl sys = false ->
  SystemdInstaller.build_config host args recorder_args = inl config ->
  SystemdInstaller.dry_run config = false ->
  let res := main sys host false args recorder_args w in
  snd res = 1%Z /\
  w_commands (fst res) = w_commands w /\
  (forall w1 w2 w3,
      Path_mkdir sys (parent (unit_path sys config)) w = (w1, Ok tt) ->
      Path_mkdir sys (parent (SystemdInstaller.log_file config)) w1 = (w2, Ok tt) ->
      Path_write_text sys (unit_path sys config)
        (build_service_content config (unit_name config)) w2 = (w3, Ok tt) ->
      w_fs (fst res) = w_fs w3 /\
      w_fs (fst res) (unit_path sys config)
      = DailyLogRunner.File (build_service_content config (unit_name config))).
Proof.
  intros Hs Hb Hd res. subst res. unfold main. rewrite Hb.
  destruct (install_service sys config w) as [w' r] eqn:E.
  destruct (install_service_steps sys config w w' r Hd E)
    as [(e & -> & C & F)|(Hs' & _)]; [|congruence].
  assert (G : forall w1 w2 w3,
             Path_mkdir sys (parent (unit_path sys config)) w = (w1, Ok tt) ->
             Path_mkdir sys (parent (SystemdInstaller.log_file config)) w1 = (w2, Ok tt) ->
             Path_write_text sys (unit_path sys config)
               (build_service_content config (unit_name config)) w2 = (w3, Ok tt) ->
             w_fs w' = w_fs w3 /\
             w_fs w' (unit_path sys config)
             = DailyLogRunner.File (build_service_content config (unit_name config))).
  { intros w1 w2 w3 A B D. destruct (F w1 w2 w3 A B D) as (_ & _ & ->).
    split; [reflexivity|].
    now destruct (Path_write_text_frame _ _ _ _ _ _ D) as (_ & _ & ? & _). }
  destruct e; cbn; splits; auto.
Qed.

(** When [main] returns 0 for an installation proper, the unit file holds
    the generated unit, the log directory exists, and exactly
    [daemon-reload] and [enable] were run, in this order, both with
    status 0. *)
Theorem successful_install sys host args recorder_args config w :
  SystemdInstaller.build_config host args recorder_args = inl config ->
  SystemdInstaller.dry_run config = false ->
  let res := main sys host false args recorder_args w in
  snd res = 0%Z ->
  w_fs (fst res) (unit_path sys config)
  = DailyLogRunner.File (build_service_content config (unit_name config)) /\
  w_fs (fst res) (parent (SystemdInstaller.log_file config)) = DailyLogRunner.Dir /\
  w_commands (fst res)
  = (w_commands w ++ [reload_command config; enable_command config])%list /\
  sys_has_systemctl sys = true /\
  sys_status sys (reload_command config) = 0%Z /\
  sys_status sys (enable_command config) = 0%Z.
Proof.
  intros Hb Hd res. subst res. unfold main. rewrite Hb.
  destruct (install_service sys config w) as [w' r] eqn:E.
  destruct (install_service_steps sys config w w' r Hd E)
    as [(e & -> & _)|(Hs & Hf & Hl & [(C & -> & Z1)|(C & Z1 & [(-> & Z2)|(-> & Z2)])])].
  - destruct e; cbn; discriminate.
  - cbn. discriminate.
  - cbn. discriminate.
  - cbn. intros _. splits; auto.
Qed.

Lemma installer_main_exit_code_witness :
  snd (main plain_system Examples.plain_host true Examples.installer_args
         ["-user"; "someuser"] empty_world) = 0%Z
  /\ snd (main plain_system Examples.plain_host false Examples.installer_args
            ["-user"; "someuser"] empty_world) = 0%Z.
Proof.
  split.
  - exact (proj1 (proj1 (proj2 (installer_main_exit_code plain_system
                                  Examples.plain_host true Examples.installer_args
                                  ["-user"; "someuser"] empty_world)) eq_refl)).
  - refine (proj2 (proj1 (proj2 (proj2 (proj2 (installer_main_exit_code plain_system
                                  Examples.plain_host false Examples.installer_args
                                  ["-user"; "someuser"] empty_world)))
                           eq_refl tiktok_auto _)) _).
    + vm_compute. reflexivity.
    + vm_compute. reflexivity.
Defined.

Lemma main_without_systemctl_witness :
  snd (main no_systemd Examples.plain_host false Examples.installer_args
         ["-user"; "someuser"] empty_world) = 1%Z
  /\ w_commands (fst (main no_systemd Examples.plain_host false
                        Examples.installer_args ["-user"; "someuser"] empty_world))
     = [].
Proof.
  pose proof (main_without_systemctl no_systemd Examples.plain_host
                Examples.installer_args ["-user"; "someuser"] tiktok_auto
                empty_world eq_refl) as H.
  assert (Hb : SystemdInstaller.build_config Examples.plain_host
                 Examples.installer_args ["-user"; "someuser"] = inl tiktok_auto)
    by (vm_compute; reflexivity).
  destruct (H Hb eq_refl) as (A & B & _).
  split; [exact A | exact B].
Defined.

Lemma successful_install_witness :
  w_commands (fst (main plain_system Examples.plain_host false
                     Examples.installer_args ["-user"; "someuser"] empty_world))
  = [["systemctl"; "--user"; "daemon-reload"];
     ["systemctl"; "--user"; "enable"; "tiktok-auto.service"]].
Proof.
  assert (Hb : SystemdInstaller.build_config Examples.plain_host
                 Examples.installer_args ["-user"; "someuser"] = inl tiktok_auto)
    by (vm_compute; reflexivity).
  assert (H0 : snd (main plain_system Examples.plain_host false
                      Examples.installer_args ["-user"; "someuser"] empty_world)
               = 0%Z)
    by (vm_compute; reflexivity).
  destruct (successful_install plain_system Examples.plain_host
              Examples.installer_args ["-user"; "someuser"] tiktok_auto
              empty_world Hb eq_refl H0) as (_ & _ & C & _).
  exact C.
Defined.

(** ** Where the unit file and the default log file go *)

Lemma truediv_plain (dir : Path) (x : string) :
  PyStr.contains_char slash x = false ->
  x <> EmptyString -> x <> "."%string ->
  truediv dir x = mkPath (root dir) (parts dir ++ [x]).
Proof.
  intros Hs He Hd. unfold truediv, parse.
  rewrite (splitroot_no_slash _ Hs). rewrite (split_no_sep _ _ Hs).
  cbn [filter]. unfold keep_part.
  apply String.eqb_neq in He, Hd. rewrite He, Hd. reflexivity.
Qed.

Lemma parent_snoc (r : Root) (l : list string) (x : string) :
  parent (mkPath r (l ++ [x])) = mkPath r l.
Proof. unfold parent. cbn [root parts]. now rewrite removelast_last. Qed.

Lemma name_snoc (r : Root) (l : list string) (x : string) :
  name (mkPath r (l ++ [x])) = x.
Proof. unfold name. cbn [parts]. apply last_last. Qed.

Lemma unit_name_long (service_name : string) :
  8 <= String.length (SystemdInstaller.normalize_service_name service_name).
Proof.
  unfold SystemdInstaller.normalize_service_name, PyStr.endswith.
  change (String.length ".service") with 8.
  destruct (8 <=? String.length service_name)%nat eqn:E.
  - apply Nat.leb_le in E.
    destruct (String.eqb _ _); [assumption|].
    rewrite append_length. lia.
  - rewrite append_length. cbn. lia.
Qed.

(** A service name without ["/"] puts the unit file, under its normalised
    name, directly into [~/.config/systemd/user] for a user service and
    into [/etc/systemd/system] otherwise. *)
Theorem unit_file_location (home : Path) (service_name : string)
    (user_service : bool) :
  PyStr.contains_char slash service_name = false ->
  let n := SystemdInstaller.normalize_service_name service_name in
  let p := get_service_path home n user_service in
  parent p
  = (if user_service
     then truediv (truediv (truediv home ".config") "systemd") "user"
     else mkPath Root1 ["etc"; "systemd"; "system"]) /\
  name p = n /\
  PyStr.endswith (name p) ".service" = true.
Proof.
  intros Hs n p.
  assert (Hn : PyStr.contains_char slash n = false).
  { subst n. unfold SystemdInstaller.normalize_service_name.
    destruct (PyStr.endswith service_name ".service"); [assumption|].
    rewrite contains_char_app, Hs. reflexivity. }
  assert (Hlen : 8 <= String.length n) by apply unit_name_long.
  assert (He : n <> EmptyString) by (intros E; rewrite E in Hlen; cbn in Hlen; lia).
  assert (Hd : n <> "."%string) by (intros E; rewrite E in Hlen; cbn in Hlen; lia).
  assert (Hend : PyStr.endswith n ".service" = true).
  { subst n. unfold SystemdInstaller.normalize_service_name.
    destruct (PyStr.endswith service_name ".service") eqn:E; [exact E|].
    apply endswith_append. }
  assert (Hp : exists r l, p = mkPath r (l ++ [n]) /\
                 mkPath r l
                 = (if user_service
                    then truediv (truediv (truediv home ".config") "systemd") "user"
                    else mkPath Root1 ["etc"; "systemd"; "system"])).
  { subst p. unfold get_service_path. destruct user_service.
    - rewrite (truediv_plain _ n Hn He Hd).
      eexists. eexists. split; [reflexivity|].
      now destruct (truediv (truediv (truediv home ".config") "systemd") "user").
    - rewrite (truediv_plain _ n Hn He Hd).
      exists Root1, ["etc"; "systemd"; "system"]. split; reflexivity. }
  destruct Hp as (r & l & -> & <-).
  rewrite parent_snoc, name_snoc. auto.
Qed.

Lemma unit_file_location_witness :
  parent (get_service_path (mkPath Root1 ["home"; "rec"])
            (SystemdInstaller.normalize_service_name "tiktok-auto") true)
  = mkPath Root1 ["home"; "rec"; ".config"; "systemd"; "user"].
Proof.
  exact (proj1 (unit_file_location (mkPath Root1 ["home"; "rec"]) "tiktok-auto"
                  true eq_refl)).
Defined.

Lemma substring_char (k m : nat) (s t : string) (c : ascii) :
  String.substring k m s = String c t -> PyStr.contains_char c s = true.
Proof.
  revert k m. induction s as [|a s IH]; intros k m H.
  - destruct k, m; discriminate.
  - destruct k as [|k].
    + destruct m as [|m]; [discriminate|]. cbn in H. injection H as -> _.
      cbn. now rewrite Ascii.eqb_refl.
    + cbn in H. cbn. destruct (Ascii.eqb a c); [reflexivity|]. eapply IH, H.
Qed.

Lemma endswith_dotless (service_name : string) :
  PyStr.contains_char "."%char service_name = false ->
  PyStr.endswith service_name ".service" = false.
Proof.
  intros Hs. unfold PyStr.endswith.
  destruct (_ <=? _)%nat; [|reflexivity].
  destruct (String.eqb _ ".service") eqn:E; [|reflexivity].
  apply String.eqb_eq in E. apply substring_char in E. congruence.
Qed.

Lemma replace_dotless (service_name : string) :
  PyStr.contains_char "."%char service_name = false ->
  SystemdInstaller.replace (service_name ++ ".service") ".service" ".log"
  = service_name ++ ".log".
Proof.
  unfold SystemdInstaller.replace.
  induction service_name as [|a s IH]; intros Hs; [reflexivity|].
  cbn in Hs. destruct (Ascii.eqb a "."%char) eqn:Ea; [discriminate|].
  cbn [append SystemdInstaller.replace_from String.prefix].
  destruct (ascii_dec "."%char a) as [<-|_]; [discriminate|].
  now rewrite (IH Hs).
Qed.

(** For a service name without a dot, given with or without the
    [".service"] ending, the default log file is [logs/<name>.log] under
    the working directory. *)
Theorem default_log_file_dotless (working_directory : Path) (service_name : string) :
  PyStr.contains_char "."%char service_name = false ->
  SystemdInstaller.default_log_file working_directory service_name
  = truediv (truediv working_directory "logs") (service_name ++ ".log") /\
  SystemdInstaller.default_log_file working_directory (service_name ++ ".service")
  = truediv (truediv working_directory "logs") (service_name ++ ".log").
Proof.
  intros Hs. unfold SystemdInstaller.default_log_file,
    SystemdInstaller.normalize_service_name.
  rewrite (endswith_dotless _ Hs), endswith_append.
  now rewrite (replace_dotless _ Hs).
Qed.

Lemma default_log_file_dotless_witness :
  SystemdInstaller.default_log_file (mkPath Root1 ["opt"; "recorder"])
    "tiktok-auto.service"
  = mkPath Root1 ["opt"; "recorder"; "logs"; "tiktok-auto.log"].
Proof.
  exact (proj2 (default_log_file_dotless (mkPath Root1 ["opt"; "recorder"])
                  "tiktok-auto" eq_refl)).
Defined.

(** ** The lines of the unit *)

Lemma service_lines_user_and_group host args recorder_args config service_name :
  SystemdInstaller.build_config host args recorder_args = inl config ->
  let lines := service_lines config service_name in
  (forall line,
      In line lines -> PyStr.startswith line "User=" = true ->
      SystemdInstaller.args_user_service args = false /\
      exists u, SystemdInstaller.args_run_as_user args = Some u /\
                u <> EmptyString /\ line = "User=" ++ u) /\
  (forall line,
      In line lines -> PyStr.startswith line "Group=" = true ->
      SystemdInstaller.args_user_service args = false /\
      exists g, SystemdInstaller.args_run_as_group args = Some g /\
                g <> EmptyString /\ line = "Group=" ++ g) /\
  (SystemdInstaller.args_user_service args = false ->
   (forall u, SystemdInstaller.args_run_as_user args = Some u ->
              u <> EmptyString -> In ("User=" ++ u) lines) /\
   (forall g, SystemdInstaller.args_run_as_group args = Some g ->
              g <> EmptyString -> In ("Group=" ++ g) lines)) /\
  In ("WantedBy=" ++ (if SystemdInstaller.args_user_service args
                      then "default.target" else "multi-user.target")) lines.
Proof.
  intros Hb lines.
  assert (Hc : SystemdInstaller.user_service config
               = SystemdInstaller.args_user_service args /\
               SystemdInstaller.run_as_user config
               = (if SystemdInstaller.args_user_service args then None
                  else SystemdInstaller.args_run_as_user args) /\
               SystemdInstaller.run_as_group config
               = (if SystemdInstaller.args_user_service args then None
                  else SystemdInstaller.args_run_as_group args)).
  { unfold SystemdInstaller.build_config in Hb.
    repeat match type of Hb with
           | (if ?c then _ else _) = _ => destruct c; try discriminate
           end.
    injection Hb as <-. cbn. auto. }
  destruct Hc as (Hu & Hru & Hrg).
  subst lines. unfold service_lines. rewrite Hu, Hru, Hrg. clear Hu Hru Hrg Hb.
  generalize (SystemdInstaller.build_exec_start config) as exec_text.
  generalize (str_int (SystemdInstaller.restart_sec config)) as restart_text.
  generalize (str (SystemdInstaller.working_directory config)) as directory_text.
  generalize (SystemdInstaller.description config) as description_text.
  intros description_text directory_text restart_text exec_text.
  unfold truthy.
  destruct (SystemdInstaller.args_user_service args).
  - cbv zeta. cbn [app]. splits.
    + intros line Hin Hp. cbn [In] in Hin.
      repeat (destruct Hin as [<-|Hin]; [cbn in Hp; discriminate|]).
      destruct Hin.
    + intros line Hin Hp. cbn [In] in Hin.
      repeat (destruct Hin as [<-|Hin]; [cbn in Hp; discriminate|]).
      destruct Hin.
    + discriminate.
    + cbn. tauto.
  - cbv zeta. splits.
    + intros line Hin Hp. split; [reflexivity|].
      destruct (SystemdInstaller.args_run_as_user args) as [u|];
        [destruct (String.eqb u EmptyString) eqn:Hne|];
        (destruct (SystemdInstaller.args_run_as_group args) as [g|];
         [destruct (String.eqb g EmptyString)|]);
        cbn [negb app In] in Hin;
        repeat (destruct Hin as [<-|Hin];
                [first [ cbn in Hp; discriminate
                       | exists u; splits; auto; now apply String.eqb_neq ]|]);
        destruct Hin.
    + intros line Hin Hp. split; [reflexivity|].
      destruct (SystemdInstaller.args_run_as_group args) as [g|];
        [destruct (String.eqb g EmptyString) eqn:Hne|];
        (destruct (SystemdInstaller.args_run_as_user args) as [u|];
         [destruct (String.eqb u EmptyString)|]);
        cbn [negb app In] in Hin;
        repeat (destruct Hin as [<-|Hin];
                [first [ cbn in Hp; discriminate
                       | exists g; splits; auto; now apply String.eqb_neq ]|]);
        destruct Hin.
    + intros _. split.
      * intros u -> Hne. apply String.eqb_neq in Hne. rewrite Hne.
        cbn [negb]. apply in_or_app. right. apply in_or_app. left. now left.
      * intros g -> Hne. apply String.eqb_neq in Hne. rewrite Hne.
        cbn [negb]. apply in_or_app. right. apply in_or_app. right.
        apply in_or_app. left. now left.
    + apply in_or_app. right. apply in_or_app. right. apply in_or_app. right.
      cbn. tauto.
Qed.

Lemma split_line (c : ascii) (x rest : string) :
  PyStr.contains_char c x = false ->
  PyStr.split c (x ++ String c rest) = x :: PyStr.split c rest.
Proof.
  induction x as [|a x IH]; intros H.
  - cbn. now rewrite Ascii.eqb_refl.
  - cbn in H. destruct (Ascii.eqb a c) eqn:E; [discriminate|].
    change (String a x ++ String c rest) with (String a (x ++ String c rest)).
    cbn [PyStr.split]. now rewrite E, (IH H).
Qed.

(** the lines of a text made of lines without a line feed, each followed
    by one *)
Lemma split_join_lines (c : ascii) (l : list string) :
  l <> [] ->
  (forall x, In x l -> PyStr.contains_char c x = false) ->
  PyStr.split c (PyStr.join (String c EmptyString) l ++ String c EmptyString)
  = (l ++ [EmptyString])%list.
Proof.
  induction l as [|x l IH]; intros Hne Hall; [congruence|].
  destruct l as [|y l].
  - cbn [PyStr.join app]. rewrite split_line by (apply Hall; now left).
    reflexivity.
  - change (PyStr.join (String c "") (x :: y :: l))
      with (x ++ String c "" ++ PyStr.join (String c "") (y :: l)).
    rewrite !append_assoc.
    change (String c "" ++ ?t) with (String c t).
    rewrite split_line by (apply Hall; now left).
    cbn [append].
    rewrite IH; [reflexivity | discriminate |].
    intros z Hz. apply Hall. now right.
Qed.

Lemma uint_one_line (d : Decimal.uint) :
  PyStr.contains_char (ascii_of_nat 10) (NilEmpty.string_of_uint d) = false.
Proof. induction d; cbn; auto. Qed.

Lemma str_int_one_line (n : Z) :
  PyStr.contains_char (ascii_of_nat 10) (str_int n) = false.
Proof.
  unfold str_int, NilZero.string_of_int, NilZero.string_of_uint.
  destruct (Z.to_int n) as [d|d]; destruct d;
    try reflexivity; try apply (uint_one_line (_ d));
    cbn [PyStr.contains_char]; cbn; try apply uint_one_line.
Qed.

Lemma service_lines_one_line config service_name :
  forallb one_line (unit_texts config service_name) = true ->
  forall x, In x (service_lines config service_name) ->
            PyStr.contains_char (ascii_of_nat 10) x = false.
Proof.
  unfold unit_texts, service_lines, truthy.
  intros H x Hin.
  rewrite forallb_forall in H.
  assert (Ht : forall t, In t
                 ([SystemdInstaller.description config;
                   str (SystemdInstaller.working_directory config);
                   SystemdInstaller.build_exec_start config; service_name]
                  ++ match SystemdInstaller.run_as_user config with
                     | Some u => [u] | None => [] end
                  ++ match SystemdInstaller.run_as_group config with
                     | Some g => [g] | None => [] end)%list ->
               PyStr.contains_char (ascii_of_nat 10) t = false).
  { intros t Hin'. specialize (H t Hin'). unfold one_line in H.
    now destruct (PyStr.contains_char _ t). }
  clear H.
  pose proof (str_int_one_line (SystemdInstaller.restart_sec config)) as Hri.
  revert Hin Ht Hri.
  generalize (SystemdInstaller.build_exec_start config) as exec_text.
  generalize (str_int (SystemdInstaller.restart_sec config)) as restart_text.
  generalize (str (SystemdInstaller.working_directory config)) as directory_text.
  generalize (SystemdInstaller.description config) as description_text.
  intros description_text directory_text restart_text exec_text Hin Ht Hri.
  cbv zeta in Hin.
  assert (Hpre : forall (a b : string),
             PyStr.contains_char (ascii_of_nat 10) a = false ->
             PyStr.contains_char (ascii_of_nat 10) b = false ->
             PyStr.contains_char (ascii_of_nat 10) (a ++ b) = false).
  { intros a b Ha Hb. now rewrite contains_char_app, Ha, Hb. }
  destruct (SystemdInstaller.user_service config);
    destruct (SystemdInstaller.run_as_user config) as [u|];
    [destruct (String.eqb u EmptyString)| |destruct (String.eqb u EmptyString)|];
    (destruct (SystemdInstaller.run_as_group config) as [g|];
     [destruct (String.eqb g EmptyString)|]);
    cbn [negb app In] in Hin, Ht;
    repeat (destruct Hin as [<-|Hin];
            [first [ reflexivity
                   | apply Hpre; [reflexivity|]; first [exact Hri | apply Ht; tauto] ]|]);
    destruct Hin.
Qed.

(** When none of the texts that go into the unit holds a line feed, the
    lines of the unit are those [build_service_content] put together.
    Then, for a configuration from [build_config], a [User=] or [Group=]
    line is there only for a system service, and it carries the non-empty
    name given on the command line; such a name always gets its line; and
    the unit is wanted by [default.target] for a user service and by
    [multi-user.target] otherwise. *)
Theorem unit_user_and_group host args recorder_args config service_name :
  SystemdInstaller.build_config host args recorder_args = inl config ->
  forallb one_line (unit_texts config service_name) = true ->
  let lines := text_lines (build_service_content config service_name) in
  lines = (service_lines config service_name ++ [EmptyString])%list /\
  (forall line,
      In line lines -> PyStr.startswith line "User=" = true ->
      SystemdInstaller.args_user_service args = false /\
      exists u, SystemdInstaller.args_run_as_user args = Some u /\
                u <> EmptyString /\ line = "User=" ++ u) /\
  (forall line,
      In line lines -> PyStr.startswith line "Group=" = true ->
      SystemdInstaller.args_user_service args = false /\
      exists g, SystemdInstaller.args_run_as_group args = Some g /\
                g <> EmptyString /\ line = "Group=" ++ g) /\
  (SystemdInstaller.args_user_service args = false ->
   (forall u, SystemdInstaller.args_run_as_user args = Some u ->
              u <> EmptyString -> In ("User=" ++ u) lines) /\
   (forall g, SystemdInstaller.args_run_as_group args = Some g ->
              g <> EmptyString -> In ("Group=" ++ g) lines)) /\
  In ("WantedBy=" ++ (if SystemdInstaller.args_user_service args
                      then "default.target" else "multi-user.target")) lines.
Proof.
  intros Hb Hone lines.
  assert (Hl : lines = (service_lines config service_name ++ [EmptyString])%list).
  { subst lines. unfold text_lines, build_service_content, newline.
    apply split_join_lines.
    - unfold service_lines. cbv zeta. discriminate.
    - now apply service_lines_one_line. }
  destruct (service_lines_user_and_group host args recorder_args config
              service_name Hb) as (HU & HG & HS & HW).
  split; [exact Hl|]. rewrite Hl. splits.
  - intros line Hin Hp. apply in_app_or in Hin.
    destruct Hin as [Hin|[<-|[]]]; [now apply HU | discriminate].
  - intros line Hin Hp. apply in_app_or in Hin.
    destruct Hin as [Hin|[<-|[]]]; [now apply HG | discriminate].
  - intros Hs. destruct (HS Hs) as (A & B). split.
    + intros u E Hne. apply in_or_app. left. now apply A.
    + intros g E Hne. apply in_or_app. left. now apply B.
  - apply in_or_app. now left.
Qed.

(** A description with a line feed in it puts a line of its own into the
    unit: here a [User=] line in the unit of a user service, whose
    configuration names no user. *)
Lemma line_feed_in_description_adds_a_line :
  let args :=
    SystemdInstaller.mkArgs "tiktok-auto" ("Recorder" ++ newline ++ "User=root")
      "/usr/bin/python3" (mkPath Root1 ["opt"; "recorder"; "main.py"])
      (mkPath Root1 ["opt"; "recorder"]) true None None None 5 false false in
  exists config,
    SystemdInstaller.build_config Examples.plain_host args [] = inl config /\
    SystemdInstaller.run_as_user config = None /\
    forallb one_line (unit_texts config "tiktok-auto.service") = false /\
    In "User=root"
       (text_lines (build_service_content config "tiktok-auto.service")) /\
    ~ In "User=root" (service_lines config "tiktok-auto.service").
Proof.
  eexists. split; [vm_compute; reflexivity|].
  split; [reflexivity|]. split; [vm_compute; reflexivity|].
  split; [vm_compute; tauto|].
  vm_compute. intros H.
  repeat (destruct H as [H|H]; [discriminate H|]). exact H.
Qed.

Lemma unit_user_and_group_witness :
  In "WantedBy=default.target"
    (text_lines (build_service_content tiktok_auto "tiktok-auto.service")).
Proof.
  exact (proj2 (proj2 (proj2 (proj2
           (unit_user_and_group Examples.plain_host
              Examples.installer_args ["-user"; "someuser"]
              tiktok_auto "tiktok-auto.service" eq_refl eq_refl))))).
Defined.
